(** * notectl: a shallow embedding of the command-line note keeper

    The program is one Go file: [main] parses a subcommand ([new], [show],
    [delete]) with package [flag], talks to one SQLite table ([notes]) and
    prints to the console.  The embedding keeps that shape:

    - the Go library functions the program calls ([strings.Split],
      [strings.Join], [strconv.Atoi], [strconv.ParseInt], [strconv.ParseBool],
      [fmt.Sprintf "%v"] on a slice of strings, package [flag]'s parser) are
      modelled as pure functions on [string];
    - the process state (the notes table, standard input, the clock, the
      temporary files, the console) is a record [world], threaded by a small
      state monad whose results are "returned", "exited with a status" or
      "panicked";
    - every function of the program is a definition of the same name;
    - the database file is taken to open, and a new row is given the
      largest rowid plus one, the engine's rule as long as the largest
      rowid is below 2^63-1: statements that depend on either say so with
      [opened] and [headroom]. *)

From Stdlib Require Import ZArith List String Ascii Bool Lia Sorted.

Import ListNotations.

Local Open Scope string_scope.

Local Open Scope Z_scope.

Local Open Scope list_scope.

(** ** Bytes and runes *)

Definition byte_of (c : ascii) : Z := Z.of_N (N_of_ascii c).

(** A Go rune is a Unicode code point. *)
Definition rune := Z.

Definition rune_of (c : ascii) : rune := byte_of c.

(** ** Package strings *)

Module strings.

(** [strings.Split s sep] for a separator of one byte, which is how both
    call sites of the program use it (["/"] and [","]).  The result is never
    empty: splitting the empty string gives one empty field. *)
Fixpoint Split (s : string) (sep : ascii) : list string :=
  match s with
  | EmptyString => [EmptyString]
  | String c s' =>
      if Ascii.eqb c sep then EmptyString :: Split s' sep
      else match Split s' sep with
           | field :: fields => String c field :: fields
           | [] => [String c EmptyString]
           end
  end.

(** [strings.Join elems sep]. *)
Fixpoint Join (elems : list string) (sep : string) : string :=
  match elems with
  | [] => EmptyString
  | [e] => e
  | e :: rest => (e ++ sep ++ Join rest sep)%string
  end.

(** Does the byte [c] occur in [s]? *)
Fixpoint ContainsByte (s : string) (c : ascii) : bool :=
  match s with
  | EmptyString => false
  | String x s' => Ascii.eqb x c || ContainsByte s' c
  end.

End strings.

(** ** Package strconv *)

Module strconv.

Inductive NumError := ErrSyntax | ErrRange.

Definition maxUint64 : Z := 2 ^ 64 - 1.

(** [lower(c)] of strconv: [c | ('x' - 'X')]. *)
Definition lower (c : Z) : Z := Z.lor c 32.

Definition is_digit (c : Z) : bool := (48 <=? c) && (c <=? 57).
Definition is_letter (c : Z) : bool := (97 <=? lower c) && (lower c <=? 122).

(** The digit loop of [ParseUint], 64 bits.  [base0] says whether the base
    was given as 0, in which case underscores are skipped (and checked
    afterwards by [underscoreOK]). *)
Fixpoint parse_digits (s : string) (base : Z) (base0 : bool) (n : Z)
  : Z * option NumError :=
  match s with
  | EmptyString => (n, None)
  | String ch s' =>
      let c := byte_of ch in
      if (c =? 95) && base0 then parse_digits s' base base0 n
      else
        let d := if is_digit c then Some (c - 48)
                 else if is_letter c then Some (lower c - 97 + 10)
                 else None in
        match d with
        | None => (0, Some ErrSyntax)
        | Some d =>
            if base <=? d then (0, Some ErrSyntax)
            else if maxUint64 / base + 1 <=? n then (maxUint64, Some ErrRange)
            else
              let n1 := n * base + d in
              if maxUint64 <? n1 then (maxUint64, Some ErrRange)
              else parse_digits s' base base0 n1
        end
  end.

Definition strip_sign (s : string) : string :=
  match s with
  | String c s' => if (byte_of c =? 45) || (byte_of c =? 43) then s' else s
  | EmptyString => s
  end.

(** Is [s] a base prefix [0b], [0o] or [0x] (any case) followed by anything? *)
Definition base_prefix (s : string) : option Z :=
  match s with
  | String z (String p _) =>
      if byte_of z =? 48 then
        let l := lower (byte_of p) in
        if l =? 98 then Some 2
        else if l =? 111 then Some 8
        else if l =? 120 then Some 16
        else None
      else None
  | _ => None
  end.

(** The scan of [underscoreOK]: [saw] is the last kind of character seen,
    ['0'] for a digit or base prefix, ['_'] for an underscore, ['!'] for
    anything else, ['^'] at the start. *)
Fixpoint underscore_scan (s : string) (hex : bool) (saw : Z) : bool :=
  match s with
  | EmptyString => negb (saw =? 95)
  | String ch s' =>
      let c := byte_of ch in
      if is_digit c
         || (hex && (97 <=? lower c) && (lower c <=? 102))
      then underscore_scan s' hex 48
      else if c =? 95 then
        if saw =? 48 then underscore_scan s' hex 95 else false
      else if saw =? 95 then false
      else underscore_scan s' hex 33
  end.

Definition underscoreOK (s : string) : bool :=
  let s := strip_sign s in
  match base_prefix s with
  | Some b =>
      match s with
      | String _ (String _ rest) => underscore_scan rest (b =? 16) 48
      | _ => false
      end
  | None => underscore_scan s false 94
  end.

(** [ParseUint s base 64], for [base] 0 or between 2 and 36. *)
Definition ParseUint (s : string) (base : Z) : Z * option NumError :=
  match s with
  | EmptyString => (0, Some ErrSyntax)
  | String c0 rest0 =>
      let base0 := base =? 0 in
      let '(b, digits) :=
        if base0 then
          if byte_of c0 =? 48 then
            match base_prefix s with
            | Some b =>
                if 3 <=? Z.of_nat (String.length s)
                then (b, match rest0 with String _ r => r | _ => rest0 end)
                else (8, rest0)
            | None => (8, rest0)
            end
          else (10, s)
        else (base, s) in
      let '(n, err) := parse_digits digits b base0 0 in
      match err with
      | Some e => (n, Some e)
      | None =>
          if base0 && negb (underscoreOK s) && strings.ContainsByte s "_"
          then (0, Some ErrSyntax)
          else (n, None)
      end
  end.

(** [ParseInt s base 64]. *)
Definition ParseInt (s : string) (base : Z) : Z * option NumError :=
  match s with
  | EmptyString => (0, Some ErrSyntax)
  | String c0 _ =>
      let neg := byte_of c0 =? 45 in
      let '(un, err) := ParseUint (strip_sign s) base in
      match err with
      | Some ErrSyntax => (0, Some ErrSyntax)
      | _ =>
          let cutoff := 2 ^ 63 in
          if negb neg && (cutoff <=? un) then (cutoff - 1, Some ErrRange)
          else if neg && (cutoff <? un) then (- cutoff, Some ErrRange)
          else (if neg then - un else un, None)
      end
  end.

(** The fast path of [Atoi]: decimal digits only, no overflow possible. *)
Fixpoint atoi_fast (s : string) (n : Z) : option Z :=
  match s with
  | EmptyString => Some n
  | String ch s' =>
      let c := byte_of ch in
      if is_digit c then atoi_fast s' (n * 10 + (c - 48)) else None
  end.

(** [strconv.Atoi] on a 64-bit platform. *)
Definition Atoi (s : string) : Z * option NumError :=
  let sLen := Z.of_nat (String.length s) in
  if (0 <? sLen) && (sLen <? 19) then
    match s with
    | EmptyString => (0, Some ErrSyntax)
    | String c0 _ =>
        let digits := strip_sign s in
        match digits with
        | EmptyString => (0, Some ErrSyntax)
        | _ =>
            match atoi_fast digits 0 with
            | None => (0, Some ErrSyntax)
            | Some n => (if byte_of c0 =? 45 then - n else n, None)
            end
        end
    end
  else ParseInt s 10.

(** [strconv.ParseBool]. *)
Definition ParseBool (str : string) : option bool :=
  if existsb (String.eqb str) ["1"; "t"; "T"; "TRUE"; "true"; "True"]
  then Some true
  else if existsb (String.eqb str) ["0"; "f"; "F"; "FALSE"; "false"; "False"]
  then Some false
  else None.

End strconv.

(** ** Package time

    The program observes a [time.Time] only through [Day], [Month], [Year]
    and [Unix] (and through [Format], which only reaches the console). *)

Module time.

Record Time := { Day : Z; Month : Z; Year : Z; Unix : Z }.

End time.

(** ** The data model *)

Definition tagList := list string.

(** [fmt.Sprintf("%v", *s)] for [*s] a slice of strings: the elements
    separated by single spaces, in square brackets.  ([String] has a pointer
    receiver, so the slice value itself is not a [Stringer] and is printed
    by its kind.) *)
Definition tagList_String (s : tagList) : string :=
  ("[" ++ strings.Join s " " ++ "]")%string.

(** [tagList.Set]. *)
Definition tagList_Set (value : string) : tagList := strings.Split value ",".

Record note := { Time : time.Time; Text : string; Tags : tagList }.

(** One row of the table
    [notes (id INTEGER PRIMARY KEY, day INTEGER, month INTEGER, year INTEGER,
            timestamp INTEGER, notetext BLOB, tags TEXT)]. *)
Record row := {
  id : Z; day : Z; month : Z; year : Z;
  timestamp : Z; notetext : string; tags : string
}.

(** ** The SQL the program sends

    The five statements and queries of the program, named by what their text
    says; the values bound to the [?] placeholders travel beside them. *)

Inductive statement :=
| CREATE_TABLE_IF_NOT_EXISTS_notes
| INSERT_INTO_notes          (* (day, month, year, timestamp, notetext, tags) *)
| DROP_TABLE_notes.

Inductive selection :=
| SELECT_ALL                 (* SELECT * FROM notes *)
| WHERE_id                   (* ... WHERE id = (?) *)
| WHERE_day_month_year       (* ... WHERE day = (?) AND month = (?) AND year = (?) *)
| WHERE_month_year           (* ... WHERE month = (?) AND year = (?) *)
| WHERE_year.                (* ... WHERE year = (?) *)

Inductive sqlval := VInt (z : Z) | VText (s : string).

(** The engine, as far as the program uses it. *)
Module sqlite.

(** Does the statement compile?  Everything but the CREATE needs the
    table. *)
Definition compiles (s : statement) (t : option (list row)) : bool :=
  match s, t with
  | CREATE_TABLE_IF_NOT_EXISTS_notes, _ => true
  | _, Some _ => true
  | _, None => false
  end.

Definition max_rowid (rows : list row) : option Z :=
  match rows with
  | [] => None
  | r :: rest => Some (fold_left Z.max (map id rest) (id r))
  end.

(** The rowid given to a row inserted without one into a table whose
    [id] column is [INTEGER PRIMARY KEY]: 1 in an empty table, else one
    more than the largest in use.  (The engine departs from this only
    when the largest rowid is 2^63-1, see [MaxRowid] and [headroom].) *)
Definition next_rowid (rows : list row) : Z :=
  match max_rowid rows with
  | None => 1
  | Some m => m + 1
  end.

(** Running a statement.  A statement that fails leaves the table as it
    was. *)
Definition exec (s : statement) (args : list sqlval)
           (t : option (list row)) : option (list row) :=
  match s, t with
  | CREATE_TABLE_IF_NOT_EXISTS_notes, None => Some []
  | CREATE_TABLE_IF_NOT_EXISTS_notes, Some rows => Some rows
  | DROP_TABLE_notes, _ => None
  | INSERT_INTO_notes, Some rows =>
      match args with
      | [VInt d; VInt m; VInt y; VInt ts; VText txt; VText tgs] =>
          Some (rows ++ [{| id := next_rowid rows; day := d; month := m;
                            year := y; timestamp := ts; notetext := txt;
                            tags := tgs |}])
      | _ => Some rows
      end
  | INSERT_INTO_notes, None => None
  end.

(** The WHERE clause of a query with its placeholders bound. *)
Definition where_ (q : selection) (args : list Z) : option (row -> bool) :=
  match q, args with
  | SELECT_ALL, [] => Some (fun _ => true)
  | WHERE_id, [i] => Some (fun r => id r =? i)
  | WHERE_day_month_year, [d; m; y] =>
      Some (fun r => (day r =? d) && (month r =? m) && (year r =? y))
  | WHERE_month_year, [m; y] =>
      Some (fun r => (month r =? m) && (year r =? y))
  | WHERE_year, [y] => Some (fun r => year r =? y)
  | _, _ => None
  end.

(** The rows a query yields, in rowid order; [None] when the query fails
    (no table, or placeholders not matched). *)
Definition query (q : selection) (args : list Z)
           (t : option (list row)) : option (list row) :=
  match t, where_ q args with
  | Some rows, Some keep => Some (filter keep rows)
  | _, _ => None
  end.

End sqlite.

(** ** The process state *)

(** What the process writes to the console and asks of the outside world, in
    the order it happens. *)
Inductive event :=
| Line (text : string)                  (* fmt.Println *)
| Defaults (flagset : string)           (* PrintDefaults: the option help *)
| FlagError (flagset : string)          (* package flag's message and usage *)
| NoteLine (n : note)                   (* the line of note.PrintConsole *)
| RowLine (r : row)                     (* one line of printRows *)
| Executed (s : statement)              (* statement.Exec *)
| Queried (q : selection) (args : list Z) (* database.Query *)
| EditorRun (executable filename : string)
| Closed.                               (* database.Close *)

(** The part of the outside world the program only reads. *)
Record osenv := {
  HOME : string;
  EDITOR : string;
  LookPath : string -> option string;
  (** [ioutil.TempFile]: the name of the file created, or an error. *)
  TempFile : option string;
  (** Does closing the fresh temporary file succeed? *)
  CloseOk : bool;
  (** [cmd.Run] of the editor on a file: whether it succeeded, and the
      contents it left in the file ([None]: the file is gone). *)
  Run : string -> string -> bool * option string;
  (** The successive readings of the clock. *)
  clock : nat -> time.Time
}.

Record world := {
  os : osenv;
  (** The table [notes] of the database file: absent, or its rows in rowid
      order. *)
  table : option (list row);
  stdin : list rune;
  ticks : nat;                 (* clock readings made so far *)
  tmpfiles : list (string * string);   (* temporary files: name, contents *)
  console : list event         (* oldest first *)
}.

Definition with_table (t : option (list row)) (w : world) : world :=
  {| os := os w; table := t; stdin := stdin w; ticks := ticks w;
     tmpfiles := tmpfiles w; console := console w |}.

Definition with_stdin (s : list rune) (w : world) : world :=
  {| os := os w; table := table w; stdin := s; ticks := ticks w;
     tmpfiles := tmpfiles w; console := console w |}.

Definition with_ticks (n : nat) (w : world) : world :=
  {| os := os w; table := table w; stdin := stdin w; ticks := n;
     tmpfiles := tmpfiles w; console := console w |}.

Definition with_tmpfiles (l : list (string * string)) (w : world) : world :=
  {| os := os w; table := table w; stdin := stdin w; ticks := ticks w;
     tmpfiles := l; console := console w |}.

Definition with_console (l : list event) (w : world) : world :=
  {| os := os w; table := table w; stdin := stdin w; ticks := ticks w;
     tmpfiles := tmpfiles w; console := l |}.

(** The rows a database holds: none when the table is absent. *)
Definition rows_of (t : option (list row)) : list row :=
  match t with Some rows => rows | None => [] end.

(** ** The monad of the program

    A computation runs in a world and returns a value, or ends the process
    with [os.Exit], or panics.  The world reached is kept in all three
    cases: what was written before an exit stays written. *)

Inductive outcome (A : Type) :=
| Returned (a : A)
| Exited (code : Z)
| Panicked (msg : string).

Arguments Returned {A} a.

Arguments Exited {A} code.

Arguments Panicked {A} msg.

Definition M (A : Type) : Type := world -> outcome A * world.

Definition ret {A} (a : A) : M A := fun w => (Returned a, w).

Definition bind {A B} (m : M A) (k : A -> M B) : M B :=
  fun w =>
    match m w with
    | (Returned a, w') => k a w'
    | (Exited c, w') => (Exited c, w')
    | (Panicked msg, w') => (Panicked msg, w')
    end.

Declare Scope go_scope.

Delimit Scope go_scope with go.

Notation "x <- m ;; k" := (bind m (fun x => k))
  (at level 61, m at next level, right associativity) : go_scope.

Notation "m ;; k" := (bind m (fun _ => k))
  (at level 61, right associativity) : go_scope.

Local Open Scope go_scope.

Definition Exit {A} (code : Z) : M A := fun w => (Exited code, w).

Definition panic {A} (msg : string) : M A := fun w => (Panicked msg, w).

Definition emit (e : event) : M unit :=
  fun w => (Returned tt, with_console (console w ++ [e]) w).

Definition Getenv (var : osenv -> string) : M string :=
  fun w => (Returned (var (os w)), w).

(** [time.Now()]: the next reading of the clock. *)
Definition Now : M time.Time :=
  fun w => (Returned (clock (os w) (ticks w)), with_ticks (S (ticks w)) w).

(** [bufio.Reader.ReadRune] on standard input: the first rune, or an error
    at end of input.  Standard input is given as the runes it decodes to. *)
Definition ReadRune : M (option rune) :=
  fun w =>
    match stdin w with
    | [] => (Returned None, w)
    | char :: rest => (Returned (Some char), with_stdin rest w)
    end.

(** What a finished run looks like from outside. *)
Definition result_of {A} (r : outcome A * world) : outcome A := fst r.

Definition world_of {A} (r : outcome A * world) : world := snd r.

(** ** Package database/sql

    The program discards every error these calls return, so a failed
    [Prepare] or [Query] shows only as the nil result it leaves behind. *)

Definition sqlDB := string.   (* a handle: the path it was opened on *)

(** [database.Prepare]: nil when the statement does not compile.  The
    database file itself is taken to open: on one that does not, every
    statement, the CREATE too, would prepare to nil (see [opened]). *)
Definition Prepare (database : sqlDB) (s : statement) : M (option statement) :=
  fun w => (Returned (if sqlite.compiles s (table w) then Some s else None), w).

(** [statement.Exec]: a nil statement is a nil pointer dereference. *)
Definition Exec (st : option statement) (args : list sqlval) : M unit :=
  match st with
  | None => panic "invalid memory address or nil pointer dereference"
  | Some s =>
      fun w => (Returned tt,
                with_console (console w ++ [Executed s])
                  (with_table (sqlite.exec s args (table w)) w))
  end.

(** [database.Query]: nil rows when the query fails. *)
Definition Query (database : sqlDB) (q : selection) (args : list Z)
  : M (option (list row)) :=
  fun w => (Returned (sqlite.query q args (table w)),
            with_console (console w ++ [Queried q args]) w).

Definition Close (database : sqlDB) : M unit := emit Closed.

(** ** Package flag *)

Module flag.

Section FlagSet.

(** The variables the flags of a set are bound to. *)
Variable V : Type.

Record Flag := {
  Name : string;
  IsBoolFlag : bool;
  (** [Value.Set]: the variables after the assignment, or an error. *)
  SetValue : string -> V -> option V
}.

Record FlagSet := { name : string; formal : list Flag }.

(** A flag set after [Parse]: the variables, the names of the flags that
    were set, and the arguments left after the flags. *)
Record Parsed := { vars : V; actual : list string; Args : list string }.

Definition NFlag (p : Parsed) : Z := Z.of_nat (List.length (actual p)).

Inductive ParseResult := ParseOk (p : Parsed) | ErrHelp | ParseError.

Fixpoint lookup (fs : list Flag) (n : string) : option Flag :=
  match fs with
  | [] => None
  | f :: rest => if String.eqb (Name f) n then Some f else lookup rest n
  end.

(** [actual[name] = flag]: the set flags form a map, a name counts once. *)
Definition mark (n : string) (act : list string) : list string :=
  if existsb (String.eqb n) act then act else act ++ [n].

(** What [parseOne] makes of one argument. *)
Inductive token :=
| NonFlag                 (* not a flag: parsing stops before it *)
| Terminator              (* "--": parsing stops after it *)
| BadSyntax
| FlagTok (n : string) (value : option string).

(** Cut [name] at its first ['='] (which is not its first byte). *)
Fixpoint cut_eq (s : string) : string * option string :=
  match s with
  | EmptyString => (EmptyString, None)
  | String c s' =>
      if Ascii.eqb c "=" then (EmptyString, Some s')
      else let '(n, v) := cut_eq s' in (String c n, v)
  end.

Definition name_value (n : string) : token :=
  match n with
  | EmptyString => BadSyntax
  | String c rest =>
      if Ascii.eqb c "-" || Ascii.eqb c "=" then BadSyntax
      else let '(n', v) := cut_eq rest in FlagTok (String c n') v
  end.

Definition classify (s : string) : token :=
  match s with
  | String c0 (String c1 rest as s1) =>
      if Ascii.eqb c0 "-" then
        if Ascii.eqb c1 "-" then
          match rest with
          | EmptyString => Terminator
          | _ => name_value rest
          end
        else name_value s1
      else NonFlag
  | _ => NonFlag
  end.

(** The loop of [FlagSet.Parse] over [parseOne]. *)
Fixpoint parse (fs : FlagSet) (args : list string) (v : V)
         (act : list string) : ParseResult :=
  match args with
  | [] => ParseOk {| vars := v; actual := act; Args := [] |}
  | s :: rest =>
      match classify s with
      | NonFlag => ParseOk {| vars := v; actual := act; Args := args |}
      | Terminator => ParseOk {| vars := v; actual := act; Args := rest |}
      | BadSyntax => ParseError
      | FlagTok n value =>
          match lookup (formal fs) n with
          | None =>
              if String.eqb n "help" || String.eqb n "h" then ErrHelp
              else ParseError
          | Some f =>
              if IsBoolFlag f then
                let value := match value with Some x => x | None => "true" end in
                match SetValue f value v with
                | None => ParseError
                | Some v' => parse fs rest v' (mark n act)
                end
              else
                match value with
                | Some x =>
                    match SetValue f x v with
                    | None => ParseError
                    | Some v' => parse fs rest v' (mark n act)
                    end
                | None =>
                    match rest with
                    | [] => ParseError
                    | x :: rest' =>
                        match SetValue f x v with
                        | None => ParseError
                        | Some v' => parse fs rest' v' (mark n act)
                        end
                    end
                end
          end
      end
  end.

(** [FlagSet.Parse] under [flag.ExitOnError]: a help request prints the
    usage and exits with 0, any other error prints it and exits with 2. *)
Definition Parse (fs : FlagSet) (init : V) (arguments : list string)
  : M Parsed :=
  match parse fs arguments init [] with
  | ParseOk p => ret p
  | ErrHelp => emit (FlagError (name fs));; Exit 0
  | ParseError => emit (FlagError (name fs));; Exit 2
  end.

End FlagSet.

Arguments Name {V} _.
Arguments IsBoolFlag {V} _.
Arguments SetValue {V} _ _ _.
Arguments name {V} _.
Arguments formal {V} _.
Arguments vars {V} _.
Arguments actual {V} _.
Arguments Args {V} _.
Arguments NFlag {V} _.
Arguments ParseOk {V} _.
Arguments ErrHelp {V}.
Arguments ParseError {V}.
Arguments parse {V} _ _ _ _.
Arguments Parse {V} _ _ _.

(** [FlagSet.String], [Bool], [Int]: flags bound to one variable, given
    by how to store into it. *)
Definition String {V} (n : string) (store : string -> V -> V) : Flag V :=
  {| Name := n; IsBoolFlag := false;
     SetValue := fun s v => Some (store s v) |}.

Definition Bool {V} (n : string) (store : bool -> V -> V) : Flag V :=
  {| Name := n; IsBoolFlag := true;
     SetValue := fun s v =>
       match strconv.ParseBool s with
       | Some b => Some (store b v)
       | None => None
       end |}.

Definition Int {V} (n : string) (store : Z -> V -> V) : Flag V :=
  {| Name := n; IsBoolFlag := false;
     SetValue := fun s v =>
       match strconv.ParseInt s 0 with
       | (i, None) => Some (store i v)
       | (_, Some _) => None
       end |}.

End flag.

(** ** The program *)

(** A Go [error]: nil, or a message. *)
Definition error := option string.

(** [defer cleanup] around [body]: the cleanup runs when the body returns or
    panics, not when the process exits. *)
Definition defer {A} (cleanup : M unit) (body : M A) : M A :=
  fun w =>
    match body w with
    | (Returned a, w') =>
        match cleanup w' with
        | (Returned _, w'') => (Returned a, w'')
        | (Exited c, w'') => (Exited c, w'')
        | (Panicked msg, w'') => (Panicked msg, w'')
        end
    | (Exited c, w') => (Exited c, w')
    | (Panicked msg, w') => (Panicked msg, snd (cleanup w'))
    end.

Definition Println (text : string) : M unit := emit (Line text).

Definition PrintDefaults (flagset : string) : M unit := emit (Defaults flagset).

(** DefaultEditor Default text editor for notes *)
Definition DefaultEditor : string := "vi".

Definition PrintConsole (n : note) : M unit := emit (NoteLine n).

Definition connectToDatabase (path : string) : M sqlDB := ret path.

Definition createTableIfNotExist (database : sqlDB) : M unit :=
  statement <- Prepare database CREATE_TABLE_IF_NOT_EXISTS_notes;;
  Exec statement [].

Definition Save (n : note) (database : sqlDB) : M unit :=
  statement <- Prepare database INSERT_INTO_notes;;
  Exec statement
    [VInt (time.Day (Time n)); VInt (time.Month (Time n));
     VInt (time.Year (Time n)); VInt (time.Unix (Time n));
     VText (Text n); VText (tagList_String (Tags n))].

Fixpoint printEach (rows : list row) : M unit :=
  match rows with
  | [] => ret tt
  | r :: rest => emit (RowLine r);; printEach rest
  end.

(** [rows.Next()] on nil rows dereferences a nil pointer. *)
Definition printRows (rows : option (list row)) : M unit :=
  match rows with
  | None => panic "invalid memory address or nil pointer dereference"
  | Some rs => printEach rs
  end.

Definition showAllNotes (database : sqlDB) : M unit :=
  rows <- Query database SELECT_ALL [];;
  printRows rows.

Definition showNoteByID (id : Z) (database : sqlDB) : M unit :=
  rows <- Query database WHERE_id [id];;
  printRows rows.

(** Defaults to this month and this year *)
Definition showNoteByDay (day : Z) (database : sqlDB) : M unit :=
  now1 <- Now;;
  now2 <- Now;;
  rows <- Query database WHERE_day_month_year
            [day; time.Month now1; time.Year now2];;
  printRows rows.

(** Defaults to this year *)
Definition showNoteByMonth (month : Z) (database : sqlDB) : M unit :=
  now <- Now;;
  rows <- Query database WHERE_month_year [month; time.Year now];;
  printRows rows.

Definition showNoteByYear (year : Z) (database : sqlDB) : M unit :=
  rows <- Query database WHERE_year [year];;
  printRows rows.

(** [d[i]]: indexing past the end of a slice panics. *)
Definition index (d : list string) (i : nat) : M string :=
  match nth_error d i with
  | Some x => ret x
  | None => panic "index out of range"
  end.

Definition showNoteByDate (date : string) (usa : bool) (database : sqlDB)
  : M unit :=
  let d := strings.Split date "/" in
  dmy <- (if usa then
            d1 <- index d 1;; d0 <- index d 0;; d2 <- index d 2;;
            ret (fst (strconv.Atoi d1), fst (strconv.Atoi d0),
                 fst (strconv.Atoi d2))
          else
            d0 <- index d 0;; d1 <- index d 1;; d2 <- index d 2;;
            ret (fst (strconv.Atoi d0), fst (strconv.Atoi d1),
                 fst (strconv.Atoi d2)));;
  let '(day, month, year) := dmy in
  rows <- Query database WHERE_day_month_year [day; month; year];;
  printRows rows.

Definition deleteAll (database : sqlDB) : M unit :=
  Println "Are you sure you want to delete all notes? (y/n)";;
  r <- ReadRune;;
  match r with
  | None => panic "EOF"
  | Some char =>
      if (char =? rune_of "y") || (char =? rune_of "Y") then
        Println "Deleting all notes...";;
        statement <- Prepare database DROP_TABLE_notes;;
        Exec statement [];;
        createTableIfNotExist database
      else
        Println "Not deleting notes, everything is still there."
  end.

Definition cmd_Run (executable filename : string) : M error :=
  fun w =>
    let '(ok, after) := Run (os w) executable filename in
    let others :=
      filter (fun f => negb (String.eqb (fst f) filename)) (tmpfiles w) in
    let files :=
      match after with
      | Some contents => (filename, contents) :: others
      | None => others
      end in
    (Returned (if ok then None else Some "exit status"),
     with_console (console w ++ [EditorRun executable filename])
       (with_tmpfiles files w)).

(** [exec.LookPath]: the executable found on the search path, if any. *)
Definition exec_LookPath (file : string) : M (option string) :=
  fun w => (Returned (LookPath (os w) file), w).

Definition openFileInEditor (filename : string) : M error :=
  editor <- Getenv EDITOR;;
  let editor := if String.eqb editor "" then DefaultEditor else editor in
  found <- exec_LookPath editor;;
  match found with
  | None => ret (Some "executable file not found in $PATH")
  | Some executable => cmd_Run executable filename
  end.

(** [ioutil.TempFile]: a fresh empty file, or an error. *)
Definition ioutil_TempFile : M (option string) :=
  fun w =>
    match TempFile (os w) with
    | None => (Returned None, w)
    | Some filename =>
        (Returned (Some filename),
         with_tmpfiles ((filename, "") :: tmpfiles w) w)
    end.

Definition file_Close (filename : string) : M error :=
  fun w => (Returned (if CloseOk (os w) then None else Some "close"), w).

(** [ioutil.ReadFile]: the contents, or nil bytes and an error. *)
Definition ioutil_ReadFile (filename : string) : M (string * error) :=
  fun w =>
    match find (fun f => String.eqb (fst f) filename) (tmpfiles w) with
    | Some f => (Returned (snd f, None), w)
    | None => (Returned ("", Some "no such file or directory"), w)
    end.

Definition os_Remove (filename : string) : M unit :=
  fun w =>
    (Returned tt,
     with_tmpfiles
       (filter (fun f => negb (String.eqb (fst f) filename)) (tmpfiles w)) w).

Definition captureFromEditor : M (string * error) :=
  file <- ioutil_TempFile;;
  match file with
  | None => ret ("", Some "cannot create temporary file")
  | Some filename =>
      defer (os_Remove filename)
        (err <- file_Close filename;;
         match err with
         | Some e => ret ("", Some e)
         | None =>
             err <- openFileInEditor filename;;
             match err with
             | Some e => ret ("", Some e)
             | None =>
                 r <- ioutil_ReadFile filename;;
                 ret (fst r, None)
             end
         end)
  end.

(** The variables the flags of each subcommand are bound to, with the
    defaults they are declared with. *)
Record newVars := {
  newNotePtr : string; newEditorNotePtr : bool; newTagList : tagList
}.

Record showVars := {
  showAllPtr : bool;
  showByIDPtr : Z; showByDayPtr : Z; showByMonthPtr : Z; showByYearPtr : Z;
  showByDatePtr : string; showUSADatePtr : bool
}.

Record deleteVars := { deleteAllPtr : bool }.

Definition newDefaults : newVars :=
  {| newNotePtr := ""; newEditorNotePtr := false; newTagList := [] |}.

Definition showDefaults : showVars :=
  {| showAllPtr := false; showByIDPtr := -1; showByDayPtr := -1;
     showByMonthPtr := -1; showByYearPtr := -1; showByDatePtr := "";
     showUSADatePtr := false |}.

Definition deleteDefaults : deleteVars := {| deleteAllPtr := false |}.

Definition newCommand : flag.FlagSet newVars :=
  {| flag.name := "new";
     flag.formal :=
       [ flag.String "n" (fun s v =>
           {| newNotePtr := s; newEditorNotePtr := newEditorNotePtr v;
              newTagList := newTagList v |});
         flag.Bool "e" (fun b v =>
           {| newNotePtr := newNotePtr v; newEditorNotePtr := b;
              newTagList := newTagList v |});
         {| flag.Name := "t"; flag.IsBoolFlag := false;
            flag.SetValue := fun s v =>
              Some {| newNotePtr := newNotePtr v;
                      newEditorNotePtr := newEditorNotePtr v;
                      newTagList := tagList_Set s |} |} ] |}.

Definition showCommand : flag.FlagSet showVars :=
  {| flag.name := "show";
     flag.formal :=
       [ flag.Bool "all" (fun b v =>
           {| showAllPtr := b; showByIDPtr := showByIDPtr v;
              showByDayPtr := showByDayPtr v; showByMonthPtr := showByMonthPtr v;
              showByYearPtr := showByYearPtr v; showByDatePtr := showByDatePtr v;
              showUSADatePtr := showUSADatePtr v |});
         flag.Int "i" (fun i v =>
           {| showAllPtr := showAllPtr v; showByIDPtr := i;
              showByDayPtr := showByDayPtr v; showByMonthPtr := showByMonthPtr v;
              showByYearPtr := showByYearPtr v; showByDatePtr := showByDatePtr v;
              showUSADatePtr := showUSADatePtr v |});
         flag.Int "day" (fun i v =>
           {| showAllPtr := showAllPtr v; showByIDPtr := showByIDPtr v;
              showByDayPtr := i; showByMonthPtr := showByMonthPtr v;
              showByYearPtr := showByYearPtr v; showByDatePtr := showByDatePtr v;
              showUSADatePtr := showUSADatePtr v |});
         flag.Int "month" (fun i v =>
           {| showAllPtr := showAllPtr v; showByIDPtr := showByIDPtr v;
              showByDayPtr := showByDayPtr v; showByMonthPtr := i;
              showByYearPtr := showByYearPtr v; showByDatePtr := showByDatePtr v;
              showUSADatePtr := showUSADatePtr v |});
         flag.Int "year" (fun i v =>
           {| showAllPtr := showAllPtr v; showByIDPtr := showByIDPtr v;
              showByDayPtr := showByDayPtr v; showByMonthPtr := showByMonthPtr v;
              showByYearPtr := i; showByDatePtr := showByDatePtr v;
              showUSADatePtr := showUSADatePtr v |});
         flag.String "date" (fun s v =>
           {| showAllPtr := showAllPtr v; showByIDPtr := showByIDPtr v;
              showByDayPtr := showByDayPtr v; showByMonthPtr := showByMonthPtr v;
              showByYearPtr := showByYearPtr v; showByDatePtr := s;
              showUSADatePtr := showUSADatePtr v |});
         flag.Bool "usa" (fun b v =>
           {| showAllPtr := showAllPtr v; showByIDPtr := showByIDPtr v;
              showByDayPtr := showByDayPtr v; showByMonthPtr := showByMonthPtr v;
              showByYearPtr := showByYearPtr v; showByDatePtr := showByDatePtr v;
              showUSADatePtr := b |}) ] |}.

Definition deleteCommand : flag.FlagSet deleteVars :=
  {| flag.name := "delete";
     flag.formal := [ flag.Bool "all" (fun b _ => {| deleteAllPtr := b |}) ] |}.

(** The block of [main] under [if newCommand.Parsed()].  [arguments] is
    [os.Args[2:]]. *)
Definition main_new (dbpath : string) (arguments : list string)
           (p : flag.Parsed newVars) : M unit :=
  let v := flag.vars p in
  database <- connectToDatabase dbpath;;
  createTableIfNotExist database;;
  (if String.eqb (newNotePtr v) "" && (0 <? flag.NFlag p)
      && negb (newEditorNotePtr v)
   then PrintDefaults "new";; Exit 1
   else ret tt);;
  let newTagList :=
    if Z.of_nat (List.length (newTagList v)) =? 0 then tagList_Set "generic"
    else newTagList v in
  (* We default to opening a text editor if there are no flags and no extra
     args *)
  newNote <-
    (if (flag.NFlag p =? 0) || newEditorNotePtr v then
       if (Z.of_nat (List.length arguments) =? 0) || newEditorNotePtr v then
         r <- captureFromEditor;;
         match snd r with
         | Some err => panic err
         | None => ret (fst r)
         end
       else ret (strings.Join (flag.Args p) " ")
     else ret (newNotePtr v));;
  timeStamp <- Now;;
  let note := {| Time := timeStamp; Text := newNote; Tags := newTagList |} in
  PrintConsole note;;
  Save note database;;
  Close database.

(** The block of [main] under [if showCommand.Parsed()]. *)
Definition main_show (dbpath : string) (p : flag.Parsed showVars) : M unit :=
  let v := flag.vars p in
  database <- connectToDatabase dbpath;;
  createTableIfNotExist database;;
  (if showAllPtr v then showAllNotes database
   else if negb (showByIDPtr v =? -1) then showNoteByID (showByIDPtr v) database
   else if negb (showByDayPtr v =? -1) then
     showNoteByDay (showByDayPtr v) database
   else if negb (showByMonthPtr v =? -1) then
     showNoteByMonth (showByMonthPtr v) database
   else if negb (showByYearPtr v =? -1) then
     showNoteByYear (showByYearPtr v) database
   else if negb (String.eqb (showByDatePtr v) "") then
     showNoteByDate (showByDatePtr v) (showUSADatePtr v) database
   else PrintDefaults "show";; Exit 1);;
  Close database.

(** The block of [main] under [if deleteCommand.Parsed()]. *)
Definition main_delete (dbpath : string) (p : flag.Parsed deleteVars)
  : M unit :=
  let v := flag.vars p in
  database <- connectToDatabase dbpath;;
  createTableIfNotExist database;;
  (if deleteAllPtr v then deleteAll database
   else PrintDefaults "delete";; Exit 1);;
  Close database.

(** [main], run on [os.Args]. *)
Definition main (Args : list string) : M unit :=
  home <- Getenv HOME;;
  let dbpath := (home ++ "/notectl.db")%string in
  if Z.of_nat (List.length Args) <? 2 then
    Println "subcommand required";; Exit 1
  else
    let subcommand := nth 1 Args "" in
    let arguments := skipn 2 Args in
    if String.eqb subcommand "new" then
      p <- flag.Parse newCommand newDefaults arguments;;
      main_new dbpath arguments p
    else if String.eqb subcommand "show" then
      p <- flag.Parse showCommand showDefaults arguments;;
      main_show dbpath p
    else if String.eqb subcommand "delete" then
      p <- flag.Parse deleteCommand deleteDefaults arguments;;
      main_delete dbpath p
    else
      PrintDefaults (nth 0 Args "");; Exit 1.

(** ** Runs on concrete worlds *)

Definition noon : time.Time :=
  {| time.Day := 5; time.Month := 3; time.Year := 2024;
     time.Unix := 1709640000 |}.

(** A machine with [vi] installed, on which the editor leaves the text
    [typed] in the file it is run on. *)
Definition machine (typed : string) : osenv :=
  {| HOME := "/home/u"; EDITOR := "";
     LookPath := fun e => Some ("/usr/bin/" ++ e)%string;
     TempFile := Some "/tmp/123";
     CloseOk := true;
     Run := fun _ _ => (true, Some typed);
     clock := fun _ => noon |}.

Definition boot (t : option (list row)) (input : list rune) : world :=
  {| os := machine "from the editor"; table := t; stdin := input; ticks := 0;
     tmpfiles := []; console := [] |}.

Definition fresh : world := boot None [].

Definition input (s : string) : list rune :=
  map rune_of (list_ascii_of_string s).

Definition sample (i d m y : Z) (txt : string) : row :=
  {| id := i; day := d; month := m; year := y; timestamp := 0;
     notetext := txt; tags := "[generic]" |}.

(** ** What a run adds to the console *)

(** The events a run from [w] to [w'] appended. *)
Definition added (w w' : world) : list event :=
  skipn (List.length (console w)) (console w').

Fixpoint rows_printed (l : list event) : list row :=
  match l with
  | [] => []
  | RowLine r :: rest => r :: rows_printed rest
  | _ :: rest => rows_printed rest
  end.

(** The rows a computation prints when run in [w], in order. *)
Definition shown {A} (m : M A) (w : world) : list row :=
  rows_printed (added w (snd (m w))).

Definition is_query (e : event) : bool :=
  match e with Queried _ _ => true | _ => false end.

Definition is_editor_run (e : event) : bool :=
  match e with EditorRun _ _ => true | _ => false end.

(** ** The lines [deleteAll] prints *)

Definition ask : string := "Are you sure you want to delete all notes? (y/n)".

Definition deleting : string := "Deleting all notes...".

Definition declined : string :=
  "Not deleting notes, everything is still there.".

(** Is the rune a confirmation? *)
Definition confirms (char : rune) : bool :=
  (char =? rune_of "y") || (char =? rune_of "Y").

(** The path [main] opens the database on. *)
Definition dbpath_of (w : world) : string :=
  (HOME (os w) ++ "/notectl.db")%string.

(** ** The filters of [show]

    The specification's reading of the dispatch: the six filters in their
    order of precedence, each set or not, and the first set one applied. *)

Inductive showFilter :=
| ByAll
| ByID (i : Z)
| ByDay (d : Z)
| ByMonth (m : Z)
| ByYear (y : Z)
| ByDate (date : string) (usa : bool).

(** An integer filter is set when its value is not the sentinel -1. *)
Definition int_filter (mk : Z -> showFilter) (x : Z) : option showFilter :=
  if x =? -1 then None else Some (mk x).

(** all, id, day, month, year, date: each filter if it is set. *)
Definition filters_in_order (v : showVars) : list (option showFilter) :=
  [ if showAllPtr v then Some ByAll else None;
    int_filter ByID (showByIDPtr v);
    int_filter ByDay (showByDayPtr v);
    int_filter ByMonth (showByMonthPtr v);
    int_filter ByYear (showByYearPtr v);
    if String.eqb (showByDatePtr v) "" then None
    else Some (ByDate (showByDatePtr v) (showUSADatePtr v)) ].

Fixpoint first_set (l : list (option showFilter)) : option showFilter :=
  match l with
  | [] => None
  | Some f :: _ => Some f
  | None :: rest => first_set rest
  end.

(** Applying a filter: the function of the program that queries by it. *)
Definition apply_filter (f : showFilter) (database : sqlDB) : M unit :=
  match f with
  | ByAll => showAllNotes database
  | ByID i => showNoteByID i database
  | ByDay d => showNoteByDay d database
  | ByMonth m => showNoteByMonth m database
  | ByYear y => showNoteByYear y database
  | ByDate date usa => showNoteByDate date usa database
  end.

(** ** The date filter *)

(** The day, month and year the date filter reads from three fields. *)
Definition date_fields (usa : bool) (a b c : string) : list Z :=
  if usa
  then [fst (strconv.Atoi b); fst (strconv.Atoi a); fst (strconv.Atoi c)]
  else [fst (strconv.Atoi a); fst (strconv.Atoi b); fst (strconv.Atoi c)].

(** "d/m/y" as the user types it. *)
Definition slashed (a b c : string) : string :=
  (a ++ String "/" (b ++ String "/" c))%string.

(** ** Computations that leave the table alone *)

(** Running [m] leaves the table as it was, however the run ends. *)
Definition keeps_table {A} (m : M A) : Prop :=
  forall w, table (snd (m w)) = table w.

(** ** The steps of [new] *)

(** [new] with options but neither a note text nor the editor flag is a
    usage error. *)
Definition new_usage (p : flag.Parsed newVars) : bool :=
  String.eqb (newNotePtr (flag.vars p)) "" && (0 <? flag.NFlag p)
  && negb (newEditorNotePtr (flag.vars p)).

(** The editor is opened when its flag is true, or when no flag was set and
    nothing at all follows the subcommand. *)
Definition opens_editor (arguments : list string) (p : flag.Parsed newVars)
  : bool :=
  newEditorNotePtr (flag.vars p)
  || ((flag.NFlag p =? 0) && (Z.of_nat (List.length arguments) =? 0)).

(** The tags of the note: those of [-t], or the default. *)
Definition tags_of (v : newVars) : tagList :=
  if Z.of_nat (List.length (newTagList v)) =? 0 then tagList_Set "generic"
  else newTagList v.

(** Where the note text comes from. *)
Definition resolve_text (arguments : list string) (p : flag.Parsed newVars)
  : M string :=
  if opens_editor arguments p then
    r <- captureFromEditor;;
    match snd r with
    | Some err => panic err
    | None => ret (fst r)
    end
  else if flag.NFlag p =? 0 then ret (strings.Join (flag.Args p) " ")
  else ret (newNotePtr (flag.vars p)).

(** The end of [new]: stamp, echo, insert, close. *)
Definition save_note (database : sqlDB) (text : string) (tgs : tagList)
  : M unit :=
  timeStamp <- Now;;
  let note := {| Time := timeStamp; Text := text; Tags := tgs |} in
  PrintConsole note;;
  Save note database;;
  Close database.

(** The row [Save] inserts for a note into a table holding [rows]. *)
Definition saved_row (rows : list row) (n : note) : row :=
  {| id := sqlite.next_rowid rows;
     day := time.Day (Time n); month := time.Month (Time n);
     year := time.Year (Time n); timestamp := time.Unix (Time n);
     notetext := Text n; tags := tagList_String (Tags n) |}.

(** The name the editor is looked up by. *)
Definition editor_name (o : osenv) : string :=
  if String.eqb (EDITOR o) "" then DefaultEditor else EDITOR o.

(** What [ReadFile] finds after the editor has run. *)
Definition text_left (after : option string) : string :=
  match after with Some contents => contents | None => "" end.

(** ** Usage errors *)

Definition show_usage (p : flag.Parsed showVars) : bool :=
  match first_set (filters_in_order (flag.vars p)) with
  | None => true
  | Some _ => false
  end.

Definition delete_usage (p : flag.Parsed deleteVars) : bool :=
  negb (deleteAllPtr (flag.vars p)).

(** The invocations that end in the program's own usage error: options
    that parse, and then [show] without a filter, [delete] without [-all],
    or [new] with options but neither a text nor the editor. *)
Definition usage_error (subcommand : string) (arguments : list string)
  : bool :=
  if String.eqb subcommand "new" then
    match flag.parse newCommand arguments newDefaults [] with
    | flag.ParseOk p => new_usage p
    | _ => false
    end
  else if String.eqb subcommand "show" then
    match flag.parse showCommand arguments showDefaults [] with
    | flag.ParseOk p => show_usage p
    | _ => false
    end
  else if String.eqb subcommand "delete" then
    match flag.parse deleteCommand arguments deleteDefaults [] with
    | flag.ParseOk p => delete_usage p
    | _ => false
    end
  else false.

(** ** What one invocation can do to the table *)

Inductive table_step (t : option (list row)) : option (list row) -> Prop :=
| untouched : table_step t t
| ensured : table_step t (Some (rows_of t))
| inserted (n : note) :
    table_step t (Some (rows_of t ++ [saved_row (rows_of t) n]))
| emptied : table_step t (Some []).

(** ** The id column over a session *)

(** The ids of the rows, in rowid order, go strictly up. *)
Definition increasing (rows : list row) : Prop :=
  StronglySorted Z.lt (map id rows).

(** One invocation of a session: the command line and what is typed on
    standard input. *)
Definition invocation : Type := list string * list rune.

Definition invoke (i : invocation) (w : world) : world :=
  snd (main (fst i) (with_stdin (snd i) w)).

(** A session: invocations one after the other on the same database. *)
Fixpoint play (session : list invocation) (w : world) : world :=
  match session with
  | [] => w
  | i :: rest => play rest (invoke i w)
  end.

(** ** Invocations that do not reach a subcommand block *)

(** No subcommand, or one that is not [new], [show] or [delete]. *)
Definition no_subcommand (Args : list string) : bool :=
  (Z.of_nat (List.length Args) <? 2)
  || negb (String.eqb (nth 1 Args "") "new"
           || String.eqb (nth 1 Args "") "show"
           || String.eqb (nth 1 Args "") "delete").

Definition is_ParseOk {V} (r : flag.ParseResult V) : bool :=
  match r with flag.ParseOk _ => true | _ => false end.

(** The options of the subcommand do not parse. *)
Definition parse_fails (subcommand : string) (arguments : list string)
  : bool :=
  if String.eqb subcommand "new" then
    negb (is_ParseOk (flag.parse newCommand arguments newDefaults []))
  else if String.eqb subcommand "show" then
    negb (is_ParseOk (flag.parse showCommand arguments showDefaults []))
  else if String.eqb subcommand "delete" then
    negb (is_ParseOk (flag.parse deleteCommand arguments deleteDefaults []))
  else false.

(** The statements that change rows. *)
Definition changes_rows (e : event) : bool :=
  match e with
  | Executed INSERT_INTO_notes | Executed DROP_TABLE_notes => true
  | _ => false
  end.

(** The ids of the rows are 1, 2, 3, ... in table order. *)
Definition numbered (rows : list row) : Prop :=
  map id rows = map Z.of_nat (seq 1 (List.length rows)).

(** ** The notes a run echoes *)

(** The notes printed by [PrintConsole], in order. *)
Fixpoint notes_echoed (l : list event) : list note :=
  match l with
  | [] => []
  | NoteLine n :: rest => n :: notes_echoed rest
  | _ :: rest => notes_echoed rest
  end.

(** ** The reach of the model *)

(** The database could be opened and its schema statement prepared and run:
    [createTableIfNotExist] returned.  The program discards the errors of
    [sql.Open] and of [Prepare]; on a database file that cannot be opened
    the prepared statement is nil and [createTableIfNotExist] panics in
    [Exec].  Such a file is not among the worlds of this model, whose table
    is absent or holds rows; the statements below that depend on the
    database having been opened say so with this condition. *)
Definition opened (w : world) : Prop :=
  result_of (createTableIfNotExist (dbpath_of w) w) = Returned tt.

(** The largest rowid of the engine.  Only when it is in use does the
    engine depart from [sqlite.next_rowid]: it then tries unused rowids at
    random. *)
Definition MaxRowid : Z := 2 ^ 63 - 1.

(** [k] more rows can be inserted with every new id still at most
    [MaxRowid], so that each is the one [sqlite.next_rowid] gives. *)
Definition headroom (k : nat) (rows : list row) : Prop :=
  Z.of_nat k <= MaxRowid
  /\ forall r, In r rows -> id r + Z.of_nat k <= MaxRowid.

(** ** Options that package flag refuses *)

(** An undefined flag, or a missing or malformed value.  A help request
    ([-h], [-help]) is not among them. *)
Definition is_ParseError {V} (r : flag.ParseResult V) : bool :=
  match r with flag.ParseError => true | _ => false end.

Definition flag_error (subcommand : string) (arguments : list string)
  : bool :=
  if String.eqb subcommand "new" then
    is_ParseError (flag.parse newCommand arguments newDefaults [])
  else if String.eqb subcommand "show" then
    is_ParseError (flag.parse showCommand arguments showDefaults [])
  else if String.eqb subcommand "delete" then
    is_ParseError (flag.parse deleteCommand arguments deleteDefaults [])
  else false.

(** Was the option help printed, by the program or by package flag? *)
Definition is_help (e : event) : bool :=
  match e with Defaults _ | FlagError _ => true | _ => false end.

(** ** A clock read across the turn of the year *)

Definition new_years_eve : time.Time :=
  {| time.Day := 31; time.Month := 12; time.Year := 2023;
     time.Unix := 1704067199 |}.

Definition new_years_day : time.Time :=
  {| time.Day := 1; time.Month := 1; time.Year := 2024;
     time.Unix := 1704067200 |}.

(** The first reading is the last second of 2023, every later one the
    first second of 2024. *)
Definition midnight (t : option (list row)) : world :=
  {| os := {| HOME := "/home/u"; EDITOR := "";
              LookPath := fun e => Some ("/usr/bin/" ++ e)%string;
              TempFile := Some "/tmp/123";
              CloseOk := true;
              Run := fun _ _ => (true, Some "from the editor");
              clock := fun n => match n with
                                | O => new_years_eve
                                | S _ => new_years_day
                                end |};
     table := t; stdin := []; ticks := 0; tmpfiles := []; console := [] |}.

(** * Theorems *)

(** ** The library functions on examples *)

Example Split_date : strings.Split "01/02/2023" "/" = ["01"; "02"; "2023"].
Proof. reflexivity. Qed.

Example Split_empty : strings.Split "" "," = [""].
Proof. reflexivity. Qed.

Example Atoi_padded : strconv.Atoi "01" = (1, None).
Proof. reflexivity. Qed.

Example Atoi_letters : strconv.Atoi "x" = (0, Some strconv.ErrSyntax).
Proof. reflexivity. Qed.

Example Atoi_huge :
  strconv.Atoi "99999999999999999999" = (2 ^ 63 - 1, Some strconv.ErrRange).
Proof. reflexivity. Qed.

Example ParseInt_hex : strconv.ParseInt "-0x1_f" 0 = (-31, None).
Proof. reflexivity. Qed.

Example ParseInt_bad_underscore :
  strconv.ParseInt "1__0" 0 = (0, Some strconv.ErrSyntax).
Proof. reflexivity. Qed.

(** ** Equations of the building blocks *)

Lemma bind_run {A B} (m : M A) (k : A -> M B) (w : world) :
  bind m k w =
  match m w with
  | (Returned a, w') => k a w'
  | (Exited c, w') => (Exited c, w')
  | (Panicked msg, w') => (Panicked msg, w')
  end.
Proof. reflexivity. Qed.

Lemma skipn_length_app {A} (l1 l2 : list A) :
  skipn (List.length l1) (l1 ++ l2) = l2.
Proof. induction l1 as [|x l1 IH]; simpl; auto. Qed.

Lemma added_app (w w' : world) (l : list event) :
  console w' = console w ++ l -> added w w' = l.
Proof. intros H. unfold added. rewrite H. apply skipn_length_app. Qed.

Lemma rows_printed_RowLines (rs : list row) :
  rows_printed (map RowLine rs) = rs.
Proof. induction rs as [|r rs IH]; simpl; congruence. Qed.

Lemma rows_printed_app (l1 l2 : list event) :
  rows_printed (l1 ++ l2) = rows_printed l1 ++ rows_printed l2.
Proof.
  induction l1 as [|e l1 IH]; simpl; [reflexivity|].
  destruct e; simpl; congruence.
Qed.

Lemma createTableIfNotExist_run (database : sqlDB) (w : world) :
  createTableIfNotExist database w =
  (Returned tt,
   with_console (console w ++ [Executed CREATE_TABLE_IF_NOT_EXISTS_notes])
     (with_table (Some (rows_of (table w))) w)).
Proof.
  destruct w as [o t i k f c]. unfold createTableIfNotExist, bind, Prepare.
  simpl. destruct t; reflexivity.
Qed.

Lemma printEach_run (rs : list row) (w : world) :
  printEach rs w = (Returned tt, with_console (console w ++ map RowLine rs) w).
Proof.
  revert w. induction rs as [|r rs IH]; intros [o t i k f c].
  - unfold with_console. simpl. rewrite app_nil_r. reflexivity.
  - simpl. unfold bind, emit. simpl. rewrite IH. unfold with_console. simpl.
    rewrite <- app_assoc. reflexivity.
Qed.

(** A query on an existing table prints the rows its WHERE clause keeps. *)
Lemma query_print_run (database : sqlDB) (q : selection) (args : list Z)
      (keep : row -> bool) (rows : list row) (w : world) :
  table w = Some rows ->
  sqlite.where_ q args = Some keep ->
  (rs <- Query database q args;; printRows rs) w =
  (Returned tt,
   with_console (console w ++ Queried q args :: map RowLine (filter keep rows))
     w).
Proof.
  intros Ht Hq. destruct w as [o t i k f c]. simpl in Ht. subst t.
  unfold bind, Query, sqlite.query. simpl. rewrite Hq. simpl.
  rewrite printEach_run. unfold with_console. simpl.
  rewrite <- app_assoc. reflexivity.
Qed.

(** ** The day and month filters *)

Lemma showNoteByDay_run (database : sqlDB) (w : world) (rows : list row)
      (d : Z) :
  table w = Some rows ->
  let month_now := time.Month (clock (os w) (ticks w)) in
  let year_now := time.Year (clock (os w) (S (ticks w))) in
  let keep r := (day r =? d) && (month r =? month_now) && (year r =? year_now) in
  showNoteByDay d database w =
  (Returned tt,
   with_console
     (console w
      ++ Queried WHERE_day_month_year [d; month_now; year_now]
         :: map RowLine (filter keep rows))
     (with_ticks (S (S (ticks w))) w)).
Proof.
  intros Ht. destruct w as [o t i k f c]. simpl in Ht. subst t. simpl.
  unfold showNoteByDay, bind at 1 2, Now. simpl.
  erewrite query_print_run; [reflexivity | reflexivity | reflexivity].
Qed.

Lemma showNoteByMonth_run (database : sqlDB) (w : world) (rows : list row)
      (m : Z) :
  table w = Some rows ->
  let year_now := time.Year (clock (os w) (ticks w)) in
  let keep r := (month r =? m) && (year r =? year_now) in
  showNoteByMonth m database w =
  (Returned tt,
   with_console
     (console w
      ++ Queried WHERE_month_year [m; year_now]
         :: map RowLine (filter keep rows))
     (with_ticks (S (ticks w)) w)).
Proof.
  intros Ht. destruct w as [o t i k f c]. simpl in Ht. subst t. simpl.
  unfold showNoteByMonth, bind at 1, Now. simpl.
  erewrite query_print_run; [reflexivity | reflexivity | reflexivity].
Qed.

Lemma shown_of_run {A} (m : M A) (w w' : world) (a : outcome A)
      (q : event) (rs : list row) :
  m w = (a, w') ->
  console w' = console w ++ q :: map RowLine rs ->
  is_query q = true ->
  shown m w = rs.
Proof.
  intros Hrun Hc Hq. unfold shown. rewrite Hrun. simpl.
  rewrite (added_app _ _ _ Hc). destruct q; try discriminate.
  simpl. apply rows_printed_RowLines.
Qed.

(** C4: the day filter does not always select by the current month and
    year.  [showNoteByDay] reads the clock twice, the month from the first
    reading and the year from the second, although it is meant to default
    to this month and this year.  Run with [-day 31] while the clock passes
    from 31 December 2023 to 1 January 2024 between the two readings, it
    queries day 31, month 12, year 2024: it prints a row dated December
    2024, a month and year the clock never gave together, and it does not
    print the row of 31 December 2023, the day the run started on. *)
Theorem day_filter_across_new_year :
  let today := sample 1 31 12 2023 "written today" in
  let ahead := sample 2 31 12 2024 "a year ahead" in
  let w := midnight (Some [today; ahead]) in
  let r := main ["notectl"; "show"; "-day"; "31"] w in
  (clock (os w) 0 = new_years_eve /\ clock (os w) 1 = new_years_day)
  /\ result_of r = Returned tt
  /\ added w (world_of r) =
     [Executed CREATE_TABLE_IF_NOT_EXISTS_notes;
      Queried WHERE_day_month_year [31; 12; 2024];
      RowLine ahead; Closed]
  /\ shown (showNoteByDay 31 (dbpath_of w)) w = [ahead]
  /\ ~ In today (shown (showNoteByDay 31 (dbpath_of w)) w)
  /\ (time.Month new_years_eve, time.Year new_years_eve) <> (12, 2024)
  /\ (time.Month new_years_day, time.Year new_years_day) <> (12, 2024).
Proof.
  vm_compute. repeat split; try discriminate.
  intros [H|[]]. discriminate.
Qed.

(** ** Deleting everything *)

Lemma deleteAll_run (database : sqlDB) (w : world) (rows : list row)
      (char : rune) (rest : list rune) :
  table w = Some rows ->
  stdin w = char :: rest ->
  deleteAll database w =
  (Returned tt,
   if confirms char then
     with_console
       (console w ++ [Line ask; Line deleting; Executed DROP_TABLE_notes;
                      Executed CREATE_TABLE_IF_NOT_EXISTS_notes])
       (with_table (Some []) (with_stdin rest w))
   else
     with_console (console w ++ [Line ask; Line declined])
       (with_stdin rest w)).
Proof.
  intros Ht Hs. destruct w as [o t i k f c]. simpl in Ht, Hs. subst t i.
  unfold deleteAll, bind at 1 2, Println, emit, ReadRune. simpl.
  unfold confirms. destruct ((char =? rune_of "y") || (char =? rune_of "Y")).
  - unfold bind, Println, emit, Prepare, Exec. simpl.
    rewrite createTableIfNotExist_run. unfold with_console, with_table.
    simpl. rewrite <- !app_assoc. reflexivity.
  - unfold Println, emit, with_console. simpl.
    rewrite <- !app_assoc. reflexivity.
Qed.

Lemma deleteAll_EOF (database : sqlDB) (w : world) :
  stdin w = [] ->
  deleteAll database w =
  (Panicked "EOF", with_console (console w ++ [Line ask]) w).
Proof.
  intros Hs. destruct w as [o t i k f c]. simpl in Hs. subst i.
  reflexivity.
Qed.

(** C10: the confirmation of [deleteAll] looks at the first rune of
    standard input only; ['y'] and ['Y'] confirm and every other first rune
    declines, whatever follows it: an answer that begins with ['n'] or with
    a space leaves the table as it was and prints the refusal. *)
Theorem deleteAll_first_rune :
  forall (database : sqlDB) (w : world) (rows : list row)
         (char : rune) (rest : list rune),
    table w = Some rows ->
    stdin w = char :: rest ->
    let r := deleteAll database w in
    result_of r = Returned tt
    /\ (char = rune_of "y" \/ char = rune_of "Y" ->
        table (world_of r) = Some []
        /\ added w (world_of r) =
           [Line ask; Line deleting; Executed DROP_TABLE_notes;
            Executed CREATE_TABLE_IF_NOT_EXISTS_notes])
    /\ (char <> rune_of "y" -> char <> rune_of "Y" ->
        table (world_of r) = Some rows
        /\ added w (world_of r) = [Line ask; Line declined])
    /\ (char = rune_of "n" \/ char = rune_of " " ->
        table (world_of r) = Some rows
        /\ added w (world_of r) = [Line ask; Line declined])
    /\ (forall rest' : list rune,
          let r' := deleteAll database (with_stdin (char :: rest') w) in
          result_of r' = result_of r
          /\ table (world_of r') = table (world_of r)
          /\ console (world_of r') = console (world_of r)).
Proof.
  intros database w rows char rest Ht Hs r.
  assert (Hno : confirms char = false ->
                table (world_of r) = Some rows
                /\ added w (world_of r) = [Line ask; Line declined]).
  { intros Hc. unfold r. rewrite (deleteAll_run database w rows char rest Ht Hs).
    rewrite Hc. destruct w; simpl in *. split; [exact Ht|].
    apply added_app. reflexivity. }
  split; [|split; [|split; [|split]]].
  - unfold r. rewrite (deleteAll_run database w rows char rest Ht Hs).
    reflexivity.
  - intros Hy.
    assert (Hc : confirms char = true).
    { unfold confirms. destruct Hy; subst char; reflexivity. }
    unfold r. rewrite (deleteAll_run database w rows char rest Ht Hs).
    rewrite Hc. destruct w; simpl. split; [reflexivity|].
    apply added_app. reflexivity.
  - intros H1 H2. apply Hno. unfold confirms.
    apply orb_false_iff. split; apply Z.eqb_neq; assumption.
  - intros Hn. apply Hno. destruct Hn; subst char; reflexivity.
  - intros rest' r'. unfold r', r.
    rewrite (deleteAll_run database w rows char rest Ht Hs).
    rewrite (deleteAll_run database (with_stdin (char :: rest') w) rows char
               rest'); [| destruct w; exact Ht | destruct w; reflexivity].
    destruct (confirms char); destruct w; simpl; auto.
Qed.

(** Answering ["no"] keeps both notes; answering ["Yes"] removes them. *)
Lemma deleteAll_first_rune_witness :
  let rows := [sample 1 5 3 2024 "a"; sample 2 5 4 2024 "b"] in
  table (world_of (deleteAll "db" (boot (Some rows) (input "no")))) = Some rows
  /\ table (world_of (deleteAll "db" (boot (Some rows) (input "Yes")))) = Some [].
Proof.
  split.
  - destruct (deleteAll_first_rune "db"
                (boot (Some [sample 1 5 3 2024 "a"; sample 2 5 4 2024 "b"])
                      (input "no"))
                [sample 1 5 3 2024 "a"; sample 2 5 4 2024 "b"]
                (rune_of "n") (input "o") eq_refl eq_refl)
      as (_ & _ & _ & Hn & _).
    apply Hn. left. reflexivity.
  - destruct (deleteAll_first_rune "db"
                (boot (Some [sample 1 5 3 2024 "a"; sample 2 5 4 2024 "b"])
                      (input "Yes"))
                [sample 1 5 3 2024 "a"; sample 2 5 4 2024 "b"]
                (rune_of "Y") (input "es") eq_refl eq_refl)
      as (_ & Hy & _).
    apply Hy. right. reflexivity.
Defined.

(** ** Dispatch on the subcommand *)

Lemma main_new_parsed (prog : string) (arguments : list string)
      (p : flag.Parsed newVars) (w : world) :
  flag.parse newCommand arguments newDefaults [] = flag.ParseOk p ->
  main (prog :: "new" :: arguments) w = main_new (dbpath_of w) arguments p w.
Proof.
  intros H. unfold main, bind at 1, Getenv. cbn [List.length skipn nth].
  change (Z.of_nat (S (S (List.length arguments))) <? 2)
    with (Z.of_nat (2 + List.length arguments) <? 2).
  destruct (Z.ltb_spec (Z.of_nat (2 + List.length arguments)) 2); [lia|].
  change (String.eqb "new" "new") with true. cbv iota.
  unfold bind at 1, flag.Parse. rewrite H. reflexivity.
Qed.

Lemma main_show_parsed (prog : string) (arguments : list string)
      (p : flag.Parsed showVars) (w : world) :
  flag.parse showCommand arguments showDefaults [] = flag.ParseOk p ->
  main (prog :: "show" :: arguments) w = main_show (dbpath_of w) p w.
Proof.
  intros H. unfold main, bind at 1, Getenv. cbn [List.length skipn nth].
  change (Z.of_nat (S (S (List.length arguments))) <? 2)
    with (Z.of_nat (2 + List.length arguments) <? 2).
  destruct (Z.ltb_spec (Z.of_nat (2 + List.length arguments)) 2); [lia|].
  change (String.eqb "show" "new") with false.
  change (String.eqb "show" "show") with true. cbv iota.
  unfold bind at 1, flag.Parse. rewrite H. reflexivity.
Qed.

Lemma main_delete_parsed (prog : string) (arguments : list string)
      (p : flag.Parsed deleteVars) (w : world) :
  flag.parse deleteCommand arguments deleteDefaults [] = flag.ParseOk p ->
  main (prog :: "delete" :: arguments) w = main_delete (dbpath_of w) p w.
Proof.
  intros H. unfold main, bind at 1, Getenv. cbn [List.length skipn nth].
  change (Z.of_nat (S (S (List.length arguments))) <? 2)
    with (Z.of_nat (2 + List.length arguments) <? 2).
  destruct (Z.ltb_spec (Z.of_nat (2 + List.length arguments)) 2); [lia|].
  change (String.eqb "delete" "new") with false.
  change (String.eqb "delete" "show") with false.
  change (String.eqb "delete" "delete") with true. cbv iota.
  unfold bind at 1, flag.Parse. rewrite H. reflexivity.
Qed.

Lemma main_new_cases (prog : string) (arguments : list string) (w : world) :
  main (prog :: "new" :: arguments) w =
  match flag.parse newCommand arguments newDefaults [] with
  | flag.ParseOk p => main_new (dbpath_of w) arguments p w
  | flag.ErrHelp =>
      (Exited 0, with_console (console w ++ [FlagError "new"]) w)
  | flag.ParseError =>
      (Exited 2, with_console (console w ++ [FlagError "new"]) w)
  end.
Proof.
  destruct (flag.parse newCommand arguments newDefaults []) as [p| |] eqn:Hp.
  - apply main_new_parsed. exact Hp.
  - unfold main, bind at 1, Getenv. cbn [List.length skipn nth].
    change (Z.of_nat (S (S (List.length arguments))) <? 2)
      with (Z.of_nat (2 + List.length arguments) <? 2).
    destruct (Z.ltb_spec (Z.of_nat (2 + List.length arguments)) 2); [lia|].
    change (String.eqb "new" "new") with true. cbv iota.
    unfold bind at 1, flag.Parse. rewrite Hp. reflexivity.
  - unfold main, bind at 1, Getenv. cbn [List.length skipn nth].
    change (Z.of_nat (S (S (List.length arguments))) <? 2)
      with (Z.of_nat (2 + List.length arguments) <? 2).
    destruct (Z.ltb_spec (Z.of_nat (2 + List.length arguments)) 2); [lia|].
    change (String.eqb "new" "new") with true. cbv iota.
    unfold bind at 1, flag.Parse. rewrite Hp. reflexivity.
Qed.

Lemma main_show_cases (prog : string) (arguments : list string) (w : world) :
  main (prog :: "show" :: arguments) w =
  match flag.parse showCommand arguments showDefaults [] with
  | flag.ParseOk p => main_show (dbpath_of w) p w
  | flag.ErrHelp =>
      (Exited 0, with_console (console w ++ [FlagError "show"]) w)
  | flag.ParseError =>
      (Exited 2, with_console (console w ++ [FlagError "show"]) w)
  end.
Proof.
  destruct (flag.parse showCommand arguments showDefaults []) as [p| |] eqn:Hp.
  - apply main_show_parsed. exact Hp.
  - unfold main, bind at 1, Getenv. cbn [List.length skipn nth].
    change (Z.of_nat (S (S (List.length arguments))) <? 2)
      with (Z.of_nat (2 + List.length arguments) <? 2).
    destruct (Z.ltb_spec (Z.of_nat (2 + List.length arguments)) 2); [lia|].
    change (String.eqb "show" "new") with false.
    change (String.eqb "show" "show") with true. cbv iota.
    unfold bind at 1, flag.Parse. rewrite Hp. reflexivity.
  - unfold main, bind at 1, Getenv. cbn [List.length skipn nth].
    change (Z.of_nat (S (S (List.length arguments))) <? 2)
      with (Z.of_nat (2 + List.length arguments) <? 2).
    destruct (Z.ltb_spec (Z.of_nat (2 + List.length arguments)) 2); [lia|].
    change (String.eqb "show" "new") with false.
    change (String.eqb "show" "show") with true. cbv iota.
    unfold bind at 1, flag.Parse. rewrite Hp. reflexivity.
Qed.

Lemma main_delete_cases (prog : string) (arguments : list string)
      (w : world) :
  main (prog :: "delete" :: arguments) w =
  match flag.parse deleteCommand arguments deleteDefaults [] with
  | flag.ParseOk p => main_delete (dbpath_of w) p w
  | flag.ErrHelp =>
      (Exited 0, with_console (console w ++ [FlagError "delete"]) w)
  | flag.ParseError =>
      (Exited 2, with_console (console w ++ [FlagError "delete"]) w)
  end.
Proof.
  destruct (flag.parse deleteCommand arguments deleteDefaults [])
    as [p| |] eqn:Hp.
  - apply main_delete_parsed. exact Hp.
  - unfold main, bind at 1, Getenv. cbn [List.length skipn nth].
    change (Z.of_nat (S (S (List.length arguments))) <? 2)
      with (Z.of_nat (2 + List.length arguments) <? 2).
    destruct (Z.ltb_spec (Z.of_nat (2 + List.length arguments)) 2); [lia|].
    change (String.eqb "delete" "new") with false.
    change (String.eqb "delete" "show") with false.
    change (String.eqb "delete" "delete") with true. cbv iota.
    unfold bind at 1, flag.Parse. rewrite Hp. reflexivity.
  - unfold main, bind at 1, Getenv. cbn [List.length skipn nth].
    change (Z.of_nat (S (S (List.length arguments))) <? 2)
      with (Z.of_nat (2 + List.length arguments) <? 2).
    destruct (Z.ltb_spec (Z.of_nat (2 + List.length arguments)) 2); [lia|].
    change (String.eqb "delete" "new") with false.
    change (String.eqb "delete" "show") with false.
    change (String.eqb "delete" "delete") with true. cbv iota.
    unfold bind at 1, flag.Parse. rewrite Hp. reflexivity.
Qed.

(** ** The filters of [show] *)

Lemma main_show_first_set (dbpath : string) (p : flag.Parsed showVars)
      (w : world) :
  main_show dbpath p w =
  match first_set (filters_in_order (flag.vars p)) with
  | Some f =>
      (createTableIfNotExist dbpath;; apply_filter f dbpath;; Close dbpath) w
  | None =>
      (createTableIfNotExist dbpath;; PrintDefaults "show";; Exit 1) w
  end.
Proof.
  unfold main_show, connectToDatabase, filters_in_order, int_filter.
  destruct (flag.vars p) as [all i d m y date usa]. cbn [showAllPtr
    showByIDPtr showByDayPtr showByMonthPtr showByYearPtr showByDatePtr
    showUSADatePtr first_set].
  unfold bind at 1. unfold ret at 1.
  destruct all; [reflexivity|].
  destruct (i =? -1); [|reflexivity].
  destruct (d =? -1); [|reflexivity].
  destruct (m =? -1); [|reflexivity].
  destruct (y =? -1); [|reflexivity].
  destruct (String.eqb date ""); [|reflexivity].
  cbn [negb first_set]. unfold bind.
  destruct (createTableIfNotExist dbpath w) as [[a|c|msg] w']; reflexivity.
Qed.

(** Counterexample to C1 as stated: [show -h] sets no filter, yet it exits
    with status 0, not with a non-zero one; and in [show -all -x] the
    filter [all] is set, first in the order, yet it is not applied: package
    flag refuses [-x] and the process exits with status 2 before any
    query, although [show -all] on the same table prints its row. *)
Lemma show_help_exits_zero :
  let t := Some [sample 1 5 3 2024 "a"] in
  let r := main ["notectl"; "show"; "-h"] (boot t []) in
  let r' := main ["notectl"; "show"; "-all"; "-x"] (boot t []) in
  let r'' := main ["notectl"; "show"; "-all"] (boot t []) in
  (result_of r = Exited 0
   /\ existsb is_query (added (boot t []) (world_of r)) = false)
  /\ (result_of r' = Exited 2
      /\ added (boot t []) (world_of r') = [FlagError "show"])
  /\ rows_printed (added (boot t []) (world_of r''))
     = [sample 1 5 3 2024 "a"].
Proof. vm_compute. repeat split. Qed.

(** C1 (amended): on every [show] invocation whose options parse, the
    filters are tried in the order all, id, day, month, year, date, and the
    first one that is set (an integer filter when it is not -1, the date
    filter when it is not empty) is the one applied; when none is set, and
    the database could be opened, the option help is printed and the process
    exits with status 1, having sent no query.  When the options do not
    parse no filter is applied: package flag prints its usage and the
    process exits, with status 0 on a help request and 2 otherwise. *)
Theorem show_filter_precedence :
  forall (prog : string) (arguments : list string) (w : world),
    opened w ->
    let r := main (prog :: "show" :: arguments) w in
    match flag.parse showCommand arguments showDefaults [] with
    | flag.ParseOk p =>
        match first_set (filters_in_order (flag.vars p)) with
        | Some f =>
            r = (createTableIfNotExist (dbpath_of w);;
                 apply_filter f (dbpath_of w);;
                 Close (dbpath_of w)) w
        | None =>
            result_of r = Exited 1
            /\ added w (world_of r) =
               [Executed CREATE_TABLE_IF_NOT_EXISTS_notes; Defaults "show"]
            /\ existsb is_query (added w (world_of r)) = false
        end
    | flag.ErrHelp =>
        result_of r = Exited 0 /\ added w (world_of r) = [FlagError "show"]
    | flag.ParseError =>
        result_of r = Exited 2 /\ added w (world_of r) = [FlagError "show"]
    end.
Proof.
  intros prog arguments w _ r. unfold r.
  rewrite (main_show_cases prog arguments w).
  destruct (flag.parse showCommand arguments showDefaults []) as [p| |].
  - rewrite main_show_first_set.
    destruct (first_set (filters_in_order (flag.vars p))) as [f|];
      [reflexivity|].
    unfold bind. rewrite createTableIfNotExist_run.
    destruct w as [o t i k fs c]. simpl.
    assert (Ha : added
                   {| os := o; table := t; stdin := i; ticks := k;
                      tmpfiles := fs; console := c |}
                   {| os := o; table := Some (rows_of t); stdin := i;
                      ticks := k; tmpfiles := fs;
                      console :=
                        (c ++ [Executed CREATE_TABLE_IF_NOT_EXISTS_notes])
                        ++ [Defaults "show"] |}
                 = [Executed CREATE_TABLE_IF_NOT_EXISTS_notes;
                    Defaults "show"]).
    { apply added_app. simpl. rewrite <- app_assoc. reflexivity. }
    unfold result_of, world_of, with_console, with_table. simpl.
    rewrite Ha. auto.
  - split; [reflexivity|]. apply added_app. reflexivity.
  - split; [reflexivity|]. apply added_app. reflexivity.
Qed.

(** [show -day 5 -i 2]: the id filter precedes the day filter. *)
Lemma show_filter_precedence_witness :
  opened fresh
  /\ main ["notectl"; "show"; "-day"; "5"; "-i"; "2"] fresh =
     (createTableIfNotExist (dbpath_of fresh);;
      apply_filter (ByID 2) (dbpath_of fresh);;
      Close (dbpath_of fresh)) fresh.
Proof.
  split; [reflexivity|].
  exact (show_filter_precedence "notectl" ["-day"; "5"; "-i"; "2"] fresh
           eq_refl).
Defined.

(** ** The date filter *)

Section Split.

Variable sep : ascii.

Lemma Split_nonempty (s : string) : strings.Split s sep <> [].
Proof.
  induction s as [|c s IH]; simpl; [discriminate|].
  destruct (Ascii.eqb c sep); [discriminate|].
  destruct (strings.Split s sep); [contradiction | discriminate].
Qed.

(** A string without the separator is one field. *)
Lemma Split_one_field (s : string) :
  strings.ContainsByte s sep = false -> strings.Split s sep = [s].
Proof.
  induction s as [|c s IH]; simpl; [reflexivity|].
  intros H. apply orb_false_iff in H. destruct H as [Hc Hs].
  rewrite Hc, (IH Hs). reflexivity.
Qed.

(** A field, the separator, and the rest. *)
Lemma Split_field_then (a s : string) :
  strings.ContainsByte a sep = false ->
  strings.Split (a ++ String sep s) sep = a :: strings.Split s sep.
Proof.
  induction a as [|c a IH]; simpl.
  - intros _. rewrite Ascii.eqb_refl. reflexivity.
  - intros H. apply orb_false_iff in H. destruct H as [Hc Ha].
    rewrite Hc, (IH Ha). reflexivity.
Qed.

Lemma Split_three_fields (a b c : string) :
  strings.ContainsByte a sep = false ->
  strings.ContainsByte b sep = false ->
  strings.ContainsByte c sep = false ->
  strings.Split (a ++ String sep (b ++ String sep c)) sep = [a; b; c].
Proof.
  intros Ha Hb Hc.
  rewrite (Split_field_then a _ Ha), (Split_field_then b _ Hb),
    (Split_one_field c Hc).
  reflexivity.
Qed.

End Split.

(** With three fields or more, the filter is one query on the first three. *)
Lemma showNoteByDate_fields (date : string) (usa : bool) (database : sqlDB)
      (a b c : string) (rest : list string) (w : world) :
  strings.Split date "/" = a :: b :: c :: rest ->
  showNoteByDate date usa database w =
  (rows <- Query database WHERE_day_month_year (date_fields usa a b c);;
   printRows rows) w.
Proof.
  intros H. unfold showNoteByDate, date_fields. rewrite H.
  destruct usa; reflexivity.
Qed.

(** With fewer than three fields, indexing panics before any query. *)
Lemma showNoteByDate_short (date : string) (usa : bool) (database : sqlDB)
      (w : world) :
  (List.length (strings.Split date "/") < 3)%nat ->
  showNoteByDate date usa database w = (Panicked "index out of range", w).
Proof.
  intros H. unfold showNoteByDate.
  destruct (strings.Split date "/") as [|a [|b [|c rest]]];
    simpl in H; try lia; destruct usa; reflexivity.
Qed.

Lemma showNoteByDate_run (date : string) (usa : bool) (database : sqlDB)
      (a b c : string) (rest : list string) (rows : list row) (w : world) :
  strings.Split date "/" = a :: b :: c :: rest ->
  table w = Some rows ->
  exists keep,
    sqlite.where_ WHERE_day_month_year (date_fields usa a b c) = Some keep
    /\ showNoteByDate date usa database w =
       (Returned tt,
        with_console
          (console w
           ++ Queried WHERE_day_month_year (date_fields usa a b c)
              :: map RowLine (filter keep rows)) w).
Proof.
  intros Hd Ht.
  assert (Hk : exists keep,
             sqlite.where_ WHERE_day_month_year (date_fields usa a b c)
             = Some keep).
  { unfold date_fields. destruct usa; eexists; reflexivity. }
  destruct Hk as [keep Hk]. exists keep. split; [exact Hk|].
  rewrite (showNoteByDate_fields date usa database a b c rest w Hd).
  apply query_print_run; assumption.
Qed.

(** A field that is not a number reads as 0. *)
Lemma Atoi_syntax_zero (s : string) :
  snd (strconv.Atoi s) = Some strconv.ErrSyntax -> fst (strconv.Atoi s) = 0.
Proof.
  unfold strconv.Atoi, strconv.ParseInt.
  destruct ((0 <? Z.of_nat (String.length s))
            && (Z.of_nat (String.length s) <? 19)).
  - destruct s as [|c0 s']; [reflexivity|].
    destruct (strconv.strip_sign (String c0 s')); [reflexivity|].
    destruct (strconv.atoi_fast _ 0); [discriminate | reflexivity].
  - destruct s as [|c0 s']; [reflexivity|].
    destruct (strconv.ParseUint _ 10) as [un [[|]|]]; try reflexivity;
      destruct (negb (byte_of c0 =? 45) && (2 ^ 63 <=? un));
      try discriminate;
      destruct ((byte_of c0 =? 45) && (2 ^ 63 <? un)); discriminate.
Qed.

(** [show -date <date>], with or without [-usa], is the date filter. *)
Lemma show_date_run (prog date : string) (usa : bool) (w : world) :
  date <> "" ->
  main (prog :: "show" :: "-date" :: date :: (if usa then ["-usa"] else [])) w
  = (createTableIfNotExist (dbpath_of w);;
     showNoteByDate date usa (dbpath_of w);;
     Close (dbpath_of w)) w.
Proof.
  intros Hne.
  rewrite (main_show_parsed prog _
             {| flag.vars :=
                  {| showAllPtr := false; showByIDPtr := -1;
                     showByDayPtr := -1; showByMonthPtr := -1;
                     showByYearPtr := -1; showByDatePtr := date;
                     showUSADatePtr := usa |};
                flag.actual := if usa then ["date"; "usa"] else ["date"];
                flag.Args := [] |} w)
    by (destruct usa; reflexivity).
  rewrite main_show_first_set. unfold filters_in_order, int_filter.
  cbn [flag.vars showAllPtr showByIDPtr showByDayPtr showByMonthPtr
         showByYearPtr showByDatePtr showUSADatePtr].
  change (-1 =? -1) with true. cbv iota. cbn [first_set].
  destruct (String.eqb_spec date "") as [->|_]; [contradiction|].
  reflexivity.
Qed.

Lemma slashed_not_empty (a b c : string) : slashed a b c <> "".
Proof. unfold slashed. destruct a; discriminate. Qed.

(** C7: for every day, month and year written without a slash, and on
    every table, [show -date] with "d/m/y" and no usa flag runs the same
    query and prints the same rows as with "m/d/y" and the usa flag; both
    [-date 01/02/2023] and [-date 02/01/2023 -usa] print a row stored with
    day 1, month 2, year 2023. *)
Theorem date_filter_usa_swap :
  forall (prog sd sm sy : string) (database : sqlDB) (w : world),
    strings.ContainsByte sd "/" = false ->
    strings.ContainsByte sm "/" = false ->
    strings.ContainsByte sy "/" = false ->
    showNoteByDate (slashed sd sm sy) false database w =
    showNoteByDate (slashed sm sd sy) true database w
    /\ main [prog; "show"; "-date"; slashed sd sm sy] w =
       main [prog; "show"; "-date"; slashed sm sd sy; "-usa"] w
    /\ (forall rows,
          table w = Some rows ->
          shown (showNoteByDate (slashed sd sm sy) false database) w =
          filter (fun r => (day r =? fst (strconv.Atoi sd))
                           && (month r =? fst (strconv.Atoi sm))
                           && (year r =? fst (strconv.Atoi sy))) rows)
    /\ (forall rows r,
          table w = Some rows -> In r rows ->
          day r = 1 -> month r = 2 -> year r = 2023 ->
          In r (shown (showNoteByDate "01/02/2023" false database) w)
          /\ In r (shown (showNoteByDate "02/01/2023" true database) w)).
Proof.
  intros prog sd sm sy database w Hd Hm Hy.
  pose proof (Split_three_fields "/" sd sm sy Hd Hm Hy) as H1.
  pose proof (Split_three_fields "/" sm sd sy Hm Hd Hy) as H2.
  fold (slashed sd sm sy) in H1. fold (slashed sm sd sy) in H2.
  assert (Hsame : forall db w',
             showNoteByDate (slashed sd sm sy) false db w' =
             showNoteByDate (slashed sm sd sy) true db w').
  { intros db w'.
    rewrite (showNoteByDate_fields _ false db _ _ _ _ w' H1),
      (showNoteByDate_fields _ true db _ _ _ _ w' H2).
    reflexivity. }
  split; [apply Hsame|]. split; [|split].
  - rewrite (show_date_run prog _ false w (slashed_not_empty sd sm sy)).
    rewrite (show_date_run prog _ true w (slashed_not_empty sm sd sy)).
    rewrite !(bind_run (createTableIfNotExist (dbpath_of w))).
    destruct (createTableIfNotExist (dbpath_of w) w) as [[u|c|msg] w'];
      [|reflexivity|reflexivity].
    rewrite !(bind_run (showNoteByDate _ _ _)). rewrite Hsame. reflexivity.
  - intros rows Ht.
    destruct (showNoteByDate_run _ false database _ _ _ _ rows w H1 Ht)
      as [keep [Hk Hrun]].
    unfold date_fields in Hk. simpl in Hk. injection Hk as <-.
    eapply shown_of_run; [exact Hrun | destruct w; reflexivity | reflexivity].
  - intros rows r Ht Hin Hday Hmonth Hyear.
    assert (Hkeep : (day r =? 1) && (month r =? 2) && (year r =? 2023) = true).
    { rewrite Hday, Hmonth, Hyear. reflexivity. }
    split.
    + destruct (showNoteByDate_run "01/02/2023" false database
                  "01" "02" "2023" [] rows w eq_refl Ht) as [keep [Hk Hrun]].
      injection Hk as <-.
      erewrite shown_of_run;
        [| exact Hrun | destruct w; reflexivity | reflexivity].
      apply filter_In. split; [exact Hin | exact Hkeep].
    + destruct (showNoteByDate_run "02/01/2023" true database
                  "02" "01" "2023" [] rows w eq_refl Ht) as [keep [Hk Hrun]].
      injection Hk as <-.
      erewrite shown_of_run;
        [| exact Hrun | destruct w; reflexivity | reflexivity].
      apply filter_In. split; [exact Hin | exact Hkeep].
Qed.

(** The two spellings of 1 February 2023 print the same stored note. *)
Lemma date_filter_usa_swap_witness :
  let w := boot (Some [sample 1 1 2 2023 "a"; sample 2 2 1 2023 "b"]) [] in
  showNoteByDate "01/02/2023" false "db" w =
  showNoteByDate "02/01/2023" true "db" w.
Proof.
  exact (proj1 (date_filter_usa_swap "notectl" "01" "02" "2023" "db"
                  (boot (Some [sample 1 1 2 2023 "a"; sample 2 2 1 2023 "b"])
                        [])
                  eq_refl eq_refl eq_refl)).
Defined.

(** Counterexample to C8 as stated: the date ["1/x/2023"] has a field that
    is not a number, yet [show -date 1/x/2023] returns normally after
    querying for day 1, month 0, year 2023. *)
Lemma malformed_date_completes :
  let w := boot (Some [sample 1 1 2 2023 "a"]) [] in
  let r := main ["notectl"; "show"; "-date"; "1/x/2023"] w in
  strconv.Atoi "x" = (0, Some strconv.ErrSyntax)
  /\ result_of r = Returned tt
  /\ added w (world_of r) =
     [Executed CREATE_TABLE_IF_NOT_EXISTS_notes;
      Queried WHERE_day_month_year [1; 0; 2023]; Closed].
Proof. vm_compute. auto. Qed.

(** The date filter is the first set one only for a date that is not
    empty. *)
Lemma first_set_ByDate (v : showVars) (date : string) (usa : bool) :
  first_set (filters_in_order v) = Some (ByDate date usa) ->
  date = showByDatePtr v /\ usa = showUSADatePtr v /\ date <> "".
Proof.
  unfold filters_in_order, int_filter.
  destruct v as [all i d m y dt us].
  cbn [showAllPtr showByIDPtr showByDayPtr showByMonthPtr showByYearPtr
       showByDatePtr showUSADatePtr].
  destruct all; cbn [first_set]; [discriminate|].
  destruct (i =? -1); cbn [first_set]; [|discriminate].
  destruct (d =? -1); cbn [first_set]; [|discriminate].
  destruct (m =? -1); cbn [first_set]; [|discriminate].
  destruct (y =? -1); cbn [first_set]; [|discriminate].
  destruct (String.eqb_spec dt "") as [->|Hne]; cbn [first_set];
    [discriminate|].
  intros H. injection H as <- <-. auto.
Qed.

(** C8 (amended): a date string that reaches the date filter of [show]
    (the options parse, the database could be opened, and the date filter
    is the first set one, so the date is not empty) is not validated.
    With fewer than three slash-separated fields the process panics on an
    index out of range before any query; with three fields or more it
    always completes: it queries for the first three fields as read by
    [Atoi] (day and month swapped under the usa flag) and prints the rows
    found, a field that is not a number being read as 0. *)
Theorem date_filter_malformed :
  forall (prog : string) (arguments : list string)
         (p : flag.Parsed showVars) (date : string) (usa : bool) (w : world),
    flag.parse showCommand arguments showDefaults [] = flag.ParseOk p ->
    first_set (filters_in_order (flag.vars p)) = Some (ByDate date usa) ->
    opened w ->
    let r := main (prog :: "show" :: arguments) w in
    date <> ""
    /\ ((List.length (strings.Split date "/") < 3)%nat ->
        result_of r = Panicked "index out of range"
        /\ added w (world_of r) = [Executed CREATE_TABLE_IF_NOT_EXISTS_notes]
        /\ rows_of (table (world_of r)) = rows_of (table w))
    /\ (forall a b c rest,
          strings.Split date "/" = a :: b :: c :: rest ->
          exists keep,
            sqlite.where_ WHERE_day_month_year (date_fields usa a b c)
            = Some keep
            /\ result_of r = Returned tt
            /\ added w (world_of r) =
               Executed CREATE_TABLE_IF_NOT_EXISTS_notes
               :: Queried WHERE_day_month_year (date_fields usa a b c)
               :: map RowLine (filter keep (rows_of (table w))) ++ [Closed])
    /\ (forall s, snd (strconv.Atoi s) = Some strconv.ErrSyntax ->
                  fst (strconv.Atoi s) = 0).
Proof.
  intros prog arguments p date usa w Hp Hf _ r.
  split; [apply (first_set_ByDate _ _ _ Hf)|].
  unfold r. rewrite (main_show_parsed prog arguments p w Hp).
  rewrite main_show_first_set, Hf. cbn [apply_filter].
  rewrite bind_run, createTableIfNotExist_run.
  set (w1 := with_console _ _).
  assert (Ht1 : table w1 = Some (rows_of (table w)))
    by (destruct w; reflexivity).
  assert (Hc1 : console w1 =
                console w ++ [Executed CREATE_TABLE_IF_NOT_EXISTS_notes])
    by (destruct w; reflexivity).
  split; [|split].
  - intros Hshort. rewrite bind_run.
    rewrite (showNoteByDate_short date usa (dbpath_of w) w1 Hshort).
    split; [reflexivity|]. split.
    + apply added_app. exact Hc1.
    + unfold world_of. cbn [snd]. rewrite Ht1. reflexivity.
  - intros a b c rest Hd.
    destruct (showNoteByDate_run date usa (dbpath_of w) a b c rest
                (rows_of (table w)) w1 Hd Ht1) as [keep [Hk Hrun]].
    exists keep. split; [exact Hk|]. rewrite bind_run, Hrun.
    split; [reflexivity|]. apply added_app.
    unfold Close, emit, world_of, with_console. cbn [snd console].
    rewrite Hc1, <- !app_assoc. reflexivity.
  - apply Atoi_syntax_zero.
Qed.

(** [show -date 1/2] has two fields and panics; [show -date 1/x/2023] has
    three and queries. *)
Lemma date_filter_malformed_witness :
  let w := boot (Some [sample 1 1 2 2023 "a"]) [] in
  opened w
  /\ result_of (main ["notectl"; "show"; "-date"; "1/2"] w)
     = Panicked "index out of range"
  /\ result_of (main ["notectl"; "show"; "-date"; "1/x/2023"] w)
     = Returned tt.
Proof.
  pose (v := fun date =>
          {| flag.vars :=
               {| showAllPtr := false; showByIDPtr := -1;
                  showByDayPtr := -1; showByMonthPtr := -1;
                  showByYearPtr := -1; showByDatePtr := date;
                  showUSADatePtr := false |};
             flag.actual := ["date"]; flag.Args := [] |}).
  destruct (date_filter_malformed "notectl" ["-date"; "1/2"] (v "1/2")
              "1/2" false (boot (Some [sample 1 1 2 2023 "a"]) [])
              eq_refl eq_refl eq_refl) as (_ & H1 & _).
  destruct (date_filter_malformed "notectl" ["-date"; "1/x/2023"]
              (v "1/x/2023") "1/x/2023" false
              (boot (Some [sample 1 1 2 2023 "a"]) [])
              eq_refl eq_refl eq_refl) as (_ & _ & H2 & _).
  split; [reflexivity|]. split.
  - apply H1. simpl. lia.
  - destruct (H2 "1" "x" "2023" [] eq_refl) as [keep [_ [Hr _]]]. exact Hr.
Defined.

(** ** Computations that leave the table alone *)

Create HintDb keeps.

Lemma keeps_ret {A} (a : A) : keeps_table (ret a).
Proof. intros w. reflexivity. Qed.

Lemma keeps_Exit {A} (c : Z) : keeps_table (@Exit A c).
Proof. intros w. reflexivity. Qed.

Lemma keeps_panic {A} (msg : string) : keeps_table (@panic A msg).
Proof. intros w. reflexivity. Qed.

Lemma keeps_bind {A B} (m : M A) (k : A -> M B) :
  keeps_table m -> (forall a, keeps_table (k a)) -> keeps_table (bind m k).
Proof.
  intros Hm Hk w. unfold bind. specialize (Hm w).
  destruct (m w) as [[a|c|msg] w']; simpl in *; try assumption.
  rewrite (Hk a w'). exact Hm.
Qed.

Lemma keeps_defer {A} (cleanup : M unit) (body : M A) :
  keeps_table cleanup -> keeps_table body -> keeps_table (defer cleanup body).
Proof.
  intros Hc Hb w. unfold defer. specialize (Hb w).
  destruct (body w) as [[a|c|msg] w']; simpl in *; try assumption.
  - specialize (Hc w'). destruct (cleanup w') as [[u|c|msg] w''];
      simpl in *; congruence.
  - rewrite (Hc w'). exact Hb.
Qed.

Lemma keeps_emit (e : event) : keeps_table (emit e).
Proof. intros [o t i k f c]. reflexivity. Qed.

Lemma keeps_Println (s : string) : keeps_table (Println s).
Proof. apply keeps_emit. Qed.

Lemma keeps_PrintDefaults (s : string) : keeps_table (PrintDefaults s).
Proof. apply keeps_emit. Qed.

Lemma keeps_PrintConsole (n : note) : keeps_table (PrintConsole n).
Proof. apply keeps_emit. Qed.

Lemma keeps_Close (database : sqlDB) : keeps_table (Close database).
Proof. apply keeps_emit. Qed.

Lemma keeps_Getenv (var : osenv -> string) : keeps_table (Getenv var).
Proof. intros w. reflexivity. Qed.

Lemma keeps_Now : keeps_table Now.
Proof. intros [o t i k f c]. reflexivity. Qed.

Lemma keeps_ReadRune : keeps_table ReadRune.
Proof. intros [o t [|char rest] k f c]; reflexivity. Qed.

Lemma keeps_Prepare (database : sqlDB) (s : statement) :
  keeps_table (Prepare database s).
Proof. intros w. reflexivity. Qed.

Lemma keeps_Query (database : sqlDB) (q : selection) (args : list Z) :
  keeps_table (Query database q args).
Proof. intros [o t i k f c]. reflexivity. Qed.

Lemma keeps_connectToDatabase (path : string) :
  keeps_table (connectToDatabase path).
Proof. apply keeps_ret. Qed.

Lemma keeps_printEach (rows : list row) : keeps_table (printEach rows).
Proof.
  induction rows as [|r rows IH]; simpl.
  - apply keeps_ret.
  - apply keeps_bind; [apply keeps_emit | intros _; exact IH].
Qed.

Lemma keeps_printRows (rows : option (list row)) : keeps_table (printRows rows).
Proof.
  destruct rows; simpl; [apply keeps_printEach | apply keeps_panic].
Qed.

Lemma keeps_index (d : list string) (i : nat) : keeps_table (index d i).
Proof.
  unfold index. destruct (nth_error d i); [apply keeps_ret | apply keeps_panic].
Qed.

#[export] Hint Resolve keeps_ret keeps_Exit keeps_panic keeps_emit
  keeps_Println keeps_PrintDefaults keeps_PrintConsole keeps_Close
  keeps_Getenv keeps_Now keeps_ReadRune keeps_Prepare keeps_Query
  keeps_connectToDatabase keeps_printEach keeps_printRows keeps_index
  : keeps.

(** Breaks a sequence of binds into its steps. *)
Ltac keeps :=
  repeat first
    [ apply keeps_bind; [| intros ? ]
    | apply keeps_defer
    | match goal with
      | |- keeps_table (if ?b then _ else _) => destruct b
      | |- keeps_table (match ?x with _ => _ end) => destruct x
      | |- keeps_table (let '(_, _) := ?x in _) => destruct x
      end
    | solve [auto with keeps] ].

Lemma keeps_showAllNotes (database : sqlDB) :
  keeps_table (showAllNotes database).
Proof. unfold showAllNotes. keeps. Qed.

Lemma keeps_showNoteByID (i : Z) (database : sqlDB) :
  keeps_table (showNoteByID i database).
Proof. unfold showNoteByID. keeps. Qed.

Lemma keeps_showNoteByDay (d : Z) (database : sqlDB) :
  keeps_table (showNoteByDay d database).
Proof. unfold showNoteByDay. keeps. Qed.

Lemma keeps_showNoteByMonth (m : Z) (database : sqlDB) :
  keeps_table (showNoteByMonth m database).
Proof. unfold showNoteByMonth. keeps. Qed.

Lemma keeps_showNoteByYear (y : Z) (database : sqlDB) :
  keeps_table (showNoteByYear y database).
Proof. unfold showNoteByYear. keeps. Qed.

Lemma keeps_showNoteByDate (date : string) (usa : bool) (database : sqlDB) :
  keeps_table (showNoteByDate date usa database).
Proof. unfold showNoteByDate. keeps. Qed.

Lemma keeps_apply_filter (f : showFilter) (database : sqlDB) :
  keeps_table (apply_filter f database).
Proof.
  destruct f; simpl;
    auto using keeps_showAllNotes, keeps_showNoteByID, keeps_showNoteByDay,
      keeps_showNoteByMonth, keeps_showNoteByYear, keeps_showNoteByDate.
Qed.

Lemma keeps_cmd_Run (executable filename : string) :
  keeps_table (cmd_Run executable filename).
Proof.
  intros [o t i k f c]. unfold cmd_Run. simpl.
  destruct (Run o executable filename) as [ok [contents|]]; reflexivity.
Qed.

Lemma keeps_exec_LookPath (file : string) : keeps_table (exec_LookPath file).
Proof. intros w. reflexivity. Qed.

Lemma keeps_ioutil_TempFile : keeps_table ioutil_TempFile.
Proof.
  intros [o t i k f c]. unfold ioutil_TempFile. simpl.
  destruct (TempFile o); reflexivity.
Qed.

Lemma keeps_file_Close (filename : string) : keeps_table (file_Close filename).
Proof. intros w. reflexivity. Qed.

Lemma keeps_ioutil_ReadFile (filename : string) :
  keeps_table (ioutil_ReadFile filename).
Proof.
  intros [o t i k f c]. unfold ioutil_ReadFile. simpl.
  destruct (find _ f); reflexivity.
Qed.

Lemma keeps_os_Remove (filename : string) : keeps_table (os_Remove filename).
Proof. intros [o t i k f c]. reflexivity. Qed.

#[export] Hint Resolve keeps_cmd_Run keeps_exec_LookPath keeps_ioutil_TempFile
  keeps_file_Close keeps_ioutil_ReadFile keeps_os_Remove : keeps.

Lemma keeps_openFileInEditor (filename : string) :
  keeps_table (openFileInEditor filename).
Proof. unfold openFileInEditor. keeps. Qed.

#[export] Hint Resolve keeps_openFileInEditor : keeps.

Lemma keeps_captureFromEditor : keeps_table captureFromEditor.
Proof. unfold captureFromEditor. keeps. Qed.

#[export] Hint Resolve keeps_showAllNotes keeps_showNoteByID
  keeps_showNoteByDay keeps_showNoteByMonth keeps_showNoteByYear
  keeps_showNoteByDate keeps_apply_filter keeps_captureFromEditor : keeps.

(** ** The steps of [new] *)

Lemma main_new_steps (dbpath : string) (arguments : list string)
      (p : flag.Parsed newVars) (w : world) :
  main_new dbpath arguments p w =
  (createTableIfNotExist dbpath;;
   (if new_usage p then PrintDefaults "new";; Exit 1 else ret tt);;
   newNote <- resolve_text arguments p;;
   save_note dbpath newNote (tags_of (flag.vars p))) w.
Proof.
  unfold main_new, connectToDatabase, new_usage, resolve_text, opens_editor,
    save_note, tags_of.
  destruct (String.eqb (newNotePtr (flag.vars p)) ""), (0 <? flag.NFlag p),
    (newEditorNotePtr (flag.vars p)), (flag.NFlag p =? 0),
    (Z.of_nat (List.length arguments) =? 0); reflexivity.
Qed.

Lemma keeps_resolve_text (arguments : list string) (p : flag.Parsed newVars) :
  keeps_table (resolve_text arguments p).
Proof. unfold resolve_text. keeps. Qed.

Lemma save_note_run (database : sqlDB) (text : string) (tgs : tagList)
      (rows : list row) (w : world) :
  table w = Some rows ->
  let n := {| Time := clock (os w) (ticks w); Text := text; Tags := tgs |} in
  save_note database text tgs w =
  (Returned tt,
   with_console (console w ++ [NoteLine n; Executed INSERT_INTO_notes; Closed])
     (with_table (Some (rows ++ [saved_row rows n]))
        (with_ticks (S (ticks w)) w))).
Proof.
  intros Ht n. destruct w as [o t i k f c]. simpl in Ht. subst t.
  unfold save_note, Save, PrintConsole, Close, Prepare, Exec, emit, Now, bind.
  simpl. unfold with_console, with_table, with_ticks. simpl.
  rewrite <- !app_assoc. reflexivity.
Qed.

Lemma find_filtered_out (filename : string) (l : list (string * string)) :
  find (fun f => String.eqb (fst f) filename)
       (filter (fun f => negb (String.eqb (fst f) filename)) l) = None.
Proof.
  induction l as [|x l IH]; simpl; [reflexivity|].
  destruct (String.eqb (fst x) filename) eqn:E; simpl; [exact IH|].
  rewrite E. exact IH.
Qed.

(** On a machine where the temporary file can be made and the editor is
    found and exits normally, [captureFromEditor] runs the editor once and
    returns what it left in the file; the file is gone afterwards. *)
Lemma captureFromEditor_run (w : world) (filename executable : string)
      (after : option string) :
  TempFile (os w) = Some filename ->
  CloseOk (os w) = true ->
  LookPath (os w) (editor_name (os w)) = Some executable ->
  Run (os w) executable filename = (true, after) ->
  exists w',
    captureFromEditor w = (Returned (text_left after, None), w')
    /\ console w' = console w ++ [EditorRun executable filename]
    /\ table w' = table w /\ os w' = os w /\ ticks w' = ticks w
    /\ stdin w' = stdin w
    /\ ~ In filename (map fst (tmpfiles w')).
Proof.
  intros Htmp Hclose Hlook Hrun. destruct w as [o t i k f c]. simpl in *.
  unfold captureFromEditor, bind at 1, ioutil_TempFile. simpl. rewrite Htmp.
  unfold defer, bind at 1, file_Close. simpl. rewrite Hclose.
  unfold bind at 1, openFileInEditor, bind at 1, Getenv. simpl.
  fold (editor_name o). unfold bind at 1, exec_LookPath. simpl. rewrite Hlook.
  unfold cmd_Run. simpl. rewrite Hrun. rewrite String.eqb_refl. simpl.
  unfold bind, ioutil_ReadFile, ret. simpl.
  assert (Hgone : forall l : list (string * string),
             ~ In filename
               (map fst (filter (fun f => negb (String.eqb (fst f) filename)) l))).
  { intros l Hin. apply in_map_iff in Hin. destruct Hin as [x [Hx Hin]].
    apply filter_In in Hin. destruct Hin as [_ Hne]. subst filename.
    rewrite String.eqb_refl in Hne. discriminate. }
  destruct after as [contents|]; simpl.
  - rewrite String.eqb_refl. simpl. eexists. split; [reflexivity|].
    simpl. rewrite String.eqb_refl. simpl. repeat split; auto.
  - rewrite find_filtered_out. simpl. eexists. split; [reflexivity|].
    simpl. repeat split; auto.
Qed.

Lemma main_new_usage_run (dbpath : string) (arguments : list string)
      (p : flag.Parsed newVars) (w : world) :
  new_usage p = true ->
  main_new dbpath arguments p w =
  (Exited 1,
   with_console
     (console w ++ [Executed CREATE_TABLE_IF_NOT_EXISTS_notes; Defaults "new"])
     (with_table (Some (rows_of (table w))) w)).
Proof.
  intros Hu. rewrite main_new_steps, bind_run, createTableIfNotExist_run.
  rewrite Hu. destruct w as [o t i k f c].
  unfold bind, PrintDefaults, emit, Exit, with_console, with_table. simpl.
  rewrite <- app_assoc. reflexivity.
Qed.

(** When [new] is not a usage error, it resolves the text in the world the
    table has been ensured in, and saves it. *)
Lemma main_new_resolved (dbpath : string) (arguments : list string)
      (p : flag.Parsed newVars) (w : world) :
  new_usage p = false ->
  let w1 :=
    with_console (console w ++ [Executed CREATE_TABLE_IF_NOT_EXISTS_notes])
      (with_table (Some (rows_of (table w))) w) in
  main_new dbpath arguments p w =
  match resolve_text arguments p w1 with
  | (Returned text, w2) => save_note dbpath text (tags_of (flag.vars p)) w2
  | (Exited c, w2) => (Exited c, w2)
  | (Panicked msg, w2) => (Panicked msg, w2)
  end.
Proof.
  intros Hu w1. rewrite main_new_steps, bind_run, createTableIfNotExist_run.
  rewrite Hu. fold w1. reflexivity.
Qed.

(** ** The text of a new note *)

(** Counterexample to C2 as stated.  [new -n hello world] reaches note
    construction without the editor, yet the note text is the value of
    [-n], not the trailing argument; and [new --] gives no note-text option,
    no tag option and no trailing text, yet the editor is not launched. *)
Lemma new_text_not_always_joined :
  let r1 := main ["notectl"; "new"; "-n"; "hello"; "world"] fresh in
  let r2 := main ["notectl"; "new"; "--"] fresh in
  flag.parse newCommand ["-n"; "hello"; "world"] newDefaults [] =
    flag.ParseOk {| flag.vars := {| newNotePtr := "hello";
                                    newEditorNotePtr := false;
                                    newTagList := [] |};
                    flag.actual := ["n"]; flag.Args := ["world"] |}
  /\ result_of r1 = Returned tt
  /\ existsb is_editor_run (added fresh (world_of r1)) = false
  /\ map notetext (rows_of (table (world_of r1))) = ["hello"]
  /\ strings.Join ["world"] " " = "world"
  /\ flag.parse newCommand ["--"] newDefaults [] =
       flag.ParseOk {| flag.vars := newDefaults;
                       flag.actual := []; flag.Args := [] |}
  /\ result_of r2 = Returned tt
  /\ existsb is_editor_run (added fresh (world_of r2)) = false.
Proof. vm_compute. repeat split. Qed.

(** C2 (amended): a [new] invocation whose options parse, on a database
    that could be opened, launches the editor only when it is not a usage
    error and either the editor flag is true or no flag was set and nothing
    at all follows the subcommand; on a machine where the temporary file
    can be made and the editor is found and exits normally it then does
    launch it, and saves what the editor left in the file.  Otherwise,
    unless it is a usage error and whatever the machine, it saves the
    trailing arguments joined by single spaces when no flag was set, and
    the value of [-n] when some flag was set. *)
Theorem new_note_text :
  forall (prog : string) (arguments : list string)
         (p : flag.Parsed newVars) (w : world),
    flag.parse newCommand arguments newDefaults [] = flag.ParseOk p ->
    opened w ->
    let r := main (prog :: "new" :: arguments) w in
    (existsb is_editor_run (added w (world_of r)) = true ->
     new_usage p = false /\ opens_editor arguments p = true)
    /\ (new_usage p = true -> result_of r = Exited 1)
    /\ (new_usage p = false -> opens_editor arguments p = false ->
        result_of r = Returned tt
        /\ exists n,
             table (world_of r) =
               Some (rows_of (table w) ++ [saved_row (rows_of (table w)) n])
             /\ Text n =
                if flag.NFlag p =? 0 then strings.Join (flag.Args p) " "
                else newNotePtr (flag.vars p))
    /\ (new_usage p = false -> opens_editor arguments p = true ->
        forall (filename executable : string) (after : option string),
          TempFile (os w) = Some filename ->
          CloseOk (os w) = true ->
          LookPath (os w) (editor_name (os w)) = Some executable ->
          Run (os w) executable filename = (true, after) ->
          In (EditorRun executable filename) (added w (world_of r))
          /\ result_of r = Returned tt
          /\ exists n,
               table (world_of r) =
                 Some (rows_of (table w) ++ [saved_row (rows_of (table w)) n])
               /\ Text n = text_left after).
Proof.
  intros prog arguments p w Hp _ r.
  unfold r. rewrite (main_new_parsed prog arguments p w Hp).
  destruct (new_usage p) eqn:Hu.
  - rewrite (main_new_usage_run _ _ _ _ Hu).
    split; [|split; [reflexivity | split; discriminate]].
    erewrite added_app; cycle 1; [simpl; reflexivity | discriminate].
  - rewrite (main_new_resolved _ _ _ _ Hu). unfold resolve_text.
    destruct (opens_editor arguments p) eqn:He.
    + split; [auto|]. split; [discriminate|]. split; [discriminate|].
      intros _ _ filename executable after Htmp Hclose Hlook Hrun.
      set (w1 := with_console _ _).
      destruct (captureFromEditor_run w1 filename executable after)
        as [w2 (Hcap & Hc & Ht & Ho & Hk & _)];
        try (destruct w; assumption).
      rewrite bind_run, Hcap. unfold snd, fst, ret.
      rewrite (save_note_run _ _ _ (rows_of (table w)) w2)
        by (rewrite Ht; destruct w; reflexivity).
      split; [|split; [reflexivity|]].
      * erewrite added_app; cycle 1.
        { simpl. rewrite Hc. unfold w1. simpl.
          rewrite <- !app_assoc. reflexivity. }
        simpl. auto.
      * eexists. split; [simpl; reflexivity | reflexivity].
    + set (w1 := with_console _ _).
      assert (Hsave : forall text,
                 save_note (dbpath_of w) text (tags_of (flag.vars p)) w1 = _)
        by (intros text; apply (save_note_run _ text _ (rows_of (table w)) w1);
            destruct w; reflexivity).
      split; [|split; [discriminate|split; [|discriminate]]].
      * destruct (flag.NFlag p =? 0); unfold ret; rewrite Hsave;
          (erewrite added_app; cycle 1;
           [simpl; rewrite <- !app_assoc; reflexivity | discriminate]).
      * intros _ _.
        destruct (flag.NFlag p =? 0); unfold ret; rewrite Hsave;
          (split; [reflexivity|]; eexists; split;
           [simpl; reflexivity | reflexivity]).
Qed.

(** [new] with nothing after it opens the editor and saves what was typed. *)
Lemma new_note_text_witness :
  let r := main ["notectl"; "new"] fresh in
  opened fresh
  /\ In (EditorRun "/usr/bin/vi" "/tmp/123") (added fresh (world_of r))
  /\ result_of r = Returned tt
  /\ map notetext (rows_of (table (world_of r))) = ["from the editor"].
Proof.
  destruct (new_note_text "notectl" []
              {| flag.vars := newDefaults; flag.actual := [];
                 flag.Args := [] |}
              fresh eq_refl eq_refl) as (_ & _ & _ & H4).
  destruct (H4 eq_refl eq_refl "/tmp/123" "/usr/bin/vi"
               (Some "from the editor") eq_refl eq_refl eq_refl eq_refl)
    as (H5 & H6 & _).
  split; [reflexivity|]. split; [exact H5|]. split; [exact H6|].
  vm_compute. reflexivity.
Defined.

(** ** What [Parse] preserves *)

Lemma In_mark (n x : string) (act : list string) :
  In x act -> In x (flag.mark n act).
Proof.
  intros H. unfold flag.mark. destruct (existsb (String.eqb n) act); [exact H|].
  apply in_or_app. left. exact H.
Qed.

Lemma In_mark_self (n : string) (act : list string) : In n (flag.mark n act).
Proof.
  unfold flag.mark. destruct (existsb (String.eqb n) act) eqn:E.
  - apply existsb_exists in E. destruct E as [x [Hin Hx]].
    apply String.eqb_eq in Hx. subst x. exact Hin.
  - apply in_or_app. right. left. reflexivity.
Qed.

Section ParseInvariant.

Variable V : Type.
Variable fs : flag.FlagSet V.

(** A property of the variables and of the set flags. *)
Variable Inv : V -> list string -> Prop.

(** It survives the assignment of any declared flag. *)
Hypothesis Inv_set :
  forall f n x v v' act,
    flag.lookup V (flag.formal fs) n = Some f ->
    flag.SetValue f x v = Some v' ->
    Inv v act -> Inv v' (flag.mark n act).

Lemma parse_invariant_bounded (k : nat) :
  forall args v act p,
    (List.length args <= k)%nat ->
    Inv v act ->
    flag.parse fs args v act = flag.ParseOk p ->
    Inv (flag.vars p) (flag.actual p).
Proof.
  induction k as [|k IH]; intros args v act p Hlen Hinv Hparse.
  - destruct args; [|simpl in Hlen; lia]. simpl in Hparse.
    injection Hparse as <-. exact Hinv.
  - destruct args as [|s rest]; simpl in Hparse.
    + injection Hparse as <-. exact Hinv.
    + simpl in Hlen.
      destruct (flag.classify s) as [| | |n value];
        try (injection Hparse as <-; exact Hinv); try discriminate.
      destruct (flag.lookup V (flag.formal fs) n) as [f|] eqn:Hf.
      2:{ destruct (String.eqb n "help" || String.eqb n "h"); discriminate. }
      destruct (flag.IsBoolFlag f).
      * destruct (flag.SetValue f _ v) as [v'|] eqn:Hs; [|discriminate].
        apply (IH rest v' (flag.mark n act) p); [lia| |exact Hparse].
        eapply Inv_set; eassumption.
      * destruct value as [x|].
        -- destruct (flag.SetValue f x v) as [v'|] eqn:Hs; [|discriminate].
           apply (IH rest v' (flag.mark n act) p); [lia| |exact Hparse].
           eapply Inv_set; eassumption.
        -- destruct rest as [|x rest']; [discriminate|].
           destruct (flag.SetValue f x v) as [v'|] eqn:Hs; [|discriminate].
           simpl in Hlen.
           apply (IH rest' v' (flag.mark n act) p); [lia| |exact Hparse].
           eapply Inv_set; eassumption.
Qed.

Lemma parse_invariant (args : list string) (v : V) (act : list string)
      (p : flag.Parsed V) :
  Inv v act ->
  flag.parse fs args v act = flag.ParseOk p ->
  Inv (flag.vars p) (flag.actual p).
Proof.
  apply (parse_invariant_bounded (List.length args)). apply Nat.le_refl.
Qed.

End ParseInvariant.

(** Without [-t] among the set flags the tag list is still nil. *)
Lemma no_tag_option (arguments : list string) (p : flag.Parsed newVars) :
  flag.parse newCommand arguments newDefaults [] = flag.ParseOk p ->
  ~ In "t" (flag.actual p) ->
  newTagList (flag.vars p) = [].
Proof.
  intros Hp Hnot.
  assert (H : newTagList (flag.vars p) = [] \/ In "t" (flag.actual p)).
  { apply (parse_invariant newVars newCommand
             (fun v act => newTagList v = [] \/ In "t" act))
      with (args := arguments) (v := newDefaults) (act := []);
      [| left; reflexivity | exact Hp].
    intros f n x v v' act Hf Hs [Hnil|Hin].
    - cbn [flag.lookup flag.formal newCommand flag.Name flag.String flag.Bool]
        in Hf.
      destruct (String.eqb_spec "n" n) as [<-|_].
      { injection Hf as Hf. subst f. unfold flag.String in Hs. simpl in Hs.
        injection Hs as <-. left. exact Hnil. }
      destruct (String.eqb_spec "e" n) as [<-|_].
      { injection Hf as Hf. subst f. unfold flag.Bool in Hs. simpl in Hs.
        destruct (strconv.ParseBool x); [|discriminate].
        injection Hs as <-. left. exact Hnil. }
      destruct (String.eqb_spec "t" n) as [<-|_]; [|discriminate].
      right. apply In_mark_self.
    - right. apply In_mark. exact Hin. }
  destruct H; [assumption | contradiction].
Qed.

(** ** The tags of a new note *)

(** Counterexample to C3 as stated: [notectl new hello] stores a row whose
    tags column is ["[generic]"], which is not the comma-joined string
    ["generic"] of the note's tags. *)
Lemma default_tag_column_is_bracketed :
  let r := main ["notectl"; "new"; "hello"] fresh in
  result_of r = Returned tt
  /\ map tags (rows_of (table (world_of r))) = ["[generic]"]
  /\ strings.Join (tagList_Set "generic") "," = "generic"
  /\ "[generic]" <> strings.Join (tagList_Set "generic") ",".
Proof. vm_compute. repeat split. discriminate. Qed.

(** C3 (amended): every [new] invocation that returns appends one row, the
    row of the note it built, and the tags column of that row is the tags of
    the note separated by single spaces and enclosed in square brackets;
    when no [-t] option was supplied the note's tags are exactly
    ["generic"] and the column is ["[generic]"]. *)
Theorem default_tag_saved :
  forall (prog : string) (arguments : list string)
         (p : flag.Parsed newVars) (w : world),
    flag.parse newCommand arguments newDefaults [] = flag.ParseOk p ->
    let r := main (prog :: "new" :: arguments) w in
    result_of r = Returned tt ->
    exists n,
      let t := saved_row (rows_of (table w)) n in
      table (world_of r) = Some (rows_of (table w) ++ [t])
      /\ tags t = ("[" ++ strings.Join (Tags n) " " ++ "]")%string
      /\ (~ In "t" (flag.actual p) ->
          Tags n = ["generic"] /\ tags t = "[generic]").
Proof.
  intros prog arguments p w Hp r. unfold r.
  rewrite (main_new_parsed prog arguments p w Hp).
  destruct (new_usage p) eqn:Hu.
  { rewrite (main_new_usage_run _ _ _ _ Hu). discriminate. }
  rewrite (main_new_resolved _ _ _ _ Hu).
  set (w1 := with_console _ _).
  pose proof (keeps_resolve_text arguments p w1) as Hkeep.
  destruct (resolve_text arguments p w1) as [[text|c|msg] w2];
    try discriminate.
  simpl in Hkeep.
  rewrite (save_note_run _ text _ (rows_of (table w)) w2) by exact Hkeep.
  intros _. eexists. simpl. split; [reflexivity|]. split; [reflexivity|].
  intros Hnot. unfold tags_of.
  rewrite (no_tag_option arguments p Hp Hnot). split; reflexivity.
Qed.

(** [notectl new hello]: one row, tagged ["[generic]"]. *)
Lemma default_tag_saved_witness :
  exists n,
    table (world_of (main ["notectl"; "new"; "hello"] fresh)) =
      Some ([] ++ [saved_row [] n])
    /\ Tags n = ["generic"]
    /\ tags (saved_row [] n) = "[generic]".
Proof.
  destruct (default_tag_saved "notectl" ["hello"]
              {| flag.vars := newDefaults; flag.actual := [];
                 flag.Args := ["hello"] |}
              fresh eq_refl eq_refl) as [n (Ht & _ & Hg)].
  exists n. split; [exact Ht|]. apply Hg. simpl. tauto.
Defined.

(** ** [delete -all] and [show -all] *)

Lemma show_all_run (prog : string) (w : world) :
  main [prog; "show"; "-all"] w =
  (Returned tt,
   with_console
     (console w
      ++ [Executed CREATE_TABLE_IF_NOT_EXISTS_notes; Queried SELECT_ALL []]
      ++ map RowLine (rows_of (table w)) ++ [Closed])
     (with_table (Some (rows_of (table w))) w)).
Proof.
  rewrite (main_show_parsed prog ["-all"]
             {| flag.vars :=
                  {| showAllPtr := true; showByIDPtr := -1;
                     showByDayPtr := -1; showByMonthPtr := -1;
                     showByYearPtr := -1; showByDatePtr := "";
                     showUSADatePtr := false |};
                flag.actual := ["all"]; flag.Args := [] |} w eq_refl).
  rewrite main_show_first_set. cbn [flag.vars filters_in_order showAllPtr
    first_set apply_filter].
  rewrite bind_run, createTableIfNotExist_run. rewrite bind_run.
  unfold showAllNotes.
  rewrite (query_print_run _ SELECT_ALL [] (fun _ => true)
             (rows_of (table w))) by (destruct w; reflexivity).
  destruct w as [o t i k f c]. unfold Close, emit, with_console, with_table.
  simpl. rewrite <- !app_assoc. simpl.
  replace (filter (fun _ : row => true) (rows_of t)) with (rows_of t);
    [reflexivity|].
  induction (rows_of t) as [|r rs IH]; simpl; congruence.
Qed.

(** [show -all] prints the rows of the table, all of them, in order. *)
Lemma show_all_shown (prog : string) (w : world) :
  shown (main [prog; "show"; "-all"]) w = rows_of (table w).
Proof.
  unfold shown. rewrite show_all_run.
  erewrite added_app; cycle 1; [simpl; reflexivity|].
  simpl. rewrite rows_printed_app, rows_printed_RowLines. simpl.
  apply app_nil_r.
Qed.

Lemma delete_all_run (prog : string) (w : world) (char : rune)
      (rest : list rune) :
  stdin w = char :: rest ->
  main [prog; "delete"; "-all"] w =
  (Returned tt,
   if confirms char then
     with_console
       (console w
        ++ [Executed CREATE_TABLE_IF_NOT_EXISTS_notes; Line ask; Line deleting;
            Executed DROP_TABLE_notes;
            Executed CREATE_TABLE_IF_NOT_EXISTS_notes; Closed])
       (with_table (Some []) (with_stdin rest w))
   else
     with_console
       (console w
        ++ [Executed CREATE_TABLE_IF_NOT_EXISTS_notes; Line ask; Line declined;
            Closed])
       (with_table (Some (rows_of (table w))) (with_stdin rest w))).
Proof.
  intros Hs.
  rewrite (main_delete_parsed prog ["-all"]
             {| flag.vars := {| deleteAllPtr := true |};
                flag.actual := ["all"]; flag.Args := [] |} w eq_refl).
  unfold main_delete, connectToDatabase. rewrite bind_run. unfold ret at 1.
  rewrite bind_run, createTableIfNotExist_run. cbn [flag.vars deleteAllPtr].
  rewrite bind_run.
  rewrite (deleteAll_run _ _ (rows_of (table w)) char rest)
    by (destruct w; simpl; auto).
  destruct w as [o t i k f c]. simpl in Hs. subst i.
  destruct (confirms char); unfold Close, emit, with_console, with_table,
    with_stdin; simpl; rewrite <- !app_assoc; reflexivity.
Qed.

(** Counterexample to C5 as stated: the response ["Y"] is not the response
    ["y"], yet [delete -all] answered with it removes every row. *)
Lemma delete_all_capital_Y :
  let rows := [sample 1 5 3 2024 "a"; sample 2 5 4 2024 "b"] in
  let w := boot (Some rows) (input "Y") in
  let r := main ["notectl"; "delete"; "-all"] w in
  input "Y" <> input "y"
  /\ result_of r = Returned tt
  /\ table (world_of r) = Some []
  /\ shown (main ["notectl"; "show"; "-all"]) (world_of r) = [].
Proof. vm_compute. repeat split. discriminate. Qed.

(** C5 (amended): on every table, [delete -all] answered with a response
    that begins with [y] or [Y] removes all rows, and answered with a
    response that begins with any other rune it removes nothing, prints
    that nothing was deleted and leaves every row as it was; a [show -all]
    run afterwards prints no row in the first case and every row in the
    second. *)
Theorem delete_all_confirmation :
  forall (prog : string) (w : world) (char : rune) (rest : list rune),
    stdin w = char :: rest ->
    let r := main [prog; "delete"; "-all"] w in
    result_of r = Returned tt
    /\ (char = rune_of "y" \/ char = rune_of "Y" ->
        table (world_of r) = Some []
        /\ shown (main [prog; "show"; "-all"]) (world_of r) = [])
    /\ (char <> rune_of "y" -> char <> rune_of "Y" ->
        rows_of (table (world_of r)) = rows_of (table w)
        /\ In (Line declined) (added w (world_of r))
        /\ existsb (fun e => match e with Executed DROP_TABLE_notes => true
                                     | _ => false end)
                   (added w (world_of r)) = false
        /\ shown (main [prog; "show"; "-all"]) (world_of r)
           = rows_of (table w)).
Proof.
  intros prog w char rest Hs r. unfold r.
  rewrite (delete_all_run prog w char rest Hs).
  split; [reflexivity|]. split.
  - intros Hy.
    assert (Hc : confirms char = true)
      by (unfold confirms; destruct Hy; subst char; reflexivity).
    rewrite Hc. rewrite show_all_shown. simpl. split; reflexivity.
  - intros H1 H2.
    assert (Hc : confirms char = false).
    { unfold confirms. apply orb_false_iff.
      split; apply Z.eqb_neq; assumption. }
    rewrite Hc. rewrite show_all_shown. simpl.
    erewrite added_app; cycle 1; [simpl; reflexivity|].
    simpl. repeat split; auto.
Qed.

(** Answering ["nope"] keeps the two notes. *)
Lemma delete_all_confirmation_witness :
  let rows := [sample 1 5 3 2024 "a"; sample 2 5 4 2024 "b"] in
  let w := boot (Some rows) (input "nope") in
  rows_of (table (world_of (main ["notectl"; "delete"; "-all"] w))) = rows.
Proof.
  destruct (delete_all_confirmation "notectl"
              (boot (Some [sample 1 5 3 2024 "a"; sample 2 5 4 2024 "b"])
                    (input "nope"))
              (rune_of "n") (input "ope") eq_refl) as (_ & _ & Hn).
  apply Hn; discriminate.
Defined.

(** ** Usage errors *)

Lemma main_show_usage_run (dbpath : string) (p : flag.Parsed showVars)
      (w : world) :
  show_usage p = true ->
  main_show dbpath p w =
  (Exited 1,
   with_console
     (console w ++ [Executed CREATE_TABLE_IF_NOT_EXISTS_notes; Defaults "show"])
     (with_table (Some (rows_of (table w))) w)).
Proof.
  unfold show_usage. intros Hu. rewrite main_show_first_set.
  destruct (first_set (filters_in_order (flag.vars p))); [discriminate|].
  rewrite bind_run, createTableIfNotExist_run.
  destruct w as [o t i k f c].
  unfold bind, PrintDefaults, emit, Exit, with_console, with_table. simpl.
  rewrite <- app_assoc. reflexivity.
Qed.

Lemma main_delete_usage_run (dbpath : string) (p : flag.Parsed deleteVars)
      (w : world) :
  delete_usage p = true ->
  main_delete dbpath p w =
  (Exited 1,
   with_console
     (console w
      ++ [Executed CREATE_TABLE_IF_NOT_EXISTS_notes; Defaults "delete"])
     (with_table (Some (rows_of (table w))) w)).
Proof.
  unfold delete_usage. intros Hu. unfold main_delete, connectToDatabase.
  rewrite bind_run. unfold ret at 1.
  rewrite bind_run, createTableIfNotExist_run.
  destruct (deleteAllPtr (flag.vars p)); [discriminate|].
  destruct w as [o t i k f c].
  unfold bind, PrintDefaults, emit, Exit, with_console, with_table. simpl.
  rewrite <- app_assoc. reflexivity.
Qed.

(** Counterexample to C9 as stated: [notectl show] with no filter is a usage
    error, and run on a database that has no [notes] table yet it creates
    the table: the schema of the stored database changes. *)
Lemma usage_error_creates_table :
  let r := main ["notectl"; "show"] fresh in
  usage_error "show" [] = true
  /\ result_of r = Exited 1
  /\ table fresh = None
  /\ table (world_of r) = Some []
  /\ table (world_of r) <> table fresh.
Proof. vm_compute. repeat split. discriminate. Qed.

(** An invocation whose options package flag refuses, or that ends in the
    program's own usage error, ends in one of two ways. *)
Lemma usage_error_run (prog subcommand : string) (arguments : list string)
      (w : world) :
  flag_error subcommand arguments || usage_error subcommand arguments = true ->
  main (prog :: subcommand :: arguments) w =
    (Exited 2, with_console (console w ++ [FlagError subcommand]) w)
  \/ main (prog :: subcommand :: arguments) w =
     (Exited 1,
      with_console
        (console w ++ [Executed CREATE_TABLE_IF_NOT_EXISTS_notes;
                       Defaults subcommand])
        (with_table (Some (rows_of (table w))) w)).
Proof.
  unfold flag_error, usage_error, is_ParseError.
  destruct (String.eqb_spec subcommand "new") as [->|_].
  { rewrite (main_new_cases prog arguments w).
    destruct (flag.parse newCommand arguments newDefaults []) as [p| |];
      cbn [orb]; intros Hu; try discriminate; [right | left; reflexivity].
    apply main_new_usage_run. exact Hu. }
  destruct (String.eqb_spec subcommand "show") as [->|_].
  { rewrite (main_show_cases prog arguments w).
    destruct (flag.parse showCommand arguments showDefaults []) as [p| |];
      cbn [orb]; intros Hu; try discriminate; [right | left; reflexivity].
    apply main_show_usage_run. exact Hu. }
  destruct (String.eqb_spec subcommand "delete") as [->|_];
    [|discriminate].
  rewrite (main_delete_cases prog arguments w).
  destruct (flag.parse deleteCommand arguments deleteDefaults []) as [p| |];
    cbn [orb]; intros Hu; try discriminate; [right | left; reflexivity].
  apply main_delete_usage_run. exact Hu.
Qed.

(** C9 (amended): every invocation of [new], [show] or [delete] that ends
    in a usage error (options that package flag refuses; [show] or [delete]
    without a filter or flag; [new] with options but neither text nor
    editor), on a database that could be opened, prints the option help
    and exits with a non-zero status, having run no INSERT and no DROP:
    every row is as it was.  The table itself is as it was, or, when the
    database had none, it has been created empty. *)
Theorem usage_error_keeps_rows :
  forall (prog subcommand : string) (arguments : list string) (w : world),
    flag_error subcommand arguments || usage_error subcommand arguments
      = true ->
    opened w ->
    let r := main (prog :: subcommand :: arguments) w in
    (exists code, result_of r = Exited code /\ code <> 0)
    /\ existsb is_help (added w (world_of r)) = true
    /\ existsb changes_rows (added w (world_of r)) = false
    /\ rows_of (table (world_of r)) = rows_of (table w)
    /\ (table (world_of r) = table w
        \/ (table w = None /\ table (world_of r) = Some [])).
Proof.
  intros prog subcommand arguments w Hu _ r. unfold r.
  destruct (usage_error_run prog subcommand arguments w Hu) as [H|H];
    rewrite H; unfold result_of, world_of; cbn [fst snd].
  - split; [exists 2; split; [reflexivity | discriminate]|].
    rewrite (added_app w _ [FlagError subcommand]) by reflexivity.
    repeat split; destruct w; auto.
  - split; [exists 1; split; [reflexivity | discriminate]|].
    rewrite (added_app w _ [Executed CREATE_TABLE_IF_NOT_EXISTS_notes;
                            Defaults subcommand]) by reflexivity.
    repeat split.
    destruct w as [o [rows|] i k f c]; simpl; auto.
Qed.

(** [notectl delete] without [-all] and [notectl show -x], on a table of
    two notes. *)
Lemma usage_error_keeps_rows_witness :
  let rows := [sample 1 5 3 2024 "a"; sample 2 5 4 2024 "b"] in
  let r := main ["notectl"; "delete"] (boot (Some rows) []) in
  let r' := main ["notectl"; "show"; "-x"] (boot (Some rows) []) in
  opened (boot (Some rows) [])
  /\ rows_of (table (world_of r)) = rows
  /\ rows_of (table (world_of r')) = rows.
Proof.
  destruct (usage_error_keeps_rows "notectl" "delete" []
              (boot (Some [sample 1 5 3 2024 "a"; sample 2 5 4 2024 "b"]) [])
              eq_refl eq_refl) as (_ & _ & _ & H1 & _).
  destruct (usage_error_keeps_rows "notectl" "show" ["-x"]
              (boot (Some [sample 1 5 3 2024 "a"; sample 2 5 4 2024 "b"]) [])
              eq_refl eq_refl) as (_ & _ & _ & H2 & _).
  split; [reflexivity|]. split; [exact H1 | exact H2].
Defined.

(** ** What one invocation can do to the table *)

Lemma main_new_table_step (dbpath : string) (arguments : list string)
      (p : flag.Parsed newVars) (w : world) :
  table_step (table w) (table (snd (main_new dbpath arguments p w))).
Proof.
  destruct (new_usage p) eqn:Hu.
  - rewrite (main_new_usage_run _ _ _ _ Hu). simpl. apply ensured.
  - rewrite (main_new_resolved _ _ _ _ Hu).
    set (w1 := with_console _ _).
    pose proof (keeps_resolve_text arguments p w1) as Hkeep.
    destruct (resolve_text arguments p w1) as [[text|c|msg] w2];
      simpl in Hkeep.
    + rewrite (save_note_run _ text _ (rows_of (table w)) w2) by exact Hkeep.
      simpl. apply inserted.
    + simpl. rewrite Hkeep. apply ensured.
    + simpl. rewrite Hkeep. apply ensured.
Qed.

Lemma main_show_table_step (dbpath : string) (p : flag.Parsed showVars)
      (w : world) :
  table_step (table w) (table (snd (main_show dbpath p w))).
Proof.
  rewrite main_show_first_set.
  destruct (first_set (filters_in_order (flag.vars p))) as [f|].
  - rewrite bind_run, createTableIfNotExist_run.
    set (w1 := with_console _ _).
    assert (Hk : keeps_table (apply_filter f dbpath;; Close dbpath))
      by keeps.
    rewrite (Hk w1). simpl. apply ensured.
  - rewrite bind_run, createTableIfNotExist_run.
    set (w1 := with_console _ _).
    assert (Hk : keeps_table (PrintDefaults "show";; @Exit unit 1)) by keeps.
    rewrite (Hk w1). simpl. apply ensured.
Qed.

Lemma main_delete_table_step (dbpath : string) (p : flag.Parsed deleteVars)
      (w : world) :
  table_step (table w) (table (snd (main_delete dbpath p w))).
Proof.
  destruct (delete_usage p) eqn:Hu.
  { rewrite (main_delete_usage_run _ _ _ Hu). simpl. apply ensured. }
  unfold delete_usage in Hu. apply negb_false_iff in Hu.
  unfold main_delete, connectToDatabase. rewrite bind_run. unfold ret at 1.
  rewrite bind_run, createTableIfNotExist_run. rewrite Hu.
  set (w1 := with_console _ _). rewrite bind_run.
  destruct (stdin w) as [|char rest] eqn:Hs.
  - rewrite (deleteAll_EOF dbpath w1) by (destruct w; exact Hs).
    simpl. apply ensured.
  - rewrite (deleteAll_run dbpath w1 (rows_of (table w)) char rest)
      by (destruct w; simpl; auto).
    destruct (confirms char); simpl; [apply emptied | apply ensured].
Qed.

(** Whatever its arguments and however it ends, one run of the program
    leaves the table untouched, ensures it exists, appends the row of one
    note, or empties it. *)
Lemma main_table_step (Args : list string) (w : world) :
  table_step (table w) (table (snd (main Args w))).
Proof.
  unfold main. rewrite bind_run. unfold Getenv. cbv iota beta.
  fold (dbpath_of w).
  destruct (Z.of_nat (List.length Args) <? 2).
  { assert (Hk : keeps_table (Println "subcommand required";; @Exit unit 1))
      by keeps.
    rewrite (Hk w). apply untouched. }
  destruct (String.eqb (nth 1 Args "") "new").
  { rewrite bind_run. unfold flag.Parse.
    destruct (flag.parse newCommand (skipn 2 Args) newDefaults []) as [p| |].
    - apply main_new_table_step.
    - destruct w; simpl. apply untouched.
    - destruct w; simpl. apply untouched. }
  destruct (String.eqb (nth 1 Args "") "show").
  { rewrite bind_run. unfold flag.Parse.
    destruct (flag.parse showCommand (skipn 2 Args) showDefaults []) as [p| |].
    - apply main_show_table_step.
    - destruct w; simpl. apply untouched.
    - destruct w; simpl. apply untouched. }
  destruct (String.eqb (nth 1 Args "") "delete").
  { rewrite bind_run. unfold flag.Parse.
    destruct (flag.parse deleteCommand (skipn 2 Args) deleteDefaults [])
      as [p| |].
    - apply main_delete_table_step.
    - destruct w; simpl. apply untouched.
    - destruct w; simpl. apply untouched. }
  assert (Hk : keeps_table (PrintDefaults (nth 0 Args "");; @Exit unit 1))
    by keeps.
  rewrite (Hk w). apply untouched.
Qed.

(** ** The id column over a session *)

Lemma fold_max_bounds (l : list Z) (a : Z) :
  a <= fold_left Z.max l a /\ forall x, In x l -> x <= fold_left Z.max l a.
Proof.
  revert a. induction l as [|y l IH]; intros a; simpl.
  - split; [lia | contradiction].
  - destruct (IH (Z.max a y)) as [H1 H2]. split; [lia|].
    intros x [<-|Hin]; [lia | apply H2; exact Hin].
Qed.

Lemma fold_max_member (l : list Z) (a : Z) :
  In (fold_left Z.max l a) (a :: l).
Proof.
  revert a. induction l as [|y l IH]; intros a; simpl.
  - left. reflexivity.
  - destruct (IH (Z.max a y)) as [H|H].
    + rewrite <- H. destruct (Z.max_spec a y) as [[_ E]|[_ E]]; rewrite E; auto.
    + right. right. exact H.
Qed.

(** The id given to a new row is above every id in the table. *)
Lemma next_rowid_above (rows : list row) (r : row) :
  In r rows -> id r < sqlite.next_rowid rows.
Proof.
  unfold sqlite.next_rowid, sqlite.max_rowid.
  destruct rows as [|r0 rest]; [contradiction|].
  destruct (fold_max_bounds (map id rest) (id r0)) as [H1 H2].
  intros [<-|Hin]; [lia|].
  specialize (H2 (id r) (in_map id _ _ Hin)). lia.
Qed.

Lemma increasing_snoc (rows : list row) (r : row) :
  increasing rows ->
  (forall x, In x rows -> id x < id r) ->
  increasing (rows ++ [r]).
Proof.
  unfold increasing. induction rows as [|x rows IH]; intros Hs Hlt; simpl.
  - constructor; constructor.
  - simpl in Hs. apply StronglySorted_inv in Hs. destruct Hs as [Hs Hall].
    constructor.
    + apply IH; [exact Hs|]. intros y Hy. apply Hlt. right. exact Hy.
    + rewrite map_app. apply Forall_app. split; [exact Hall|].
      constructor; [|constructor]. apply Hlt. left. reflexivity.
Qed.

Lemma table_step_increasing (t t' : option (list row)) :
  table_step t t' -> increasing (rows_of t) -> increasing (rows_of t').
Proof.
  intros Hstep Hinc. destruct Hstep; simpl; try assumption.
  - apply increasing_snoc; [exact Hinc|].
    intros x Hx. simpl. apply next_rowid_above. exact Hx.
  - constructor.
Qed.

Lemma invoke_table_step (i : invocation) (w : world) :
  table_step (table w) (table (invoke i w)).
Proof.
  unfold invoke.
  replace (table w) with (table (with_stdin (snd i) w))
    by (destruct w; reflexivity).
  apply main_table_step.
Qed.

(** Counterexample to C6 as stated: insert a note, confirm a delete-all,
    insert another note.  The first note was given id 1, and the second,
    a different row, is given id 1 again. *)
Lemma id_reused_after_delete_all :
  let w1 := invoke (["notectl"; "new"; "first"], []) fresh in
  let w2 := invoke (["notectl"; "delete"; "-all"], input "y") w1 in
  let w3 := invoke (["notectl"; "new"; "second"], []) w2 in
  map (fun r => (id r, notetext r)) (rows_of (table w1)) = [(1, "first")]
  /\ rows_of (table w2) = []
  /\ map (fun r => (id r, notetext r)) (rows_of (table w3)) = [(1, "second")].
Proof. vm_compute. repeat split. Qed.

Lemma next_rowid_headroom (k : nat) (rows : list row) :
  headroom (S k) rows -> sqlite.next_rowid rows + Z.of_nat k <= MaxRowid.
Proof.
  intros [Hk Hrows]. unfold sqlite.next_rowid, sqlite.max_rowid.
  destruct rows as [|r0 rest]; [lia|].
  destruct (fold_max_member (map id rest) (id r0)) as [Heq|Hin].
  - rewrite <- Heq. specialize (Hrows r0 (or_introl eq_refl)). lia.
  - apply in_map_iff in Hin. destruct Hin as [x [Hx Hin]].
    rewrite <- Hx. specialize (Hrows x (or_intror Hin)). lia.
Qed.

Lemma table_step_headroom (k : nat) (t t' : option (list row)) :
  table_step t t' -> headroom (S k) (rows_of t) -> headroom k (rows_of t').
Proof.
  intros Hstep Hroom.
  assert (Hweak : headroom k (rows_of t)).
  { destruct Hroom as [Hk Hrows]. split; [lia|].
    intros r Hin. specialize (Hrows r Hin). lia. }
  destruct Hstep; simpl; try exact Hweak.
  - split; [apply Hweak|]. intros r Hin. apply in_app_or in Hin.
    destruct Hin as [Hin|[<-|[]]]; [apply Hweak; exact Hin|].
    simpl. apply next_rowid_headroom. exact Hroom.
  - split; [apply Hweak | contradiction].
Qed.

(** C6 (amended): across every session of invocations on a table whose
    ids go strictly up and leave room below the largest rowid for as many
    rows as the session has invocations, the ids of the rows in the table
    still go strictly up, so no two rows of the table ever share an id,
    and they stay at most the largest rowid; an appended row gets an id
    above every id then in the table.  A confirmed delete-all drops the
    table, and the next row is given id 1 again. *)
Theorem id_increasing_between_deletes :
  forall (session : list invocation) (w : world),
    increasing (rows_of (table w)) ->
    headroom (List.length session) (rows_of (table w)) ->
    increasing (rows_of (table (play session w)))
    /\ NoDup (map id (rows_of (table (play session w))))
    /\ headroom 0 (rows_of (table (play session w)))
    /\ (forall rows n r,
          headroom 1 rows -> In r rows ->
          id r < id (saved_row rows n) <= MaxRowid)
    /\ (forall n, id (saved_row [] n) = 1).
Proof.
  intros session w Hinc Hroom.
  assert (Hplay : increasing (rows_of (table (play session w)))
                  /\ headroom 0 (rows_of (table (play session w)))).
  { revert w Hinc Hroom.
    induction session as [|i rest IH]; intros w Hinc Hroom; simpl.
    - split; [exact Hinc | exact Hroom].
    - apply IH.
      + apply (table_step_increasing (table w));
          [apply invoke_table_step | exact Hinc].
      + apply (table_step_headroom _ (table w));
          [apply invoke_table_step | exact Hroom]. }
  destruct Hplay as [Hplay Hend].
  split; [exact Hplay|]. split; [|split; [exact Hend|split]].
  - unfold increasing in Hplay.
    induction Hplay as [|x l Hs IH Hall]; constructor; [|exact IH].
    intros Hin. rewrite Forall_forall in Hall. specialize (Hall x Hin). lia.
  - intros rows n r Hr Hin. simpl. split.
    + apply next_rowid_above. exact Hin.
    + pose proof (next_rowid_headroom 0 rows Hr). lia.
  - reflexivity.
Qed.

(** Three notes, a refused delete-all and a fourth note: ids 1, 2, 3, 4. *)
Lemma id_increasing_between_deletes_witness :
  let session :=
    [(["notectl"; "new"; "a"], []); (["notectl"; "new"; "b"], []);
     (["notectl"; "new"; "-n"; "c"], []);
     (["notectl"; "delete"; "-all"], input "n");
     (["notectl"; "new"; "d"], [])] in
  increasing (rows_of (table fresh))
  /\ headroom (List.length session) (rows_of (table fresh))
  /\ increasing (rows_of (table (play session fresh)))
  /\ map id (rows_of (table (play session fresh))) = [1; 2; 3; 4].
Proof.
  assert (Hinc : increasing (rows_of (table fresh))) by constructor.
  assert (Hroom : headroom 5 (rows_of (table fresh))).
  { split; [vm_compute; discriminate | intros r []]. }
  split; [exact Hinc|]. split; [exact Hroom|]. split.
  - apply (id_increasing_between_deletes
             [(["notectl"; "new"; "a"], []); (["notectl"; "new"; "b"], []);
              (["notectl"; "new"; "-n"; "c"], []);
              (["notectl"; "delete"; "-all"], input "n");
              (["notectl"; "new"; "d"], [])] fresh Hinc Hroom).
  - vm_compute. reflexivity.
Defined.

(** * Further properties of the program *)

(** ** Before any subcommand block *)

(** X1: run with no subcommand, or with one that is not [new], [show] or
    [delete], the program exits with status 1 after printing just
    "subcommand required" when there is no subcommand, and just the option
    help of the command line, which declares no option, when the
    subcommand is unknown; it has not opened the database: the table,
    absent or not, standard input, the clock and the temporary files are as
    they were. *)
Theorem main_without_subcommand :
  forall (Args : list string) (w : world),
    no_subcommand Args = true ->
    let r := main Args w in
    result_of r = Exited 1
    /\ (added w (world_of r) = [Line "subcommand required"]
        \/ added w (world_of r) = [Defaults (nth 0 Args "")])
    /\ ((List.length Args < 2)%nat ->
        added w (world_of r) = [Line "subcommand required"])
    /\ ((2 <= List.length Args)%nat ->
        added w (world_of r) = [Defaults (nth 0 Args "")])
    /\ table (world_of r) = table w
    /\ stdin (world_of r) = stdin w
    /\ ticks (world_of r) = ticks w
    /\ tmpfiles (world_of r) = tmpfiles w.
Proof.
  intros Args w Hno r. unfold no_subcommand in Hno.
  assert (H : r = (Exited 1,
                   with_console (console w ++ [Line "subcommand required"]) w)
              /\ (List.length Args < 2)%nat
              \/ r = (Exited 1,
                      with_console (console w ++ [Defaults (nth 0 Args "")]) w)
                 /\ (2 <= List.length Args)%nat).
  { unfold r, main. rewrite bind_run. unfold Getenv. cbv iota beta.
    destruct (Z.ltb_spec (Z.of_nat (List.length Args)) 2) as [Hlt|Hge].
    - left. split; [reflexivity | lia].
    - right. simpl in Hno. apply negb_true_iff in Hno.
      apply orb_false_iff in Hno. destruct Hno as [Hno Hd].
      apply orb_false_iff in Hno. destruct Hno as [Hn Hs].
      rewrite Hn, Hs, Hd. split; [reflexivity | lia]. }
  destruct H as [[H Hlen]|[H Hlen]]; rewrite H; simpl.
  - split; [reflexivity|]. split; [left; apply added_app; reflexivity|].
    split; [intros _; apply added_app; reflexivity|].
    split; [intros Hge; lia|]. repeat split.
  - split; [reflexivity|]. split; [right; apply added_app; reflexivity|].
    split; [intros Hlt; lia|].
    split; [intros _; apply added_app; reflexivity|]. repeat split.
Qed.

(** [notectl] alone, and [notectl list]. *)
Lemma main_without_subcommand_witness :
  result_of (main ["notectl"] fresh) = Exited 1
  /\ added fresh (world_of (main ["notectl"; "list"] fresh))
     = [Defaults "notectl"].
Proof.
  split.
  - apply (main_without_subcommand ["notectl"] fresh eq_refl).
  - destruct (main_without_subcommand ["notectl"; "list"] fresh eq_refl)
      as (_ & _ & _ & H & _).
    apply H. simpl. lia.
Defined.

(** X2: when the options of [new], [show] or [delete] do not parse (an
    undefined flag, a missing or malformed value, a help request), the
    process exits inside the parser, with status 0 or 2, before the database
    is opened: not even the CREATE TABLE runs, so a database without the
    table stays without it. *)
Theorem main_parse_failure :
  forall (prog subcommand : string) (arguments : list string) (w : world),
    parse_fails subcommand arguments = true ->
    let r := main (prog :: subcommand :: arguments) w in
    (result_of r = Exited 0 \/ result_of r = Exited 2)
    /\ added w (world_of r) = [FlagError subcommand]
    /\ table (world_of r) = table w
    /\ stdin (world_of r) = stdin w.
Proof.
  intros prog subcommand arguments w Hf r.
  assert (H : exists c, (c = 0 \/ c = 2)
              /\ r = (Exited c,
                      with_console (console w ++ [FlagError subcommand]) w)).
  { unfold r, main. rewrite bind_run. unfold Getenv. cbv iota beta.
    cbn [List.length skipn nth].
    change (Z.of_nat (S (S (List.length arguments))) <? 2)
      with (Z.of_nat (2 + List.length arguments) <? 2).
    destruct (Z.ltb_spec (Z.of_nat (2 + List.length arguments)) 2); [lia|].
    unfold parse_fails in Hf.
    destruct (String.eqb subcommand "new") eqn:En.
    { apply String.eqb_eq in En. subst subcommand.
      rewrite bind_run. unfold flag.Parse.
      destruct (flag.parse newCommand arguments newDefaults []);
        [discriminate | exists 0 | exists 2]; (split; [auto | reflexivity]). }
    destruct (String.eqb subcommand "show") eqn:Es.
    { apply String.eqb_eq in Es. subst subcommand.
      rewrite bind_run. unfold flag.Parse.
      destruct (flag.parse showCommand arguments showDefaults []);
        [discriminate | exists 0 | exists 2]; (split; [auto | reflexivity]). }
    destruct (String.eqb subcommand "delete") eqn:Ed; [|discriminate].
    apply String.eqb_eq in Ed. subst subcommand.
    rewrite bind_run. unfold flag.Parse.
    destruct (flag.parse deleteCommand arguments deleteDefaults []);
      [discriminate | exists 0 | exists 2]; (split; [auto | reflexivity]). }
  destruct H as [c [Hc H]]. rewrite H. simpl.
  split; [destruct Hc; subst c; auto|].
  split; [apply added_app; reflexivity|]. split; reflexivity.
Qed.

(** [show -x]: an undefined flag. *)
Lemma main_parse_failure_witness :
  table (world_of (main ["notectl"; "show"; "-x"] fresh)) = None
  /\ result_of (main ["notectl"; "show"; "-day"; "five"] fresh) = Exited 2.
Proof.
  split.
  - apply (main_parse_failure "notectl" "show" ["-x"] fresh eq_refl).
  - destruct (main_parse_failure "notectl" "show" ["-day"; "five"] fresh
                eq_refl) as [[H|H] _]; [discriminate H | exact H].
Defined.

(** ** Queries by id and by year *)

Lemma filter_id_above (rows : list row) (i : Z) :
  Forall (Z.lt i) (map id rows) -> filter (fun r => id r =? i) rows = [].
Proof.
  induction rows as [|r rows IH]; simpl; [reflexivity|].
  intros H. apply Forall_cons_iff in H. destruct H as [Hr Hrest].
  destruct (Z.eqb_spec (id r) i); [lia | apply IH; exact Hrest].
Qed.

Lemma filter_id_unique (rows : list row) (i : Z) :
  increasing rows ->
  (List.length (filter (fun r => (id r =? i)%Z) rows) <= 1)%nat.
Proof.
  unfold increasing. induction rows as [|r rows IH]; simpl; intros Hs.
  - lia.
  - apply StronglySorted_inv in Hs. destruct Hs as [Hs Hall].
    destruct (Z.eqb_spec (id r) i) as [E|_].
    + subst i. rewrite (filter_id_above rows (id r) Hall). simpl. lia.
    + apply IH. exact Hs.
Qed.

Lemma filter_id_absent (rows : list row) (i : Z) :
  (forall x, In x rows -> id x <> i) -> filter (fun r => id r =? i) rows = [].
Proof.
  induction rows as [|r rows IH]; simpl; intros Hnone; [reflexivity|].
  destruct (Z.eqb_spec (id r) i) as [E|_].
  - exfalso. apply (Hnone r); [left; reflexivity | exact E].
  - apply IH. intros y Hy. apply Hnone. right. exact Hy.
Qed.

(** X4: on a table whose ids go strictly up, [showNoteByID] prints the row
    that has the given id and no other, so at most one row; when no row has
    that id it prints nothing and still returns normally. *)
Theorem showNoteByID_at_most_one :
  forall (i : Z) (database : sqlDB) (w : world) (rows : list row),
    table w = Some rows ->
    increasing rows ->
    let r := showNoteByID i database w in
    result_of r = Returned tt
    /\ shown (showNoteByID i database) w = filter (fun x => id x =? i) rows
    /\ (forall x, In x (shown (showNoteByID i database) w) <->
                  In x rows /\ id x = i)
    /\ (List.length (shown (showNoteByID i database) w) <= 1)%nat
    /\ ((forall x, In x rows -> id x <> i) ->
        shown (showNoteByID i database) w = [])
    /\ table (world_of r) = Some rows.
Proof.
  intros i database w rows Ht Hinc r.
  assert (Hrun : showNoteByID i database w =
                 (Returned tt,
                  with_console
                    (console w ++ Queried WHERE_id [i]
                       :: map RowLine (filter (fun x => id x =? i) rows)) w))
    by (apply query_print_run; [exact Ht | reflexivity]).
  assert (Hs : shown (showNoteByID i database) w
               = filter (fun x => id x =? i) rows).
  { eapply shown_of_run; [exact Hrun | simpl; reflexivity | reflexivity]. }
  unfold r. rewrite Hs, Hrun. simpl.
  split; [reflexivity|]. split; [reflexivity|]. split; [|split; [|split]].
  - intros x. rewrite filter_In, Z.eqb_eq. tauto.
  - apply filter_id_unique. exact Hinc.
  - apply filter_id_absent.
  - exact Ht.
Qed.

(** Of two notes, [show -i 2] picks the second. *)
Lemma showNoteByID_at_most_one_witness :
  let rows := [sample 1 5 3 2024 "a"; sample 2 5 4 2024 "b"] in
  shown (showNoteByID 2 "db") (boot (Some rows) []) = [sample 2 5 4 2024 "b"].
Proof.
  assert (Hinc : increasing [sample 1 5 3 2024 "a"; sample 2 5 4 2024 "b"]).
  { unfold increasing. simpl. repeat constructor. }
  destruct (showNoteByID_at_most_one 2 "db"
              (boot (Some [sample 1 5 3 2024 "a"; sample 2 5 4 2024 "b"]) [])
              [sample 1 5 3 2024 "a"; sample 2 5 4 2024 "b"] eq_refl Hinc)
    as (_ & H & _).
  exact H.
Defined.

(** X5: [showNoteByYear] prints exactly the rows whose year column is the
    given year, in table order, whatever the date of the run: unlike the day
    and month filters it never reads the clock. *)
Theorem showNoteByYear_any_year :
  forall (y : Z) (database : sqlDB) (w : world) (rows : list row),
    table w = Some rows ->
    let r := showNoteByYear y database w in
    result_of r = Returned tt
    /\ shown (showNoteByYear y database) w = filter (fun x => year x =? y) rows
    /\ (forall x, In x (shown (showNoteByYear y database) w) <->
                  In x rows /\ year x = y)
    /\ ticks (world_of r) = ticks w
    /\ ticks (world_of (showNoteByDay y database w)) = S (S (ticks w))
    /\ ticks (world_of (showNoteByMonth y database w)) = S (ticks w).
Proof.
  intros y database w rows Ht r.
  assert (Hrun : showNoteByYear y database w =
                 (Returned tt,
                  with_console
                    (console w ++ Queried WHERE_year [y]
                       :: map RowLine (filter (fun x => year x =? y) rows)) w))
    by (apply query_print_run; [exact Ht | reflexivity]).
  assert (Hs : shown (showNoteByYear y database) w
               = filter (fun x => year x =? y) rows).
  { eapply shown_of_run; [exact Hrun | simpl; reflexivity | reflexivity]. }
  unfold r. rewrite Hs, Hrun. simpl.
  split; [reflexivity|]. split; [reflexivity|]. split; [|split; [|split]].
  - intros x. rewrite filter_In, Z.eqb_eq. tauto.
  - reflexivity.
  - rewrite (showNoteByDay_run database w rows y Ht). reflexivity.
  - rewrite (showNoteByMonth_run database w rows y Ht). reflexivity.
Qed.

(** The notes of 2024, asked for in any year. *)
Lemma showNoteByYear_any_year_witness :
  let rows := [sample 1 5 3 2023 "a"; sample 2 5 4 2024 "b"] in
  shown (showNoteByYear 2023 "db") (boot (Some rows) [])
  = [sample 1 5 3 2023 "a"].
Proof.
  destruct (showNoteByYear_any_year 2023 "db"
              (boot (Some [sample 1 5 3 2023 "a"; sample 2 5 4 2024 "b"]) [])
              [sample 1 5 3 2023 "a"; sample 2 5 4 2024 "b"] eq_refl)
    as (_ & H & _).
  exact H.
Defined.

(** ** Saving and finding again *)

Lemma Save_run (n : note) (database : sqlDB) (w : world) (rows : list row) :
  table w = Some rows ->
  Save n database w =
  (Returned tt,
   with_console (console w ++ [Executed INSERT_INTO_notes])
     (with_table (Some (rows ++ [saved_row rows n])) w)).
Proof.
  intros Ht. destruct w as [o t i k f c]. simpl in Ht. subst t.
  reflexivity.
Qed.

Lemma shown_query (database : sqlDB) (q : selection) (args : list Z)
      (keep : row -> bool) (rows : list row) (w : world) :
  table w = Some rows ->
  sqlite.where_ q args = Some keep ->
  shown (rs <- Query database q args;; printRows rs) w = filter keep rows.
Proof.
  intros Ht Hq. eapply shown_of_run.
  - apply (query_print_run database q args keep rows w Ht Hq).
  - simpl. reflexivity.
  - reflexivity.
Qed.

Lemma filter_all {A} (l : list A) : filter (fun _ => true) l = l.
Proof. induction l as [|x l IH]; simpl; congruence. Qed.

(** X6: on an existing table whose ids are all below the largest rowid,
    [Save] appends one row, built from the note, under an id above every
    id in the table and at most the largest rowid; asking for that id right
    afterwards prints the new row and nothing else, and listing all notes
    prints the old rows, unchanged and in their order, followed by the new
    one. *)
Theorem Save_then_find :
  forall (n : note) (database : sqlDB) (w : world) (rows : list row),
    table w = Some rows ->
    headroom 1 rows ->
    let new := saved_row rows n in
    let w1 := world_of (Save n database w) in
    result_of (Save n database w) = Returned tt
    /\ table w1 = Some (rows ++ [new])
    /\ (forall x, In x rows -> id x < id new)
    /\ id new <= MaxRowid
    /\ shown (showNoteByID (id new) database) w1 = [new]
    /\ shown (showAllNotes database) w1 = rows ++ [new]
    /\ notetext new = Text n
    /\ timestamp new = time.Unix (Time n).
Proof.
  intros n database w rows Ht Hroom new w1. unfold w1.
  rewrite (Save_run n database w rows Ht). simpl.
  assert (Habove : forall x, In x rows -> id x < id new)
    by (intros x Hx; apply next_rowid_above; exact Hx).
  split; [reflexivity|]. split; [reflexivity|]. split; [exact Habove|].
  split; [pose proof (next_rowid_headroom 0 rows Hroom); simpl; lia|].
  split; [|split; [|split; reflexivity]].
  - unfold showNoteByID.
    rewrite (shown_query database WHERE_id [id new] (fun r => id r =? id new)
               (rows ++ [new])) by reflexivity.
    rewrite filter_app, filter_id_absent.
    + simpl. rewrite Z.eqb_refl. reflexivity.
    + intros x Hx. specialize (Habove x Hx). lia.
  - unfold showAllNotes.
    rewrite (shown_query database SELECT_ALL [] (fun _ => true)
               (rows ++ [new])) by reflexivity.
    apply filter_all.
Qed.

(** A third note saved beside two others gets id 3 and is found by it. *)
Lemma Save_then_find_witness :
  let rows := [sample 1 5 3 2024 "a"; sample 2 5 4 2024 "b"] in
  let n := {| Time := noon; Text := "c"; Tags := ["x"] |} in
  headroom 1 rows
  /\ shown (showNoteByID 3 "db")
           (world_of (Save n "db" (boot (Some rows) [])))
     = [saved_row rows n].
Proof.
  assert (Hroom : headroom 1 [sample 1 5 3 2024 "a"; sample 2 5 4 2024 "b"]).
  { split; [vm_compute; discriminate|].
    intros r [<-|[<-|[]]]; vm_compute; discriminate. }
  split; [exact Hroom|].
  destruct (Save_then_find {| Time := noon; Text := "c"; Tags := ["x"] |} "db"
              (boot (Some [sample 1 5 3 2024 "a"; sample 2 5 4 2024 "b"]) [])
              [sample 1 5 3 2024 "a"; sample 2 5 4 2024 "b"] eq_refl Hroom)
    as (_ & _ & _ & _ & H & _).
  exact H.
Defined.

(** X7: a note just saved is printed by the year filter for its year, by
    the month filter for its month when the clock still gives its year, and
    by the day filter for its day when the clock still gives its month and
    year; once the clock gives another month, the day filter no longer
    prints it. *)
Theorem saved_note_found_by_date :
  forall (n : note) (database : sqlDB) (w : world) (rows : list row),
    table w = Some rows ->
    let new := saved_row rows n in
    let w1 := world_of (Save n database w) in
    let now1 := clock (os w) (ticks w) in
    let now2 := clock (os w) (S (ticks w)) in
    In new (shown (showNoteByYear (time.Year (Time n)) database) w1)
    /\ (time.Year now1 = time.Year (Time n) ->
        In new (shown (showNoteByMonth (time.Month (Time n)) database) w1))
    /\ (time.Month now1 = time.Month (Time n) ->
        time.Year now2 = time.Year (Time n) ->
        In new (shown (showNoteByDay (time.Day (Time n)) database) w1))
    /\ (time.Month now1 <> time.Month (Time n) ->
        ~ In new (shown (showNoteByDay (time.Day (Time n)) database) w1)).
Proof.
  intros n database w rows Ht new w1 now1 now2.
  assert (Ht1 : table w1 = Some (rows ++ [new]))
    by (unfold w1; rewrite (Save_run n database w rows Ht); reflexivity).
  assert (Hos : os w1 = os w /\ ticks w1 = ticks w)
    by (unfold w1; rewrite (Save_run n database w rows Ht);
        destruct w; split; reflexivity).
  destruct Hos as [Hos Hticks].
  assert (Hin : In new (rows ++ [new]))
    by (apply in_or_app; right; left; reflexivity).
  split; [|split; [|split]].
  - unfold showNoteByYear.
    rewrite (shown_query database WHERE_year [time.Year (Time n)]
               (fun r => year r =? time.Year (Time n)) (rows ++ [new]) w1 Ht1)
      by reflexivity.
    apply filter_In. split; [exact Hin|]. simpl. apply Z.eqb_refl.
  - intros Hy.
    erewrite shown_of_run; cycle 1.
    + apply (showNoteByMonth_run database w1 (rows ++ [new]) _ Ht1).
    + simpl. reflexivity.
    + reflexivity.
    + apply filter_In. split; [exact Hin|]. simpl.
      rewrite Hos, Hticks. fold now1. rewrite Hy, !Z.eqb_refl. reflexivity.
  - intros Hm Hy.
    erewrite shown_of_run; cycle 1.
    + apply (showNoteByDay_run database w1 (rows ++ [new]) _ Ht1).
    + simpl. reflexivity.
    + reflexivity.
    + apply filter_In. split; [exact Hin|]. simpl.
      rewrite Hos, Hticks. fold now1 now2.
      rewrite Hm, Hy, !Z.eqb_refl. reflexivity.
  - intros Hm.
    erewrite shown_of_run; cycle 1.
    + apply (showNoteByDay_run database w1 (rows ++ [new]) _ Ht1).
    + simpl. reflexivity.
    + reflexivity.
    + rewrite filter_In. simpl. rewrite Hos, Hticks. fold now1 now2.
      intros [_ Hk]. apply andb_true_iff in Hk. destruct Hk as [Hk _].
      apply andb_true_iff in Hk. destruct Hk as [_ Hk].
      apply Z.eqb_eq in Hk. congruence.
Qed.

(** A note stamped at noon of 5 March 2024 and looked for the same day. *)
Lemma saved_note_found_by_date_witness :
  let n := {| Time := noon; Text := "c"; Tags := ["x"] |} in
  In (saved_row [] n)
     (shown (showNoteByDay 5 "db") (world_of (Save n "db" (boot (Some []) [])))).
Proof.
  destruct (saved_note_found_by_date
              {| Time := noon; Text := "c"; Tags := ["x"] |} "db"
              (boot (Some []) []) [] eq_refl) as (_ & _ & H & _).
  apply H; reflexivity.
Defined.

Lemma tags_of_Set (v : newVars) (value : string) :
  newTagList v = tagList_Set value -> tags_of v = tagList_Set value.
Proof.
  intros H. unfold tags_of. rewrite H. unfold tagList_Set.
  pose proof (Split_nonempty "," value) as Hne.
  destruct (strings.Split value ","); [contradiction | reflexivity].
Qed.

(** X8: on a database that could be opened and whose ids are all below
    the largest rowid, [new -n <text> -t <tags>] with a text that is not
    empty returns normally, and a [show -all] run afterwards prints the
    rows that were there, in their order, followed by one new row: its id
    is above theirs, its text is the value of [-n], its tags column the
    comma-separated fields of the value of [-t] rendered in brackets, and
    its day, month, year and timestamp those of the clock when the note was
    made. *)
Theorem new_then_show_all :
  forall (prog text value : string) (w : world),
    text <> "" ->
    opened w ->
    headroom 1 (rows_of (table w)) ->
    let r := main [prog; "new"; "-n"; text; "-t"; value] w in
    let now := clock (os w) (ticks w) in
    result_of r = Returned tt
    /\ (forall x, In x (rows_of (table w)) ->
        id x < sqlite.next_rowid (rows_of (table w)) <= MaxRowid)
    /\ shown (main [prog; "show"; "-all"]) (world_of r) =
       rows_of (table w)
       ++ [{| id := sqlite.next_rowid (rows_of (table w));
              day := time.Day now; month := time.Month now;
              year := time.Year now; timestamp := time.Unix now;
              notetext := text;
              tags := tagList_String (strings.Split value ",") |}].
Proof.
  intros prog text value w Hne _ Hroom r now.
  set (p := {| flag.vars := {| newNotePtr := text; newEditorNotePtr := false;
                               newTagList := tagList_Set value |};
               flag.actual := ["n"; "t"]; flag.Args := [] |}).
  assert (Hu : new_usage p = false).
  { unfold new_usage, p. simpl.
    destruct (String.eqb_spec text "") as [E|_]; [contradiction | reflexivity]. }
  assert (Hrun : r = save_note (dbpath_of w) text (tagList_Set value)
                       (with_console
                          (console w
                           ++ [Executed CREATE_TABLE_IF_NOT_EXISTS_notes])
                          (with_table (Some (rows_of (table w))) w))).
  { unfold r.
    rewrite (main_new_parsed prog ["-n"; text; "-t"; value] p w eq_refl).
    rewrite (main_new_resolved _ _ _ _ Hu).
    unfold resolve_text, opens_editor, p. simpl. unfold ret.
    rewrite (tags_of_Set {| newNotePtr := text; newEditorNotePtr := false;
                            newTagList := tagList_Set value |} value eq_refl).
    reflexivity. }
  rewrite Hrun.
  rewrite (save_note_run _ _ _ (rows_of (table w)))
    by (destruct w; reflexivity).
  split; [reflexivity|]. split.
  { intros x Hx. split; [apply next_rowid_above; exact Hx|].
    pose proof (next_rowid_headroom 0 _ Hroom). lia. }
  rewrite show_all_shown. destruct w; reflexivity.
Qed.

(** ["buy milk"] tagged ["home,shop"]. *)
Lemma new_then_show_all_witness :
  "buy milk" <> ""
  /\ opened fresh
  /\ headroom 1 (rows_of (table fresh))
  /\ map (fun r => (notetext r, tags r))
         (shown (main ["notectl"; "show"; "-all"])
                (world_of (main ["notectl"; "new"; "-n"; "buy milk";
                                 "-t"; "home,shop"] fresh)))
     = [("buy milk", "[home shop]")].
Proof.
  assert (Hne : "buy milk" <> "") by discriminate.
  assert (Hroom : headroom 1 (rows_of (table fresh)))
    by (split; [vm_compute; discriminate | intros r []]).
  split; [exact Hne|]. split; [reflexivity|]. split; [exact Hroom|].
  destruct (new_then_show_all "notectl" "buy milk" "home,shop" fresh
              Hne eq_refl Hroom) as (_ & _ & H).
  rewrite H. reflexivity.
Defined.

(** ** The editor and its temporary file *)

Lemma filter_other_twice (filename : string) (l : list (string * string)) :
  filter (fun f => negb (String.eqb (fst f) filename))
         (filter (fun f => negb (String.eqb (fst f) filename)) l)
  = filter (fun f => negb (String.eqb (fst f) filename)) l.
Proof.
  induction l as [|x l IH]; simpl; [reflexivity|].
  destruct (negb (String.eqb (fst x) filename)) eqn:E; simpl;
    [rewrite E, IH; reflexivity | exact IH].
Qed.

Lemma not_in_filtered (filename : string) (l : list (string * string)) :
  ~ In filename
      (map fst (filter (fun f => negb (String.eqb (fst f) filename)) l)).
Proof.
  intros Hin. apply in_map_iff in Hin. destruct Hin as [x [Hx Hin]].
  apply filter_In in Hin. destruct Hin as [_ Hne]. subst filename.
  rewrite String.eqb_refl in Hne. discriminate.
Qed.

(** X9: [captureFromEditor] never panics and never exits: whatever the
    machine does it returns, with bytes or with an error, and empty bytes
    whenever there is an error.  When the temporary file could be created it
    is gone on return on every path (close failure, editor not found, editor
    failure, success), every other temporary file is still there, and the
    database is not touched; when it could not be created the call fails
    without running the editor. *)
Theorem captureFromEditor_cleans_up :
  forall (w : world),
  exists (bytes : string) (err : error) (w' : world),
    captureFromEditor w = (Returned (bytes, err), w')
    /\ (err <> None -> bytes = "")
    /\ table w' = table w
    /\ (forall filename,
          TempFile (os w) = Some filename ->
          ~ In filename (map fst (tmpfiles w'))
          /\ filter (fun f => negb (String.eqb (fst f) filename)) (tmpfiles w')
             = filter (fun f => negb (String.eqb (fst f) filename))
                      (tmpfiles w))
    /\ (TempFile (os w) = None ->
        err <> None /\ tmpfiles w' = tmpfiles w /\ console w' = console w).
Proof.
  intros [o t i k f c]. unfold captureFromEditor, bind at 1, ioutil_TempFile.
  simpl. destruct (TempFile o) as [filename|] eqn:Htmp.
  2:{ eexists _, _, _. split; [reflexivity|]. simpl.
      repeat split; try discriminate. }
  unfold defer, bind at 1, file_Close. simpl.
  destruct (CloseOk o).
  2:{ eexists _, _, _. split; [reflexivity|]. simpl. rewrite String.eqb_refl.
      simpl. repeat split; try discriminate.
      - injection H as <-. apply not_in_filtered.
      - injection H as <-. apply filter_other_twice. }
  unfold bind at 1, openFileInEditor, bind at 1, Getenv. simpl.
  unfold bind at 1, exec_LookPath. simpl.
  destruct (LookPath o _) as [executable|].
  2:{ eexists _, _, _. split; [reflexivity|]. simpl. rewrite String.eqb_refl.
      simpl. repeat split; try discriminate.
      - injection H as <-. apply not_in_filtered.
      - injection H as <-. apply filter_other_twice. }
  unfold cmd_Run. simpl. rewrite String.eqb_refl. simpl.
  destruct (Run o executable filename) as [[|] [contents|]]; simpl;
    unfold bind, ioutil_ReadFile, ret; simpl;
    rewrite ?String.eqb_refl, ?find_filtered_out; simpl;
    rewrite ?String.eqb_refl; simpl;
    (eexists _, _, _; split; [reflexivity|]; simpl;
     repeat split; try discriminate; try congruence;
     try (injection H as <-; apply not_in_filtered);
     try (injection H as <-; rewrite ?filter_other_twice; reflexivity)).
Qed.

Lemma captureFromEditor_not_found (w : world) (filename : string) :
  TempFile (os w) = Some filename ->
  CloseOk (os w) = true ->
  LookPath (os w) (editor_name (os w)) = None ->
  captureFromEditor w =
  (Returned ("", Some "executable file not found in $PATH"),
   with_tmpfiles
     (filter (fun f => negb (String.eqb (fst f) filename)) (tmpfiles w)) w).
Proof.
  intros Htmp Hclose Hlook. destruct w as [o t i k f c]. simpl in *.
  unfold captureFromEditor, bind at 1, ioutil_TempFile. simpl. rewrite Htmp.
  unfold defer, bind at 1, file_Close. simpl. rewrite Hclose.
  unfold bind at 1, openFileInEditor, bind at 1, Getenv. simpl.
  fold (editor_name o). unfold bind at 1, exec_LookPath. simpl. rewrite Hlook.
  unfold ret, os_Remove, with_tmpfiles. simpl. rewrite String.eqb_refl.
  reflexivity.
Qed.

(** X10: when [new] is to open the editor and no editor is found on the
    search path, the process panics: the editor is never run, no note is
    echoed or inserted, the rows are as they were (the table has been
    created if it was absent) and the temporary file has been removed. *)
Theorem new_without_editor_panics :
  forall (prog : string) (arguments : list string)
         (p : flag.Parsed newVars) (w : world) (filename : string),
    flag.parse newCommand arguments newDefaults [] = flag.ParseOk p ->
    new_usage p = false ->
    opens_editor arguments p = true ->
    TempFile (os w) = Some filename ->
    CloseOk (os w) = true ->
    LookPath (os w) (editor_name (os w)) = None ->
    let r := main (prog :: "new" :: arguments) w in
    (exists msg, result_of r = Panicked msg)
    /\ added w (world_of r) = [Executed CREATE_TABLE_IF_NOT_EXISTS_notes]
    /\ table (world_of r) = Some (rows_of (table w))
    /\ ~ In filename (map fst (tmpfiles (world_of r))).
Proof.
  intros prog arguments p w filename Hp Hu He Htmp Hclose Hlook r.
  unfold r. rewrite (main_new_parsed prog arguments p w Hp).
  rewrite (main_new_resolved _ _ _ _ Hu). unfold resolve_text. rewrite He.
  rewrite bind_run.
  rewrite (captureFromEditor_not_found _ filename)
    by (destruct w; assumption).
  simpl. split; [eexists; reflexivity|].
  split; [apply added_app; reflexivity|]. split; [reflexivity|].
  apply not_in_filtered.
Qed.

(** [new] alone on a machine without any editor. *)
Lemma new_without_editor_panics_witness :
  let bare :=
    {| os := {| HOME := "/home/u"; EDITOR := "emacs";
                LookPath := fun _ => None; TempFile := Some "/tmp/9";
                CloseOk := true; Run := fun _ _ => (true, None);
                clock := fun _ => noon |};
       table := Some [sample 1 5 3 2024 "a"]; stdin := []; ticks := 0;
       tmpfiles := []; console := [] |} in
  table (world_of (main ["notectl"; "new"] bare))
  = Some [sample 1 5 3 2024 "a"].
Proof.
  apply (new_without_editor_panics "notectl" []
           {| flag.vars := newDefaults; flag.actual := []; flag.Args := [] |}
           {| os := {| HOME := "/home/u"; EDITOR := "emacs";
                       LookPath := fun _ => None; TempFile := Some "/tmp/9";
                       CloseOk := true; Run := fun _ _ => (true, None);
                       clock := fun _ => noon |};
              table := Some [sample 1 5 3 2024 "a"]; stdin := []; ticks := 0;
              tmpfiles := []; console := [] |}
           "/tmp/9" eq_refl eq_refl eq_refl eq_refl eq_refl eq_refl).
Defined.

(** ** Deleting without an answer *)

(** X11: on a database that could be opened, [delete -all] run with
    nothing on standard input panics right after asking its question:
    nothing is dropped, every row is kept, and nothing is printed after the
    question. *)
Theorem delete_all_without_answer :
  forall (prog : string) (w : world),
    stdin w = [] ->
    opened w ->
    let r := main [prog; "delete"; "-all"] w in
    (exists msg, result_of r = Panicked msg)
    /\ added w (world_of r) =
       [Executed CREATE_TABLE_IF_NOT_EXISTS_notes; Line ask]
    /\ existsb changes_rows (added w (world_of r)) = false
    /\ table (world_of r) = Some (rows_of (table w)).
Proof.
  intros prog w Hs _ r.
  assert (H : r = (Panicked "EOF",
                   with_console
                     (console w ++ [Executed CREATE_TABLE_IF_NOT_EXISTS_notes;
                                    Line ask])
                     (with_table (Some (rows_of (table w))) w))).
  { unfold r.
    rewrite (main_delete_parsed prog ["-all"]
               {| flag.vars := {| deleteAllPtr := true |};
                  flag.actual := ["all"]; flag.Args := [] |} w eq_refl).
    unfold main_delete, connectToDatabase. rewrite bind_run. unfold ret at 1.
    rewrite bind_run, createTableIfNotExist_run. cbn [flag.vars deleteAllPtr].
    rewrite bind_run.
    rewrite deleteAll_EOF by (destruct w; exact Hs).
    destruct w. unfold with_console, with_table. simpl.
    rewrite <- app_assoc. reflexivity. }
  rewrite H. simpl. split; [eexists; reflexivity|].
  rewrite (added_app w _ [Executed CREATE_TABLE_IF_NOT_EXISTS_notes; Line ask])
    by reflexivity.
  repeat split.
Qed.

(** Two notes and a closed standard input. *)
Lemma delete_all_without_answer_witness :
  let rows := [sample 1 5 3 2024 "a"; sample 2 5 4 2024 "b"] in
  opened (boot (Some rows) [])
  /\ table (world_of (main ["notectl"; "delete"; "-all"]
                          (boot (Some rows) [])))
     = Some rows.
Proof.
  split; [reflexivity|].
  apply (delete_all_without_answer "notectl"
           (boot (Some [sample 1 5 3 2024 "a"; sample 2 5 4 2024 "b"]) [])
           eq_refl eq_refl).
Defined.

(** ** Text given without options *)

Lemma classify_plain (a : string) :
  (forall s, a <> String "-" s) -> flag.classify a = flag.NonFlag.
Proof.
  intros H. destruct a as [|c0 [|c1 rest]]; try reflexivity.
  unfold flag.classify. destruct (Ascii.eqb_spec c0 "-") as [->|_];
    [|reflexivity].
  exfalso. apply (H (String c1 rest)). reflexivity.
Qed.

(** X12: on a database that could be opened and whose ids are all below
    the largest rowid, when the first argument after [new] does not begin
    with a minus sign, no argument is read as an option, even one that
    looks like one: the note text is all the arguments joined by single
    spaces, the tags are the default, and the editor is not run. *)
Theorem new_plain_text :
  forall (prog first : string) (others : list string) (w : world),
    (forall s, first <> String "-" s) ->
    opened w ->
    headroom 1 (rows_of (table w)) ->
    let r := main (prog :: "new" :: first :: others) w in
    let now := clock (os w) (ticks w) in
    result_of r = Returned tt
    /\ table (world_of r) =
       Some (rows_of (table w)
             ++ [{| id := sqlite.next_rowid (rows_of (table w));
                    day := time.Day now; month := time.Month now;
                    year := time.Year now; timestamp := time.Unix now;
                    notetext := strings.Join (first :: others) " ";
                    tags := "[generic]" |}])
    /\ existsb is_editor_run (added w (world_of r)) = false.
Proof.
  intros prog first others w Hplain _ _ r now.
  set (p := {| flag.vars := newDefaults; flag.actual := [];
               flag.Args := first :: others |}).
  assert (Hp : flag.parse newCommand (first :: others) newDefaults []
               = flag.ParseOk p).
  { simpl. rewrite (classify_plain first Hplain). reflexivity. }
  assert (Hu : new_usage p = false) by reflexivity.
  assert (Hrun : r = save_note (dbpath_of w)
                       (strings.Join (first :: others) " ") ["generic"]
                       (with_console
                          (console w
                           ++ [Executed CREATE_TABLE_IF_NOT_EXISTS_notes])
                          (with_table (Some (rows_of (table w))) w))).
  { unfold r. rewrite (main_new_parsed prog (first :: others) p w Hp).
    rewrite (main_new_resolved (dbpath_of w) (first :: others) p w Hu).
    reflexivity. }
  rewrite Hrun.
  rewrite (save_note_run _ _ _ (rows_of (table w)))
    by (destruct w; reflexivity).
  split; [reflexivity|]. split; [destruct w; reflexivity|].
  erewrite added_app; cycle 1;
    [simpl; rewrite <- !app_assoc; reflexivity | reflexivity].
Qed.

(** [new call -t bob]: the text is ["call -t bob"]. *)
Lemma new_plain_text_witness :
  (forall s, "call" <> String "-" s)
  /\ opened fresh
  /\ headroom 1 (rows_of (table fresh))
  /\ map notetext
         (rows_of (table (world_of (main ["notectl"; "new"; "call"; "-t"; "bob"]
                                         fresh))))
     = ["call -t bob"].
Proof.
  assert (Hplain : forall s, "call" <> String "-" s) by discriminate.
  assert (Hroom : headroom 1 (rows_of (table fresh)))
    by (split; [vm_compute; discriminate | intros r []]).
  split; [exact Hplain|]. split; [reflexivity|]. split; [exact Hroom|].
  destruct (new_plain_text "notectl" "call" ["-t"; "bob"] fresh Hplain
              eq_refl Hroom) as (_ & H & _).
  rewrite H. reflexivity.
Defined.

(** ** Tag lists *)

Lemma Join_cons_char (c : ascii) (h : string) (t : list string) (sep : string) :
  strings.Join (String c h :: t) sep = String c (strings.Join (h :: t) sep).
Proof. destruct t; reflexivity. Qed.

Lemma Join_Split (s : string) (sep : ascii) :
  strings.Join (strings.Split s sep) (String sep "") = s.
Proof.
  induction s as [|c s IH]; simpl; [reflexivity|].
  destruct (Ascii.eqb_spec c sep) as [->|Hne].
  - pose proof (Split_nonempty sep s) as Hn.
    destruct (strings.Split s sep) as [|h t]; [contradiction|].
    change (strings.Join ("" :: h :: t) (String sep ""))
      with ("" ++ String sep "" ++ strings.Join (h :: t) (String sep ""))%string.
    rewrite IH. reflexivity.
  - pose proof (Split_nonempty sep s) as Hn.
    destruct (strings.Split s sep) as [|h t]; [contradiction|].
    rewrite Join_cons_char, IH. reflexivity.
Qed.

Lemma Split_fields_clean (s : string) (sep : ascii) (field : string) :
  In field (strings.Split s sep) -> strings.ContainsByte field sep = false.
Proof.
  revert field. induction s as [|c s IH]; simpl; intros field Hin.
  - destruct Hin as [<-|[]]. reflexivity.
  - destruct (Ascii.eqb c sep) eqn:E.
    + destruct Hin as [<-|Hin]; [reflexivity | apply IH; exact Hin].
    + pose proof (Split_nonempty sep s) as Hn.
      destruct (strings.Split s sep) as [|h t]; [contradiction|].
      destruct Hin as [<-|Hin].
      * simpl. rewrite E. apply IH. left. reflexivity.
      * apply IH. right. exact Hin.
Qed.

(** X13: [tagList.Set] cuts its value at every comma: the list it stores
    is never empty (the empty value gives one empty tag), no tag in it
    contains a comma, a value without a comma is one tag, and joining the
    tags with commas gives the value back. *)
Theorem tagList_Set_splits_at_commas :
  forall (value : string),
    tagList_Set value <> []
    /\ (forall tag, In tag (tagList_Set value) ->
                    strings.ContainsByte tag "," = false)
    /\ strings.Join (tagList_Set value) "," = value
    /\ (strings.ContainsByte value "," = false -> tagList_Set value = [value])
    /\ tagList_Set "" = [""].
Proof.
  intros value. unfold tagList_Set. split; [apply Split_nonempty|].
  split; [intros tag; apply Split_fields_clean|].
  split; [apply (Join_Split value ",")|].
  split; [apply Split_one_field | reflexivity].
Qed.

Lemma string_append_assoc (a b c : string) :
  ((a ++ b) ++ c = a ++ (b ++ c))%string.
Proof. induction a as [|x a IH]; simpl; congruence. Qed.

Lemma Join_app_space (l1 l2 : list string) :
  l1 <> [] -> l2 <> [] ->
  strings.Join (l1 ++ l2) " "
  = (strings.Join l1 " " ++ " " ++ strings.Join l2 " ")%string.
Proof.
  intros H1 H2. induction l1 as [|a l1 IH]; [contradiction|].
  destruct l1 as [|b l1].
  - simpl. destruct l2; [contradiction | reflexivity].
  - change (strings.Join ((a :: b :: l1) ++ l2) " ")
      with (a ++ " " ++ strings.Join ((b :: l1) ++ l2) " ")%string.
    rewrite IH by discriminate.
    change (strings.Join (a :: b :: l1) " ")
      with (a ++ " " ++ strings.Join (b :: l1) " ")%string.
    rewrite !string_append_assoc. reflexivity.
Qed.

(** X14: the tags column does not determine the tags.  A tag that holds a
    space is rendered like two tags: for all tags [a] and [b] the lists
    [[a b]] (one tag) and [[a; b]] give the same column, also in the
    middle of a longer list, so [-t "a b"] and [-t a,b] store the same
    thing. *)
Theorem tags_column_is_ambiguous :
  forall (before after : tagList) (a b : string),
    tagList_String (before ++ [(a ++ " " ++ b)%string] ++ after)
    = tagList_String (before ++ [a; b] ++ after)
    /\ (strings.ContainsByte a "," = false ->
        strings.ContainsByte b "," = false ->
        tagList_String (tagList_Set (a ++ " " ++ b))
        = tagList_String (tagList_Set (a ++ "," ++ b))
        /\ tagList_Set (a ++ " " ++ b) <> tagList_Set (a ++ "," ++ b)).
Proof.
  intros before after a b. split.
  - unfold tagList_String. f_equal. f_equal.
    assert (Hmid : forall l,
               strings.Join ([(a ++ " " ++ b)%string] ++ l) " "
               = strings.Join ([a; b] ++ l) " ").
    { intros [|x l]; simpl; [reflexivity|].
      rewrite !string_append_assoc. reflexivity. }
    destruct before as [|x before]; [apply Hmid|].
    rewrite !(Join_app_space (x :: before)) by discriminate.
    rewrite Hmid. reflexivity.
  - intros Ha Hb.
    assert (Hsp : strings.ContainsByte (a ++ " " ++ b) "," = false).
    { clear - Ha Hb. induction a as [|c a IH]; simpl in *.
      - exact Hb.
      - apply orb_false_iff in Ha. destruct Ha as [Hc Ha].
        rewrite Hc. apply IH. exact Ha. }
    unfold tagList_Set.
    rewrite (Split_one_field "," _ Hsp).
    change (a ++ "," ++ b)%string with (a ++ String "," b)%string.
    rewrite (Split_field_then "," a b Ha), (Split_one_field "," b Hb).
    split; [reflexivity | discriminate].
Qed.

(** [-t "to do"] and [-t to,do]. *)
Lemma tags_column_is_ambiguous_witness :
  tagList_String (tagList_Set "to do") = tagList_String (tagList_Set "to,do")
  /\ tagList_Set "to do" <> tagList_Set "to,do".
Proof.
  apply (proj2 (tags_column_is_ambiguous [] [] "to" "do")); reflexivity.
Defined.

(** The tag list after parsing is nil or what [Set] made of some value. *)
Lemma parsed_tags (arguments : list string) (p : flag.Parsed newVars) :
  flag.parse newCommand arguments newDefaults [] = flag.ParseOk p ->
  newTagList (flag.vars p) = []
  \/ exists value, newTagList (flag.vars p) = tagList_Set value.
Proof.
  intros Hp.
  apply (parse_invariant newVars newCommand
           (fun v _ => newTagList v = []
                       \/ exists value, newTagList v = tagList_Set value))
    with (args := arguments) (v := newDefaults) (act := []);
    [| left; reflexivity | exact Hp].
  intros f n x v v' act Hf Hs Hinv.
  cbn [flag.lookup flag.formal newCommand flag.Name flag.String flag.Bool]
    in Hf.
  destruct (String.eqb_spec "n" n) as [<-|_].
  { injection Hf as Hf. subst f. unfold flag.String in Hs. simpl in Hs.
    injection Hs as <-. exact Hinv. }
  destruct (String.eqb_spec "e" n) as [<-|_].
  { injection Hf as Hf. subst f. unfold flag.Bool in Hs. simpl in Hs.
    destruct (strconv.ParseBool x); [|discriminate].
    injection Hs as <-. exact Hinv. }
  destruct (String.eqb_spec "t" n) as [<-|_]; [|discriminate].
  injection Hf as Hf. subst f. simpl in Hs. injection Hs as <-.
  right. exists x. reflexivity.
Qed.

Lemma notes_echoed_app (l1 l2 : list event) :
  notes_echoed (l1 ++ l2) = notes_echoed l1 ++ notes_echoed l2.
Proof.
  induction l1 as [|e l1 IH]; simpl; [reflexivity|].
  destruct e; simpl; rewrite IH; reflexivity.
Qed.

(** However it ends, [captureFromEditor] prints nothing but the run of the
    editor, if it gets that far. *)
Lemma captureFromEditor_console (w : world) :
  exists l, console (snd (captureFromEditor w)) = console w ++ l
            /\ notes_echoed l = [].
Proof.
  destruct w as [o t i k f c].
  unfold captureFromEditor, bind at 1, ioutil_TempFile. simpl.
  destruct (TempFile o) as [filename|];
    [|exists []; simpl; rewrite app_nil_r; auto].
  unfold defer, bind at 1, file_Close. simpl.
  destruct (CloseOk o);
    [|exists []; simpl; rewrite app_nil_r; auto].
  unfold bind at 1, openFileInEditor, bind at 1, Getenv. simpl.
  unfold bind at 1, exec_LookPath. simpl.
  destruct (LookPath o _) as [executable|];
    [|exists []; simpl; rewrite app_nil_r; auto].
  unfold cmd_Run. simpl.
  destruct (Run o executable filename) as [ok after].
  exists [EditorRun executable filename]. split; [|reflexivity].
  destruct ok; simpl; [|reflexivity].
  unfold bind, ioutil_ReadFile, ret. simpl.
  destruct (find _ _); reflexivity.
Qed.

Lemma resolve_text_console (arguments : list string)
      (p : flag.Parsed newVars) (w : world) :
  exists l, console (snd (resolve_text arguments p w)) = console w ++ l
            /\ notes_echoed l = [].
Proof.
  unfold resolve_text. destruct (opens_editor arguments p).
  - rewrite bind_run.
    destruct (captureFromEditor_console w) as [l [Hc Hl]].
    exists l. split; [|exact Hl].
    destruct (captureFromEditor w) as [[[text [err|]]|c|msg] w2];
      exact Hc.
  - exists []. rewrite app_nil_r.
    destruct (flag.NFlag p =? 0); auto.
Qed.

(** X15: every note that [new] builds, echoes and saves, whatever the
    options, has at least one tag, and none of its tags contains a comma;
    a run of [new] that returns has echoed exactly one note, the one whose
    row it has appended. *)
Theorem saved_note_has_tags :
  forall (prog : string) (arguments : list string)
         (p : flag.Parsed newVars) (w : world),
    flag.parse newCommand arguments newDefaults [] = flag.ParseOk p ->
    let r := main (prog :: "new" :: arguments) w in
    result_of r = Returned tt ->
    exists n,
      notes_echoed (added w (world_of r)) = [n]
      /\ table (world_of r) =
         Some (rows_of (table w) ++ [saved_row (rows_of (table w)) n])
      /\ Tags n <> []
      /\ (forall tag, In tag (Tags n) -> strings.ContainsByte tag "," = false).
Proof.
  intros prog arguments p w Hp r. unfold r.
  rewrite (main_new_parsed prog arguments p w Hp).
  destruct (new_usage p) eqn:Hu.
  { rewrite (main_new_usage_run _ _ _ _ Hu). discriminate. }
  rewrite (main_new_resolved _ _ _ _ Hu).
  set (w1 := with_console _ _).
  pose proof (keeps_resolve_text arguments p w1) as Hkeep.
  destruct (resolve_text_console arguments p w1) as [l [Hc Hl]].
  destruct (resolve_text arguments p w1) as [[text|c|msg] w2];
    try discriminate.
  simpl in Hkeep, Hc.
  rewrite (save_note_run _ text _ (rows_of (table w)) w2) by exact Hkeep.
  intros _.
  exists {| Time := clock (os w2) (ticks w2); Text := text;
            Tags := tags_of (flag.vars p) |}.
  split; [|split; [reflexivity|]].
  - rewrite (added_app w _
               ([Executed CREATE_TABLE_IF_NOT_EXISTS_notes] ++ l
                ++ [NoteLine {| Time := clock (os w2) (ticks w2);
                                Text := text;
                                Tags := tags_of (flag.vars p) |};
                    Executed INSERT_INTO_notes; Closed])).
    + rewrite !notes_echoed_app, Hl. reflexivity.
    + unfold world_of, with_console. cbn [snd console]. rewrite Hc.
      unfold w1, with_console. cbn [console].
      rewrite <- !app_assoc. reflexivity.
  - cbn [Tags].
    destruct (parsed_tags arguments p Hp) as [Hnil|[value Hv]].
    + unfold tags_of. rewrite Hnil. simpl. split; [discriminate|].
      intros tag [<-|[]]. reflexivity.
    + rewrite (tags_of_Set _ value Hv). unfold tagList_Set.
      split; [apply Split_nonempty | intros tag; apply Split_fields_clean].
Qed.

(** [new -t "" -n x]: one tag, the empty one. *)
Lemma saved_note_has_tags_witness :
  exists n,
    notes_echoed
      (added fresh
         (world_of (main ["notectl"; "new"; "-t"; ""; "-n"; "x"] fresh)))
    = [n]
    /\ Tags n <> [].
Proof.
  destruct (saved_note_has_tags "notectl" ["-t"; ""; "-n"; "x"]
              {| flag.vars := {| newNotePtr := "x"; newEditorNotePtr := false;
                                 newTagList := [""] |};
                 flag.actual := ["t"; "n"]; flag.Args := [] |}
              fresh eq_refl eq_refl) as [n (H1 & _ & H2 & _)].
  exists n. split; [exact H1 | exact H2].
Defined.

(** ** What each subcommand can do to the rows *)

Lemma main_show_rows (dbpath : string) (p : flag.Parsed showVars) (w : world) :
  table (snd (main_show dbpath p w)) = Some (rows_of (table w)).
Proof.
  rewrite main_show_first_set.
  destruct (first_set (filters_in_order (flag.vars p))) as [f|].
  - rewrite bind_run, createTableIfNotExist_run.
    set (w1 := with_console _ _).
    assert (Hk : keeps_table (apply_filter f dbpath;; Close dbpath))
      by keeps.
    rewrite (Hk w1). reflexivity.
  - rewrite bind_run, createTableIfNotExist_run.
    set (w1 := with_console _ _).
    assert (Hk : keeps_table (PrintDefaults "show";; @Exit unit 1)) by keeps.
    rewrite (Hk w1). reflexivity.
Qed.

Lemma main_delete_rows (dbpath : string) (p : flag.Parsed deleteVars)
      (w : world) :
  table (snd (main_delete dbpath p w)) = Some (rows_of (table w))
  \/ table (snd (main_delete dbpath p w)) = Some []
     /\ deleteAllPtr (flag.vars p) = true
     /\ exists char rest, stdin w = char :: rest /\ confirms char = true.
Proof.
  destruct (delete_usage p) eqn:Hu.
  { rewrite (main_delete_usage_run _ _ _ Hu). left. reflexivity. }
  unfold delete_usage in Hu. apply negb_false_iff in Hu.
  remember (main_delete dbpath p w) as r eqn:Hr.
  unfold main_delete, connectToDatabase in Hr. rewrite bind_run in Hr.
  unfold ret at 1 in Hr.
  rewrite bind_run, createTableIfNotExist_run, Hu in Hr.
  set (w1 := with_console _ _) in Hr. rewrite bind_run in Hr.
  destruct (stdin w) as [|char rest] eqn:Hs.
  - rewrite (deleteAll_EOF dbpath w1) in Hr by (destruct w; exact Hs).
    subst r. left. reflexivity.
  - rewrite (deleteAll_run dbpath w1 (rows_of (table w)) char rest) in Hr
      by (destruct w; simpl; auto).
    destruct (confirms char) eqn:Hc; subst r; simpl.
    + right. split; [reflexivity|]. split; [exact Hu|].
      exists char, rest. auto.
    + left. reflexivity.
Qed.

(** X16: whatever its arguments and however it ends, [show] leaves every
    row as it is; [new], on a table whose ids are all below the largest
    rowid, leaves the rows as they are or appends exactly one row after
    them, under an id above theirs; [delete] leaves the rows as they are or
    removes them all, and it removes them only when standard input begins
    with [y] or [Y].  No invocation changes or reorders an existing row. *)
Theorem subcommand_effects_on_rows :
  forall (prog : string) (arguments : list string) (w : world),
    let rows := rows_of (table w) in
    let after sub :=
      rows_of (table (world_of (main (prog :: sub :: arguments) w))) in
    after "show" = rows
    /\ (headroom 1 rows ->
        after "new" = rows
        \/ exists n, after "new" = rows ++ [saved_row rows n]
                     /\ forall x, In x rows ->
                                  id x < id (saved_row rows n) <= MaxRowid)
    /\ (after "delete" = rows
        \/ after "delete" = []
           /\ exists char rest, stdin w = char :: rest /\ confirms char = true).
Proof.
  intros prog arguments w rows after. unfold after, world_of.
  split; [|split].
  - rewrite main_show_cases.
    destruct (flag.parse showCommand arguments showDefaults []) as [p| |];
      [rewrite main_show_rows | destruct w | destruct w]; reflexivity.
  - intros Hroom. rewrite main_new_cases.
    destruct (flag.parse newCommand arguments newDefaults []) as [p| |];
      [| left; destruct w; reflexivity | left; destruct w; reflexivity].
    destruct (new_usage p) eqn:Hu.
    + rewrite (main_new_usage_run _ _ _ _ Hu). left. reflexivity.
    + rewrite (main_new_resolved _ _ _ _ Hu).
      set (w1 := with_console _ _).
      pose proof (keeps_resolve_text arguments p w1) as Hkeep.
      destruct (resolve_text arguments p w1) as [[text|c|msg] w2];
        simpl in Hkeep.
      * rewrite (save_note_run _ text _ (rows_of (table w)) w2)
          by exact Hkeep.
        simpl. right. eexists. split; [reflexivity|].
        intros x Hx. simpl. split; [apply next_rowid_above; exact Hx|].
        pose proof (next_rowid_headroom 0 _ Hroom). lia.
      * simpl. rewrite Hkeep. left. reflexivity.
      * simpl. rewrite Hkeep. left. reflexivity.
  - rewrite main_delete_cases.
    destruct (flag.parse deleteCommand arguments deleteDefaults []) as [p| |];
      [| left; destruct w; reflexivity | left; destruct w; reflexivity].
    destruct (main_delete_rows (dbpath_of w) p w) as [H|[H [_ Hc]]];
      rewrite H; [left | right; split; [|exact Hc]]; reflexivity.
Qed.

(** [new hello] on a database without notes: one row, with id 1. *)
Lemma subcommand_effects_on_rows_witness :
  headroom 1 (rows_of (table fresh))
  /\ map id (rows_of (table (world_of (main ["notectl"; "new"; "hello"]
                                           fresh)))) = [1].
Proof.
  assert (Hroom : headroom 1 (rows_of (table fresh)))
    by (split; [vm_compute; discriminate | intros r []]).
  split; [exact Hroom|].
  destruct (subcommand_effects_on_rows "notectl" ["hello"] fresh)
    as (_ & H & _).
  destruct (H Hroom) as [H1|[n [H1 _]]]; rewrite H1; [discriminate H1|].
  reflexivity.
Defined.

(** ** What the date filter looks at *)

(** X17: the date filter looks only at the integers [Atoi] reads from the
    first three slash-separated fields: two date strings whose first three
    fields read as the same integers run the same query and print the same
    rows, so further fields are ignored and ["1/2/2023"], ["01/02/2023"]
    and ["+1/2/2023/x"] are the same date. *)
Theorem date_filter_reads_three_integers :
  forall (date date' : string) (usa : bool) (database : sqlDB) (w : world)
         (a b c a' b' c' : string) (rest rest' : list string),
    strings.Split date "/" = a :: b :: c :: rest ->
    strings.Split date' "/" = a' :: b' :: c' :: rest' ->
    fst (strconv.Atoi a) = fst (strconv.Atoi a') ->
    fst (strconv.Atoi b) = fst (strconv.Atoi b') ->
    fst (strconv.Atoi c) = fst (strconv.Atoi c') ->
    showNoteByDate date usa database w = showNoteByDate date' usa database w.
Proof.
  intros date date' usa database w a b c a' b' c' rest rest' Hd Hd' Ha Hb Hc.
  rewrite (showNoteByDate_fields date usa database a b c rest w Hd),
    (showNoteByDate_fields date' usa database a' b' c' rest' w Hd').
  unfold date_fields. rewrite Ha, Hb, Hc. reflexivity.
Qed.

(** ["01/02/2023"] and ["+1/2/2023/x"]. *)
Lemma date_filter_reads_three_integers_witness :
  showNoteByDate "01/02/2023" false "db" fresh
  = showNoteByDate "+1/2/2023/x" false "db" fresh.
Proof.
  exact (date_filter_reads_three_integers "01/02/2023" "+1/2/2023/x" false
           "db" fresh "01" "02" "2023" "+1" "2" "2023" [] ["x"]
           eq_refl eq_refl eq_refl eq_refl eq_refl).
Defined.

(** ** Ids count from one *)

Lemma numbered_next_rowid (rows : list row) :
  numbered rows ->
  sqlite.next_rowid rows = Z.of_nat (S (List.length rows)).
Proof.
  unfold numbered, sqlite.next_rowid, sqlite.max_rowid. intros Hn.
  destruct rows as [|r rest]; [reflexivity|].
  set (m := fold_left Z.max (map id rest) (id r)).
  assert (Hin : In m (map id (r :: rest))) by apply fold_max_member.
  assert (Hub : forall x, In x (map id (r :: rest)) -> x <= m).
  { destruct (fold_max_bounds (map id rest) (id r)) as [H1 H2].
    intros x [<-|Hx]; [exact H1 | apply H2; exact Hx]. }
  rewrite Hn in Hin, Hub.
  assert (Hm : m <= Z.of_nat (List.length (r :: rest))).
  { apply in_map_iff in Hin. destruct Hin as [k [<- Hk]].
    apply in_seq in Hk. lia. }
  assert (Hlast : Z.of_nat (List.length (r :: rest)) <= m).
  { apply Hub. apply in_map. apply in_seq. simpl. lia. }
  simpl List.length in *. lia.
Qed.

Lemma numbered_snoc (rows : list row) (n : note) :
  numbered rows -> numbered (rows ++ [saved_row rows n]).
Proof.
  intros Hn. unfold numbered. rewrite map_app, length_app. simpl.
  rewrite (numbered_next_rowid rows Hn).
  replace (List.length rows + 1)%nat with (S (List.length rows)) by lia.
  rewrite seq_S, map_app. simpl. rewrite <- Hn. reflexivity.
Qed.

Lemma table_step_numbered (t t' : option (list row)) :
  table_step t t' -> numbered (rows_of t) -> numbered (rows_of t').
Proof.
  intros Hstep Hn. destruct Hstep; simpl; try assumption.
  - apply numbered_snoc. exact Hn.
  - reflexivity.
Qed.

(** X18: on a database whose ids are 1, 2, 3, ... in table order (an
    empty or absent table, for one), they are so again after every session
    of invocations, whatever the arguments and answers: ids have no gaps,
    the row count is the largest id, and the next note saved gets the row
    count plus one. *)
Theorem ids_count_from_one :
  forall (session : list invocation) (w : world),
    numbered (rows_of (table w)) ->
    let rows := rows_of (table (play session w)) in
    numbered rows
    /\ (forall n, id (saved_row rows n) = Z.of_nat (List.length rows) + 1)
    /\ (forall r, In r rows -> 1 <= id r <= Z.of_nat (List.length rows)).
Proof.
  intros session w Hn rows.
  assert (Hplay : numbered rows).
  { unfold rows. clear rows. revert w Hn.
    induction session as [|i rest IH]; intros w Hn; simpl.
    - exact Hn.
    - apply IH. apply (table_step_numbered (table w));
        [apply invoke_table_step | exact Hn]. }
  split; [exact Hplay|]. split.
  - intros n. simpl. rewrite (numbered_next_rowid rows Hplay). lia.
  - intros r Hr. apply (in_map id) in Hr. rewrite Hplay in Hr.
    apply in_map_iff in Hr. destruct Hr as [k [<- Hk]].
    apply in_seq in Hk. lia.
Qed.

(** Two notes, a confirmed delete-all, three more notes: ids 1, 2, 3. *)
Lemma ids_count_from_one_witness :
  let session :=
    [(["notectl"; "new"; "a"], []); (["notectl"; "new"; "b"], []);
     (["notectl"; "delete"; "-all"], input "y");
     (["notectl"; "new"; "c"], []); (["notectl"; "new"; "d"], []);
     (["notectl"; "show"; "-all"], []); (["notectl"; "new"; "e"], [])] in
  numbered (rows_of (table (play session fresh)))
  /\ map id (rows_of (table (play session fresh))) = [1; 2; 3].
Proof.
  split.
  - apply (ids_count_from_one
             [(["notectl"; "new"; "a"], []); (["notectl"; "new"; "b"], []);
              (["notectl"; "delete"; "-all"], input "y");
              (["notectl"; "new"; "c"], []); (["notectl"; "new"; "d"], []);
              (["notectl"; "show"; "-all"], []); (["notectl"; "new"; "e"], [])]
             fresh).
    reflexivity.
  - vm_compute. reflexivity.
Defined.

(** ** Which editor is run *)

Lemma openFileInEditor_run (filename : string) (w : world) :
  openFileInEditor filename w =
  match LookPath (os w) (editor_name (os w)) with
  | Some executable => cmd_Run executable filename w
  | None => (Returned (Some "executable file not found in $PATH"), w)
  end.
Proof.
  unfold openFileInEditor, editor_name, bind, Getenv, exec_LookPath. simpl.
  destruct (LookPath (os w) _); reflexivity.
Qed.

(** X19: [openFileInEditor] looks up the editor named by [EDITOR], or [vi]
    when [EDITOR] is empty.  When the search path has none it returns an
    error without running anything; otherwise it runs the executable found,
    once, on the file it was given, and returns an error exactly when that
    run fails.  It never panics and never touches the database. *)
Theorem openFileInEditor_editor_choice :
  forall (filename : string) (w : world),
    let r := openFileInEditor filename w in
    let wanted := if String.eqb (EDITOR (os w)) "" then "vi"
                  else EDITOR (os w) in
    table (world_of r) = table w
    /\ match LookPath (os w) wanted with
       | None =>
           (exists e, result_of r = Returned (Some e))
           /\ added w (world_of r) = []
           /\ tmpfiles (world_of r) = tmpfiles w
       | Some executable =>
           added w (world_of r) = [EditorRun executable filename]
           /\ (fst (Run (os w) executable filename) = true ->
               result_of r = Returned None)
           /\ (fst (Run (os w) executable filename) = false ->
               exists e, result_of r = Returned (Some e))
       end.
Proof.
  intros filename w r wanted. unfold r.
  rewrite openFileInEditor_run.
  change (editor_name (os w)) with wanted.
  destruct (LookPath (os w) wanted) as [executable|].
  - destruct w as [o t i k f c]. unfold cmd_Run. simpl.
    destruct (Run o executable filename) as [[|] [contents|]]; simpl;
      (split; [reflexivity|]; split; [apply added_app; reflexivity|];
       split; [intros; try reflexivity; discriminate
              | intros; try discriminate; eexists; reflexivity]).
  - simpl. split; [reflexivity|]. split; [eexists; reflexivity|].
    split; [|reflexivity].
    apply added_app. symmetry. apply app_nil_r.
Qed.

(** ** What [show] can print *)

Lemma filter_none {A} (l : list A) : filter (fun _ => false) l = [].
Proof. induction l as [|x l IH]; simpl; auto. Qed.

(** A filter that returns after one query shows what the query kept. *)
Lemma shown_show_block (dbpath : string) (m : M unit) (w w2 : world)
      (q : event) (l : list row) :
  let w1 :=
    with_console (console w ++ [Executed CREATE_TABLE_IF_NOT_EXISTS_notes])
      (with_table (Some (rows_of (table w))) w) in
  m w1 = (Returned tt, w2) ->
  console w2 = console w1 ++ q :: map RowLine l ->
  is_query q = true ->
  shown (createTableIfNotExist dbpath;; m;; Close dbpath) w = l.
Proof.
  intros w1 Hm Hc Hq. unfold shown.
  rewrite bind_run, createTableIfNotExist_run. fold w1.
  rewrite bind_run, Hm. unfold Close, emit. simpl.
  erewrite added_app; cycle 1.
  { simpl. rewrite Hc. unfold w1. simpl. rewrite <- !app_assoc.
    reflexivity. }
  simpl. destruct q; try discriminate. simpl.
  rewrite rows_printed_app, rows_printed_RowLines. simpl. apply app_nil_r.
Qed.

Lemma shown_apply_filter (dbpath : string) (f : showFilter) (w : world) :
  exists keep,
    shown (createTableIfNotExist dbpath;; apply_filter f dbpath;;
           Close dbpath) w
    = filter keep (rows_of (table w)).
Proof.
  set (w1 := with_console
               (console w ++ [Executed CREATE_TABLE_IF_NOT_EXISTS_notes])
               (with_table (Some (rows_of (table w))) w)).
  assert (Ht : table w1 = Some (rows_of (table w))) by reflexivity.
  destruct f as [|i|d|m|y|date usa]; cbn [apply_filter].
  - eexists. eapply shown_show_block.
    + apply (query_print_run dbpath SELECT_ALL [] (fun _ => true)
               (rows_of (table w)) w1 Ht). reflexivity.
    + simpl. reflexivity.
    + reflexivity.
  - eexists. eapply shown_show_block.
    + apply (query_print_run dbpath WHERE_id [i] (fun r => id r =? i)
               (rows_of (table w)) w1 Ht). reflexivity.
    + simpl. reflexivity.
    + reflexivity.
  - eexists. eapply shown_show_block.
    + apply (showNoteByDay_run dbpath w1 (rows_of (table w)) d Ht).
    + simpl. reflexivity.
    + reflexivity.
  - eexists. eapply shown_show_block.
    + apply (showNoteByMonth_run dbpath w1 (rows_of (table w)) m Ht).
    + simpl. reflexivity.
    + reflexivity.
  - eexists. eapply shown_show_block.
    + apply (query_print_run dbpath WHERE_year [y] (fun r => year r =? y)
               (rows_of (table w)) w1 Ht). reflexivity.
    + simpl. reflexivity.
    + reflexivity.
  - destruct (strings.Split date "/") as [|a [|b [|c rest]]] eqn:Hd.
    1-3: exists (fun _ => false); rewrite filter_none; unfold shown;
      rewrite bind_run, createTableIfNotExist_run; fold w1;
      rewrite bind_run, showNoteByDate_short by (rewrite Hd; simpl; lia);
      (erewrite added_app; cycle 1; [simpl; reflexivity | reflexivity]).
    destruct (showNoteByDate_run date usa dbpath a b c rest _ w1 Hd Ht)
      as [keep [_ Hrun]].
    exists keep. eapply shown_show_block.
    + exact Hrun.
    + simpl. reflexivity.
    + reflexivity.
Qed.

(** X20: whatever its arguments and however it ends, [show] prints a
    selection of the stored rows, in table order: never a row that is not
    in the table, never a row more often than it is stored, never two rows
    in another order.  On a database without notes it prints no row. *)
Theorem show_prints_stored_rows :
  forall (prog : string) (arguments : list string) (w : world),
    (exists keep,
        shown (main (prog :: "show" :: arguments)) w
        = filter keep (rows_of (table w)))
    /\ (forall r, In r (shown (main (prog :: "show" :: arguments)) w) ->
                  In r (rows_of (table w)))
    /\ (rows_of (table w) = [] ->
        shown (main (prog :: "show" :: arguments)) w = []).
Proof.
  intros prog arguments w.
  assert (H : exists keep,
             shown (main (prog :: "show" :: arguments)) w
             = filter keep (rows_of (table w))).
  { assert (Hquiet : forall c ev,
               rows_printed
                 (added w (snd (Exited (A := unit) c,
                                with_console (console w ++ [FlagError ev]) w)))
               = filter (fun _ => false) (rows_of (table w))).
    { intros c ev. rewrite filter_none.
      erewrite added_app; cycle 1; [simpl; reflexivity | reflexivity]. }
    unfold shown. rewrite main_show_cases.
    destruct (flag.parse showCommand arguments showDefaults []) as [p| |];
      [| eexists; apply Hquiet | eexists; apply Hquiet].
    rewrite main_show_first_set.
    destruct (first_set (filters_in_order (flag.vars p))) as [f|].
    - apply shown_apply_filter.
    - exists (fun _ => false). rewrite filter_none.
      rewrite bind_run, createTableIfNotExist_run.
      erewrite added_app; cycle 1;
        [simpl; rewrite <- app_assoc; reflexivity | reflexivity]. }
  destruct H as [keep H]. split; [exists keep; exact H|]. split.
  - intros r. rewrite H, filter_In. tauto.
  - intros He. rewrite H, He. reflexivity.
Qed.

(** ** Finding a saved note by its date *)

(** X21: a note just saved is printed by the date filter for its own day,
    month and year, written day first without the usa flag or month first
    with it, whatever the clock says when the filter runs. *)
Theorem saved_note_found_by_full_date :
  forall (n : note) (database : sqlDB) (w : world) (rows : list row)
         (sd sm sy : string),
    table w = Some rows ->
    strings.ContainsByte sd "/" = false ->
    strings.ContainsByte sm "/" = false ->
    strings.ContainsByte sy "/" = false ->
    fst (strconv.Atoi sd) = time.Day (Time n) ->
    fst (strconv.Atoi sm) = time.Month (Time n) ->
    fst (strconv.Atoi sy) = time.Year (Time n) ->
    let new := saved_row rows n in
    let w1 := world_of (Save n database w) in
    In new (shown (showNoteByDate (slashed sd sm sy) false database) w1)
    /\ In new (shown (showNoteByDate (slashed sm sd sy) true database) w1)
    /\ ticks (world_of (showNoteByDate (slashed sd sm sy) false database w1))
       = ticks w.
Proof.
  intros n database w rows sd sm sy Ht Hd Hm Hy Ed Em Ey new w1.
  assert (Ht1 : table w1 = Some (rows ++ [new]))
    by (unfold w1; rewrite (Save_run n database w rows Ht); reflexivity).
  assert (Hticks : ticks w1 = ticks w)
    by (unfold w1; rewrite (Save_run n database w rows Ht);
        destruct w; reflexivity).
  assert (Hin : In new (rows ++ [new]))
    by (apply in_or_app; right; left; reflexivity).
  pose proof (Split_three_fields "/" sd sm sy Hd Hm Hy) as H1.
  pose proof (Split_three_fields "/" sm sd sy Hm Hd Hy) as H2.
  fold (slashed sd sm sy) in H1. fold (slashed sm sd sy) in H2.
  destruct (showNoteByDate_run _ false database _ _ _ _ _ w1 H1 Ht1)
    as [keep1 [Hk1 Hrun1]].
  destruct (showNoteByDate_run _ true database _ _ _ _ _ w1 H2 Ht1)
    as [keep2 [Hk2 Hrun2]].
  unfold date_fields in Hk1, Hk2. simpl in Hk1, Hk2.
  injection Hk1 as <-. injection Hk2 as <-.
  assert (Hkeep : (day new =? fst (strconv.Atoi sd))
                  && (month new =? fst (strconv.Atoi sm))
                  && (year new =? fst (strconv.Atoi sy)) = true).
  { rewrite Ed, Em, Ey. simpl. rewrite !Z.eqb_refl. reflexivity. }
  split; [|split].
  - erewrite shown_of_run; cycle 1;
      [exact Hrun1 | simpl; reflexivity | reflexivity |].
    apply filter_In. split; [exact Hin | exact Hkeep].
  - erewrite shown_of_run; cycle 1;
      [exact Hrun2 | simpl; reflexivity | reflexivity |].
    apply filter_In. split; [exact Hin | exact Hkeep].
  - rewrite Hrun1. simpl. exact Hticks.
Qed.

(** The note of noon, 5 March 2024, asked for as 05/03/2024. *)
Lemma saved_note_found_by_full_date_witness :
  let n := {| Time := noon; Text := "c"; Tags := ["x"] |} in
  In (saved_row [] n)
     (shown (showNoteByDate "05/03/2024" false "db")
            (world_of (Save n "db" (boot (Some []) [])))).
Proof.
  destruct (saved_note_found_by_full_date
              {| Time := noon; Text := "c"; Tags := ["x"] |} "db"
              (boot (Some []) []) [] "05" "03" "2024"
              eq_refl eq_refl eq_refl eq_refl eq_refl eq_refl eq_refl)
    as (H & _).
  exact H.
Defined.

(** ** The day and month filters on every table *)

(** X22: on every stored row set, the day filter prints exactly the rows
    whose day is the given value, whose month is the one the next reading
    of the clock gives and whose year is the one the reading after that
    gives, and
    the month filter prints exactly the rows whose month is the given value
    and whose year is the one the next reading of the clock gives; a row
    with the given day but another month or year than those two readings
    give is never printed by the day filter. *)
Theorem day_and_month_filters :
  forall (database : sqlDB) (w : world) (rows : list row) (d m : Z),
    table w = Some rows ->
    let month_now := time.Month (clock (os w) (ticks w)) in
    let year_next := time.Year (clock (os w) (S (ticks w))) in
    let year_now := time.Year (clock (os w) (ticks w)) in
    shown (showNoteByDay d database) w =
      filter (fun r => (day r =? d) && (month r =? month_now)
                       && (year r =? year_next)) rows
    /\ shown (showNoteByMonth m database) w =
         filter (fun r => (month r =? m) && (year r =? year_now)) rows
    /\ (forall r, In r (shown (showNoteByDay d database) w) <->
                  In r rows /\ day r = d /\ month r = month_now
                  /\ year r = year_next)
    /\ (forall r, In r (shown (showNoteByMonth m database) w) <->
                  In r rows /\ month r = m /\ year r = year_now)
    /\ (forall r, day r = d ->
                  month r <> month_now \/ year r <> year_next ->
                  ~ In r (shown (showNoteByDay d database) w)).
Proof.
  intros database w rows d m Ht month_now year_next year_now.
  assert (Hday : shown (showNoteByDay d database) w =
                 filter (fun r => (day r =? d) && (month r =? month_now)
                                  && (year r =? year_next)) rows).
  { eapply shown_of_run.
    - apply (showNoteByDay_run database w rows d Ht).
    - destruct w; reflexivity.
    - reflexivity. }
  assert (Hmonth : shown (showNoteByMonth m database) w =
                   filter (fun r => (month r =? m) && (year r =? year_now))
                          rows).
  { eapply shown_of_run.
    - apply (showNoteByMonth_run database w rows m Ht).
    - destruct w; reflexivity.
    - reflexivity. }
  split; [exact Hday|]. split; [exact Hmonth|].
  split; [|split].
  - intros r. rewrite Hday, filter_In.
    rewrite !andb_true_iff, !Z.eqb_eq. tauto.
  - intros r. rewrite Hmonth, filter_In.
    rewrite !andb_true_iff, !Z.eqb_eq. tauto.
  - intros r Hd Hne. rewrite Hday, filter_In.
    rewrite !andb_true_iff, !Z.eqb_eq. intros [_ [[_ Hm] Hy]].
    destruct Hne; congruence.
Qed.

(** A note of day 5 of the current month is shown by [show -day 5]; one of
    day 5 of another month is not. *)
Lemma day_and_month_filters_witness :
  let w := boot (Some [sample 1 5 3 2024 "a"; sample 2 5 4 2024 "b"]) [] in
  shown (showNoteByDay 5 "db") w = [sample 1 5 3 2024 "a"]
  /\ shown (showNoteByMonth 4 "db") w = [sample 2 5 4 2024 "b"].
Proof.
  pose proof (day_and_month_filters "db"
    (boot (Some [sample 1 5 3 2024 "a"; sample 2 5 4 2024 "b"]) [])
    [sample 1 5 3 2024 "a"; sample 2 5 4 2024 "b"] 5 4 eq_refl) as H.
  simpl in H. destruct H as [H1 [H2 _]]. split; [exact H1 | exact H2].
Defined.
